(** * Lampung Digital Resilience Monitor: the refresh store and the classifier

    A shallow embedding of the parts of the Python sources that the
    specification speaks about:

    - [modules/nlp_processor.py]: [process_complaint] and the functions
      it calls
    - [modules/social_signal.py]: [aggregate_by_kecamatan] and
      [get_social_score]
    - [modules/infra_probing.py]: [_ping_host],
      [aggregate_probe_by_kecamatan] and [get_infra_score]
    - [modules/bmkg_client.py]: [fetch_all_earthquakes] and
      [fetch_weather_warnings_lampung]
    - [modules/disaster_correlation.py]: the two assessments, [_risk_level]
      and [get_combined_disaster_risk]
    - [app.py]: [compute_kecamatan_status]
    - [modules/data_store.py]: the [DataStore] class

    Modelling conventions.

    - A Python [dict] keyed by region name is a [gmap string _].
    - Python numbers: an [int] is a [Z]; a [float] is idealised as an exact
      rational [Q] (no rounding error, no NaN or infinity), except in two
      places.  The coordinates of an earthquake are read from text and may
      be infinite or NaN ([Py.Float]).  The classifier compares a weighted
      sum with 30 and 60, where the rounding of one product decides the
      status, so [compute_kecamatan_status] is given on binary64 numbers
      ([AppBinary64]) as well as on rationals ([App]).  The built-ins
      [max], [abs] and [round] are written out in [Module Py].
    - A call that may raise returns a [result]; the [try] block of
      [_do_fetch] runs in that error monad.
    - The store is a record; every method is a function on it.  The
      network, the subprocesses and the clock are the [World] a cycle reads. *)

From Stdlib Require Import ZArith QArith Qround Qabs Lia Lqa.
From Stdlib Require Floats.
From stdpp Require Import gmap strings list sorting pretty.

Local Open Scope Q_scope.

(* A decimal literal of [float_scope] is the nearest binary64 number, as a
   float literal of Python is. *)
Set Warnings "-inexact-float".

(** ** Python built-ins on numbers *)

Module Py.

(** [a < b] on floats, as a boolean. *)
Definition Qlt_bool (a b : Q) : bool := negb (Qle_bool b a).

(** [max(a, b)]: CPython keeps the first argument unless a later one is
    strictly greater. *)
Definition max (a b : Q) : Q := if Qlt_bool a b then b else a.

(** Rounding to the nearest integer, ties to the even one. *)
Definition round_half_even (x : Q) : Z :=
  let f := Qfloor x in
  match Qcompare (x - inject_Z f) 0.5 with
  | Lt => f
  | Gt => (f + 1)%Z
  | Eq => if Z.even f then f else (f + 1)%Z
  end.

(** [round(x, ndigits)] for a float [x] and [ndigits >= 0]. *)
Definition round (x : Q) (ndigits : nat) : Q :=
  let scale := inject_Z (10 ^ Z.of_nat ndigits) in
  inject_Z (round_half_even (x * scale)) / scale.

(** The value of the finite binary64 number with mantissa [m] and
    exponent [e]. *)
Definition Q_of_finite (m : positive) (e : Z) : Q :=
  inject_Z (Z.pos m) * Qpower 2 e.

(** [round(x, ndigits)] for a binary64 float [x] and [ndigits >= 0]: a NaN
    or an infinity is returned as it is; a finite [x] goes to the decimal
    with [ndigits] digits after the point that is nearest to its exact
    value (ties to the even digit), and that decimal, with the sign of
    [x], back to the nearest binary64 number. *)
Definition float_round (x : PrimFloat.float) (ndigits : nat) : PrimFloat.float :=
  match FloatOps.Prim2SF x with
  | SpecFloat.S754_finite s m e =>
      let scale := (10 ^ Z.of_nat ndigits)%Z in
      match round_half_even (Q_of_finite m e * inject_Z scale) with
      | Z.pos k =>
          FloatOps.SF2Prim
            (SpecFloat.SFdiv FloatOps.prec FloatOps.emax
               (SpecFloat.S754_finite s k 0)
               (SpecFloat.S754_finite false (Z.to_pos scale) 0))
      | _ => FloatOps.SF2Prim (SpecFloat.S754_zero s)
      end
  | _ => x
  end.

(** [sum(l)] of a list of floats: from 0, left to right. *)
Definition sum (l : list Q) : Q := foldl Qplus 0 l.

(** [len(l)], where it is used as a float. *)
Definition len {A : Type} (l : list A) : Q := inject_Z (Z.of_nat (length l)).

(** [l.sort(key=k, reverse=True)] and [sorted(l, key=k, reverse=True)]: a
    stable sort into descending order of the keys.  [le y x] says that the
    key of [y] is at most the key of [x]; an element goes in front of the
    first one whose key is not greater than its own, so equal keys keep
    the order they came in. *)
Fixpoint insert_desc {A : Type} (le : A → A → bool) (x : A) (l : list A)
  : list A :=
  match l with
  | [] => [x]
  | y :: l' => if le y x then x :: y :: l' else y :: insert_desc le x l'
  end.

Definition sort_desc {A : Type} (le : A → A → bool) (l : list A) : list A :=
  foldr (insert_desc le) [] l.

(** [collections.Counter(l)] as the list of its items: the distinct
    elements in the order they first occur, each with its count. *)
Fixpoint counter_incr (x : string) (c : list (string * Z)) : list (string * Z) :=
  match c with
  | [] => [(x, 1%Z)]
  | (y, n) :: c' =>
      if (x =? y)%string then (y, (n + 1)%Z) :: c' else (y, n) :: counter_incr x c'
  end.

Definition Counter (l : list string) : list (string * Z) :=
  foldl (λ c x, counter_incr x c) [] l.

(** [c.most_common(n)]: the [n] items with the highest counts, highest
    first, equal counts in the order of first occurrence. *)
Definition most_common (n : nat) (c : list (string * Z)) : list (string * Z) :=
  take n (sort_desc (λ a b, (a.2 <=? b.2)%Z) c).

(** [l.count(x)] for a list of strings. *)
Definition count (x : string) (l : list string) : Z :=
  Z.of_nat (length (filter (λ y, y = x) l)).

(** A float as [float(s)] reads it from a string: a finite value, an
    infinity ("inf", "-inf", "1e999") or a NaN. *)
Inductive Float :=
| Fin (x : Q)
| Inf (negative : bool)
| NaN.

(** [min(a, b)]: the first argument unless a later one is strictly
    smaller. *)
Definition min (a b : Q) : Q := if Qlt_bool b a then b else a.

(** [sub in s] for two strings. *)
Definition contains (sub s : string) : bool :=
  match String.index 0 sub s with
  | Some _ => true
  | None => false
  end.

(** The loop
    [[
    seen = set(); unique = []
    for x in l:
        if key(x) not in seen:
            seen.add(key(x)); unique.append(x)
    ]]
    with the set [seen] as the list of its keys and [same] the equality of
    keys. *)
Section KeepFirst.

Context {A K : Type} (key : A → K) (same : K → K → bool).

Definition keep_first_step (acc : list K * list A) (x : A) : list K * list A :=
  if existsb (same (key x)) acc.1 then acc
  else (key x :: acc.1, acc.2 ++ [x]).

Definition keep_first (l : list A) : list A :=
  (foldl keep_first_step ([], []) l).2.

End KeepFirst.

End Py.

(** ** Decoded JSON

    What [resp.json()] returns: the value of a JSON document, a dict being
    the list of its items in the order of the document. *)

Module Json.

#[warnings="-register-all"]
Inductive t :=
  | Null
  | Bool (b : bool)
  | Number (x : Q)
  | String (s : string)
  | List (items : list t)
  | Dict (items : list (string * t)).

(** [d.get(k)] for the items of a dict. *)
Definition get (items : list (string * t)) (k : string) : option t :=
  (λ found, found.2.2) <$> list_find (λ item, item.1 = k) items.

End Json.

(** ** Exceptions

    Only instances of Python's [Exception] are modelled: they are the ones
    an [except Exception] clause catches. *)

Record Exception := {
  exc_class : string;
  (** what [str(e)] returns *)
  exc_str : string;
}.

Inductive result (A : Type) : Type :=
| Ok (a : A)
| Raise (e : Exception).

Arguments Ok {A} a.
Arguments Raise {A} e.

#[global] Instance result_ret : MRet result := λ A a, Ok a.
#[global] Instance result_bind : MBind result := λ A B f r,
  match r with
  | Ok a => f a
  | Raise e => Raise e
  end.

(** ** modules/nlp_processor.py: the dict [process_complaint] returns *)

Module NlpProcessor.

Record Signal := {
  id : string;
  timestamp : string;
  source : string;
  original_text : string;
  locations_detected : list string;
  primary_location : string;
  providers_detected : list string;
  primary_provider : string;
  issue_type : string;
  sentiment_score : Q;
  severity : string;
  is_digital_issue : bool;
}.

(** [data/keywords.json], as [load_keywords] reads it: the keys the module
    uses, a dict being the list of its items. *)
Record Keywords := {
  digital_issue_keywords : list string;
  non_digital_keywords : list string;
  power_outage_keywords : list string;
  provider_keywords : list (string * list string);
  severity_keywords_critical : list string;
  severity_keywords_warning : list string;
}.

(** The keys [process_complaint] reads with [raw_complaint.get], each
    there or not. *)
Record RawComplaint := {
  raw_id : option string;
  raw_timestamp : option string;
  raw_source : option string;
  raw_text : option string;
}.

(** The names as the source lists them, and the list after
    [LOCATION_GAZETTEER.sort(key=len, reverse=True)]. *)
Definition LOCATION_GAZETTEER_listed : list string := [
  "Tanjung Karang Pusat"; "Tanjung Karang Barat"; "Tanjung Karang Timur";
  "Teluk Betung Utara"; "Teluk Betung Barat"; "Teluk Betung Selatan";
  "Kedaton"; "Sukarame"; "Way Halim"; "Rajabasa"; "Kemiling"; "Langkapura";
  "Enggal"; "Kedamaian"; "Labuhan Ratu"; "Sukabumi"; "Tanjung Senang";
  "Way Kandis"; "Metro Pusat"; "Metro Timur"; "Metro Barat"; "Kalianda";
  "Natar"; "Jati Agung"; "Tanjung Bintang"; "Sidomulyo"; "Bakauheni";
  "Pringsewu"; "Gunung Sugih"; "Terbanggi Besar"; "Kotabumi"; "Sukadana";
  "Gedong Tataan"; "Kota Agung"; "Liwa"; "Blambangan Umpu"; "Menggala";
  "Tulang Bawang Tengah"; "Bandar Lampung"; "Bandarlampung";
  "Lampung Selatan"; "Lampung Tengah"; "Lampung Utara"; "Lampung Timur";
  "Lampung Barat"; "Tulang Bawang Barat"; "Tulang Bawang"; "Pesawaran";
  "Tanggamus"; "Way Kanan"; "Mesuji"; "Pesisir Barat"; "Lamsel"; "Lamteng";
  "Lamut"; "Lamtim"; "Lambar"
]%string.

Definition LOCATION_GAZETTEER : list string :=
  Py.sort_desc (λ a b, (String.length a <=? String.length b)%nat)
               LOCATION_GAZETTEER_listed.

Definition LOCATION_ALIASES : gmap string string :=
  list_to_map [
    ("bandarlampung", "Bandar Lampung");
    ("lamsel", "Lampung Selatan");
    ("lamteng", "Lampung Tengah");
    ("lamut", "Lampung Utara");
    ("lamtim", "Lampung Timur");
    ("lambar", "Lampung Barat")
  ]%string.

Section Pipeline.

(** The keywords file, [str.lower], and [normalize_text] (lower case,
    strip, four regular-expression substitutions). *)
Variable KEYWORDS : Keywords.
Variable lower : string → string.
Variable normalize_text : string → string.

(** [canonical] is shorter than a location already found that contains it
    or is contained in it. *)
Definition is_subset (canonical_name : string) (found_locations : list string) : bool :=
  existsb
    (λ existing,
       (Py.contains (lower canonical_name) (lower existing)
        || Py.contains (lower existing) (lower canonical_name))
       && (String.length canonical_name <? String.length existing)%nat)
    found_locations.

(** The body of [for location in LOCATION_GAZETTEER]. *)
Definition extract_location (text_lower : string)
    (found_locations : list string) (location : string) : list string :=
  let loc_lower := lower location in
  if Py.contains loc_lower text_lower then
    let canonical_name := default location (LOCATION_ALIASES !! loc_lower) in
    if is_subset canonical_name found_locations then found_locations
    else
      filter (λ ex, negb (Py.contains (lower ex) (lower canonical_name)
                          && (String.length ex <? String.length canonical_name)%nat)
                    = true)
             found_locations
      ++ [canonical_name]
  else found_locations.

Definition extract_locations (text : string) : list string :=
  let text_lower := lower text in
  foldl (extract_location text_lower) [] LOCATION_GAZETTEER.

(** A loop [for kw in keywords: if kw.lower() in text_lower: score += weight]. *)
Definition keyword_score (weight : Z) (keywords : list string)
    (text_lower : string) (score : Z) : Z :=
  foldl (λ score kw,
           if Py.contains (lower kw) text_lower then (score + weight)%Z
           else score)
        score keywords.

Definition classify_issue (text : string) : string :=
  let text_lower := normalize_text text in
  let digital_score :=
    keyword_score 1 (digital_issue_keywords KEYWORDS) text_lower 0 in
  let non_digital_score :=
    keyword_score 2 (non_digital_keywords KEYWORDS) text_lower 0 in
  let power_score :=
    keyword_score 1 (power_outage_keywords KEYWORDS) text_lower 0 in
  if (non_digital_score >? digital_score)%Z && (power_score =? 0)%Z
  then "non_digital"%string
  else if (power_score >? 0)%Z && (digital_score =? 0)%Z
  then "power_outage"%string
  else if (digital_score >? 0)%Z || (power_score >? 0)%Z
  then "digital"%string
  else "unknown"%string.

(** The body of [for provider, keywords in ....items()]: the inner loop
    stops at the first keyword found. *)
Definition detect_provider (text_lower : string)
    (detected_providers : list string) (item : string * list string)
  : list string :=
  if existsb (λ kw, Py.contains (lower kw) text_lower) item.2
  then
    if bool_decide (item.1 ∈ detected_providers) then detected_providers
    else detected_providers ++ [item.1]
  else detected_providers.

Definition extract_provider (text : string) : list string :=
  let text_lower := normalize_text text in
  let detected_providers :=
    foldl (detect_provider text_lower) [] (provider_keywords KEYWORDS) in
  match detected_providers with
  | [] => ["Unknown"%string]
  | _ => detected_providers
  end.

(** A loop [for word in words: if word in text_lower: score += step]. *)
Definition word_score (step : Q) (words : list string) (text_lower : string)
    (score : Q) : Q :=
  foldl (λ score word,
           if Py.contains word text_lower then score + step else score)
        score words.

Definition severe_words : list string :=
  ["mati total"; "rto"; "down"; "padam"; "tidak bisa"; "error"]%string.
Definition moderate_words : list string :=
  ["lemot"; "lambat"; "gangguan"; "putus"; "buffering"]%string.
Definition mild_words : list string := ["agak"; "sedikit"; "kadang"]%string.
Definition intensifier_words : list string :=
  ["banget"; "parah"; "sangat"; "terus"; "tiap hari"; "seharian"]%string.

Definition calculate_sentiment (text : string) : Q :=
  let text_lower := normalize_text text in
  let score := -0.3 in
  let score := word_score (-0.25) severe_words text_lower score in
  let score := word_score (-0.15) moderate_words text_lower score in
  let score := word_score 0.1 mild_words text_lower score in
  let score := word_score (-0.1) intensifier_words text_lower score in
  Py.max (-1.0) (Py.min 0.0 (Py.round score 2)).

Definition determine_severity (text : string) : string :=
  let text_lower := normalize_text text in
  if existsb (λ kw, Py.contains kw text_lower)
       (severity_keywords_critical KEYWORDS)
  then "critical"%string
  else if existsb (λ kw, Py.contains kw text_lower)
            (severity_keywords_warning KEYWORDS)
  then "warning"%string
  else "normal"%string.

(** [process_complaint]; [now] is [datetime.now().isoformat()] at the
    call. *)
Definition process_complaint (now : string) (raw_complaint : RawComplaint)
  : Signal :=
  let text := default ""%string (raw_text raw_complaint) in
  let locations := extract_locations text in
  let issue := classify_issue text in
  let providers := extract_provider text in
  let sentiment := calculate_sentiment text in
  let sev := determine_severity text in
  {| id := default ""%string (raw_id raw_complaint);
     timestamp := default now (raw_timestamp raw_complaint);
     source := default "unknown"%string (raw_source raw_complaint);
     original_text := text;
     locations_detected := locations;
     primary_location := default "Unknown"%string (head locations);
     providers_detected := providers;
     primary_provider := default "Unknown"%string (head providers);
     issue_type := issue;
     sentiment_score := sentiment;
     severity := sev;
     is_digital_issue :=
       bool_decide (issue ∈ ["digital"; "power_outage"]%string) |}.

(** [process_batch], each complaint with the clock reading of its call. *)
Definition process_batch (raw_complaints : list (string * RawComplaint))
  : list Signal :=
  (λ c, process_complaint c.1 c.2) <$> raw_complaints.

End Pipeline.

End NlpProcessor.

(** ** modules/social_signal.py *)

Module SocialSignal.

(** One entry of [latest_reports]. *)
Record Report := {
  time : string;
  text : string;
  provider : string;
  severity : string;
}.

(** The value [aggregate_by_kecamatan] stores per kecamatan (after its
    clean-up of the raw lists). *)
Record Aggregate := {
  complaint_count : Z;
  latest_reports : list Report;
  avg_sentiment : Q;
  top_providers : list (string * Z);
  max_severity : string;
}.

(** [severity_mult.get(severity, 1.0)] *)
Definition severity_mult (severity : string) : Q :=
  if (severity =? "critical")%string then 0.5
  else if (severity =? "warning")%string then 0.75
  else 1.0.

(** The body of the loop of [get_social_score]. *)
Definition social_score_of (data : Aggregate) : Q :=
  let count := complaint_count data in
  let avg_sent := avg_sentiment data in
  let severity := max_severity data in
  let count_score := Z.max 0 (100 - count * 15) in
  let sentiment_penalty := Qabs avg_sent * 30 in
  let mult := severity_mult severity in
  let score := Py.max 0 ((inject_Z count_score - sentiment_penalty) * mult) in
  Py.round score 1.

(** [get_social_score]: one score per key of the aggregation. *)
Definition get_social_score (kecamatan_aggregation : gmap string Aggregate)
  : gmap string Q :=
  social_score_of <$> kecamatan_aggregation.

(** The lists [aggregate_by_kecamatan] collects per kecamatan in its first
    loop. *)
Module Raw.
Record t := {
  complaint_count : Z;
  sentiments : list Q;
  providers : list string;
  severities : list string;
  latest_reports : list Report;
}.
End Raw.

(** The entry of [latest_reports] made from a signal. *)
Definition report_of (signal : NlpProcessor.Signal) : Report :=
  {| time := NlpProcessor.timestamp signal;
     text := NlpProcessor.original_text signal;
     provider := NlpProcessor.primary_provider signal;
     severity := NlpProcessor.severity signal |}.

(** The body of the first loop of [aggregate_by_kecamatan]. *)
Definition add_signal (aggregated : gmap string Raw.t)
    (signal : NlpProcessor.Signal) : gmap string Raw.t :=
  let kec := NlpProcessor.primary_location signal in
  if (kec =? "Unknown")%string then aggregated
  else
    let data :=
      default {| Raw.complaint_count := 0; Raw.sentiments := [];
                 Raw.providers := []; Raw.severities := [];
                 Raw.latest_reports := [] |}
              (aggregated !! kec) in
    <[kec :=
        {| Raw.complaint_count := (Raw.complaint_count data + 1)%Z;
           Raw.sentiments :=
             Raw.sentiments data ++ [NlpProcessor.sentiment_score signal];
           Raw.providers :=
             Raw.providers data ++ NlpProcessor.providers_detected signal;
           Raw.severities := Raw.severities data ++ [NlpProcessor.severity signal];
           Raw.latest_reports := Raw.latest_reports data ++ [report_of signal] |}]>
      aggregated.

(** The body of the second loop of [aggregate_by_kecamatan].  The reports
    are sorted on their time strings, newest first, and the first five
    kept; strings compare character by character. *)
Definition signal_statistics (data : Raw.t) : Aggregate :=
  {| complaint_count := Raw.complaint_count data;
     latest_reports :=
       take 5 (Py.sort_desc (λ a b, String.leb (time a) (time b))
                            (Raw.latest_reports data));
     avg_sentiment :=
       match Raw.sentiments data with
       | [] => 0
       | _ => Py.round (Py.sum (Raw.sentiments data)
                        / Py.len (Raw.sentiments data)) 2
       end;
     top_providers := Py.most_common 3 (Py.Counter (Raw.providers data));
     max_severity :=
       if bool_decide ("critical"%string ∈ Raw.severities data) then "critical"
       else if bool_decide ("warning"%string ∈ Raw.severities data) then "warning"
       else "normal" |}.

(** [aggregate_by_kecamatan] *)
Definition aggregate_by_kecamatan (processed_signals : list NlpProcessor.Signal)
  : gmap string Aggregate :=
  let digital_signals :=
    filter (λ s, NlpProcessor.is_digital_issue s = true) processed_signals in
  signal_statistics <$> foldl add_signal ∅ digital_signals.

End SocialSignal.

(** ** modules/infra_probing.py *)

Module InfraProbing.

(** One result of [probe_anchors]. *)
Record ProbeResult := {
  host : string;
  nama_lokasi : string;
  kecamatan : string;
  kabupaten : string;
  latency_ms : Q;
  packet_loss_pct : Q;
  status : string;
  timestamp : string;
}.

(** The value [aggregate_probe_by_kecamatan] stores per kecamatan (after
    its clean-up of the raw lists). *)
Record Aggregate := {
  anchors : list ProbeResult;
  overall_status : string;
  avg_latency : Q;
  avg_packet_loss : Q;
  anchor_count : Z;
  rto_count : Z;
}.

(** The body of the loop of [get_infra_score]. *)
Definition infra_score_of (data : Aggregate) : Q :=
  let status := overall_status data in
  let avg_loss := avg_packet_loss data in
  let avg_lat := avg_latency data in
  if (status =? "DOWN")%string then 0.0
  else if (status =? "DEGRADED")%string then
    let loss_score := Py.max 0 (100 - avg_loss) in
    let lat_score :=
      if Py.Qlt_bool 0 avg_lat then Py.max 0 (100 - (avg_lat / 10)) else 50 in
    Py.round ((loss_score + lat_score) / 2) 1
  else 100.0.

(** [get_infra_score]: one score per key of the aggregation. *)
Definition get_infra_score (kecamatan_aggregation : gmap string Aggregate)
  : gmap string Q :=
  infra_score_of <$> kecamatan_aggregation.

(** What [_ping_host] returns. *)
Module Ping.
Record t := {
  latency_ms : Q;
  packet_loss_pct : Q;
  status : string;
}.
End Ping.

Section PingHost.

(** The two parsers of the ping output ([_parse_packet_loss] and
    [_parse_latency], regular expressions over the text), as functions of
    the output and the system name. *)
Variable _parse_packet_loss : string → string → Q.
Variable _parse_latency : string → string → option Q.

(** [_ping_host].  [run] is what [subprocess.run] gave: the text of
    stdout and stderr, or the exception it raised (a timeout or any
    other). *)
Definition _ping_host (system : string) (run : result string) : Ping.t :=
  match run with
  | Ok output =>
      let packet_loss := _parse_packet_loss output system in
      let latency := _parse_latency output system in
      let '(status, latency) :=
        if Qle_bool 100 packet_loss then ("RTO"%string, Some (-1))
        else if Py.Qlt_bool 20 packet_loss
                || match latency with
                   | Some l => Py.Qlt_bool 200 l
                   | None => false
                   end
        then ("HIGH_LATENCY"%string, latency)
        else ("OK"%string, latency) in
      {| Ping.latency_ms :=
           match latency with
           | Some l => if Qle_bool 0 l then Py.round l 1 else -1
           | None => -1
           end;
         Ping.packet_loss_pct := packet_loss;
         Ping.status := status |}
  | Raise _ =>
      {| Ping.latency_ms := -1;
         Ping.packet_loss_pct := 100.0;
         Ping.status := "RTO" |}
  end.

End PingHost.

(** The lists [aggregate_probe_by_kecamatan] collects per kecamatan in its
    first loop. *)
Module Raw.
Record t := {
  anchors : list ProbeResult;
  latencies : list Q;
  packet_losses : list Q;
  statuses : list string;
}.
End Raw.

(** The body of the first loop of [aggregate_probe_by_kecamatan]. *)
Definition add_probe (aggregated : gmap string Raw.t) (result : ProbeResult)
  : gmap string Raw.t :=
  let kec := kecamatan result in
  let data :=
    default {| Raw.anchors := []; Raw.latencies := [];
               Raw.packet_losses := []; Raw.statuses := [] |}
            (aggregated !! kec) in
  <[kec :=
      {| Raw.anchors := Raw.anchors data ++ [result];
         Raw.latencies :=
           if Qle_bool 0 (latency_ms result)
           then Raw.latencies data ++ [latency_ms result]
           else Raw.latencies data;
         Raw.packet_losses := Raw.packet_losses data ++ [packet_loss_pct result];
         Raw.statuses := Raw.statuses data ++ [status result] |}]>
    aggregated.

(** The body of the second loop of [aggregate_probe_by_kecamatan]. *)
Definition probe_statistics (data : Raw.t) : Aggregate :=
  let rto_count := Py.count "RTO" (Raw.statuses data) in
  let high_lat_count := Py.count "HIGH_LATENCY" (Raw.statuses data) in
  let total := Z.of_nat (length (Raw.statuses data)) in
  {| anchors := Raw.anchors data;
     overall_status :=
       if (rto_count =? total)%Z then "DOWN"
       else if (rto_count >? 0)%Z || (high_lat_count >? 0)%Z then "DEGRADED"
       else "OK";
     avg_latency :=
       match Raw.latencies data with
       | [] => -1
       | _ => Py.round (Py.sum (Raw.latencies data)
                        / Py.len (Raw.latencies data)) 1
       end;
     avg_packet_loss :=
       Py.round (Py.sum (Raw.packet_losses data)
                 / Py.len (Raw.packet_losses data)) 1;
     anchor_count := total;
     rto_count := rto_count |}.

(** [aggregate_probe_by_kecamatan] *)
Definition aggregate_probe_by_kecamatan (probe_results : list ProbeResult)
  : gmap string Aggregate :=
  probe_statistics <$> foldl add_probe ∅ probe_results.

End InfraProbing.


(** ** utils/mock_data.py *)

Module MockData.

Record KecInfo := {
  kabupaten : string;
  lat : Q;
  lon : Q;
}.

(** [KECAMATAN_DB], in the order the dict literal lists its keys. *)
Definition KECAMATAN_DB : list (string * KecInfo) := [
  ("Tanjung Karang Pusat", {| kabupaten := "Bandar Lampung"; lat := -5.4175; lon := 105.2621 |});
  ("Tanjung Karang Barat", {| kabupaten := "Bandar Lampung"; lat := -5.4200; lon := 105.2400 |});
  ("Tanjung Karang Timur", {| kabupaten := "Bandar Lampung"; lat := -5.4150; lon := 105.2750 |});
  ("Teluk Betung Utara", {| kabupaten := "Bandar Lampung"; lat := -5.4294; lon := 105.2618 |});
  ("Teluk Betung Barat", {| kabupaten := "Bandar Lampung"; lat := -5.4500; lon := 105.2400 |});
  ("Teluk Betung Selatan", {| kabupaten := "Bandar Lampung"; lat := -5.4600; lon := 105.2550 |});
  ("Kedaton", {| kabupaten := "Bandar Lampung"; lat := -5.3950; lon := 105.2500 |});
  ("Sukarame", {| kabupaten := "Bandar Lampung"; lat := -5.3836; lon := 105.2717 |});
  ("Way Halim", {| kabupaten := "Bandar Lampung"; lat := -5.3900; lon := 105.2850 |});
  ("Rajabasa", {| kabupaten := "Bandar Lampung"; lat := -5.3648; lon := 105.2436 |});
  ("Kemiling", {| kabupaten := "Bandar Lampung"; lat := -5.3800; lon := 105.2200 |});
  ("Langkapura", {| kabupaten := "Bandar Lampung"; lat := -5.3700; lon := 105.2350 |});
  ("Enggal", {| kabupaten := "Bandar Lampung"; lat := -5.4260; lon := 105.2580 |});
  ("Kedamaian", {| kabupaten := "Bandar Lampung"; lat := -5.4100; lon := 105.2700 |});
  ("Labuhan Ratu", {| kabupaten := "Bandar Lampung"; lat := -5.3750; lon := 105.2650 |});
  ("Sukabumi", {| kabupaten := "Bandar Lampung"; lat := -5.4050; lon := 105.2900 |});
  ("Tanjung Senang", {| kabupaten := "Bandar Lampung"; lat := -5.3700; lon := 105.2950 |});
  ("Way Kandis", {| kabupaten := "Bandar Lampung"; lat := -5.3600; lon := 105.2550 |});
  ("Metro Pusat", {| kabupaten := "Metro"; lat := -5.1140; lon := 105.3060 |});
  ("Metro Timur", {| kabupaten := "Metro"; lat := -5.1100; lon := 105.3200 |});
  ("Metro Barat", {| kabupaten := "Metro"; lat := -5.1180; lon := 105.2900 |});
  ("Kalianda", {| kabupaten := "Lampung Selatan"; lat := -5.7230; lon := 105.6170 |});
  ("Natar", {| kabupaten := "Lampung Selatan"; lat := -5.3100; lon := 105.2800 |});
  ("Jati Agung", {| kabupaten := "Lampung Selatan"; lat := -5.3300; lon := 105.3000 |});
  ("Tanjung Bintang", {| kabupaten := "Lampung Selatan"; lat := -5.3500; lon := 105.3600 |});
  ("Sidomulyo", {| kabupaten := "Lampung Selatan"; lat := -5.5500; lon := 105.5500 |});
  ("Bakauheni", {| kabupaten := "Lampung Selatan"; lat := -5.8700; lon := 105.7500 |});
  ("Pringsewu", {| kabupaten := "Pringsewu"; lat := -5.3580; lon := 104.9830 |});
  ("Gunung Sugih", {| kabupaten := "Lampung Tengah"; lat := -4.8800; lon := 105.2700 |});
  ("Terbanggi Besar", {| kabupaten := "Lampung Tengah"; lat := -4.8400; lon := 105.2900 |});
  ("Kotabumi", {| kabupaten := "Lampung Utara"; lat := -4.8300; lon := 104.8900 |});
  ("Sukadana", {| kabupaten := "Lampung Timur"; lat := -5.3900; lon := 105.5100 |});
  ("Gedong Tataan", {| kabupaten := "Pesawaran"; lat := -5.3900; lon := 105.0800 |});
  ("Kota Agung", {| kabupaten := "Tanggamus"; lat := -5.4900; lon := 104.6300 |});
  ("Liwa", {| kabupaten := "Lampung Barat"; lat := -5.0500; lon := 104.0700 |});
  ("Blambangan Umpu", {| kabupaten := "Way Kanan"; lat := -4.6500; lon := 104.5500 |});
  ("Menggala", {| kabupaten := "Tulang Bawang"; lat := -4.5400; lon := 105.2400 |});
  ("Tulang Bawang Tengah", {| kabupaten := "Tulang Bawang Barat"; lat := -4.4500; lon := 105.0500 |})
].

End MockData.

(** ** modules/disaster_correlation.py *)

Module DisasterCorrelation.

(** A record of [_normalize_gempa] (modules/bmkg_client.py). *)
Module Earthquake.
Record t := {
  timestamp : string;
  magnitude : Q;
  depth_km : Z;
  latitude : option Py.Float;
  longitude : option Py.Float;
  location : string;
  dirasakan : string;
  potensi : string;
  source : string;
}.
End Earthquake.

(** A weather warning of [fetch_weather_warnings_lampung]. *)
Module Warning.
Record t := {
  timestamp : string;
  type : string;
  level : string;
  impact : string;
  affected_kecamatan : list string;
  source : string;
  (** the JSON item the warning was read from, when it is kept *)
  raw : option string;
}.
End Warning.

(** A value of the dict [assess_earthquake_risk] returns. *)
Module EqRisk.
Record t := {
  risk : string;
  cause : string;
  distance_km : Q;
  earthquake_detail : Earthquake.t;
}.
End EqRisk.

(** A value of the dict [assess_weather_risk] returns. *)
Module WeatherRisk.
Record t := {
  risk : string;
  cause : string;
  warning_detail : Warning.t;
}.
End WeatherRisk.

(** A value of [risk_map]. *)
Module Risk.
Record t := {
  risk : string;
  causes : list string;
  eq_detail : option EqRisk.t;
  weather_detail : option WeatherRisk.t;
}.
End Risk.

(** What [fetch_disaster_data] returns, kept as ["metadata"]. *)
Record Metadata := {
  earthquakes : list Earthquake.t;
  weather_warnings : list Warning.t;
}.

(** What [get_combined_disaster_risk] returns. *)
Record DisasterData := {
  risk_map : gmap string Risk.t;
  metadata : Metadata;
}.

(** [{"HIGH": 3, "MEDIUM": 2, "LOW": 1}.get(risk_str, 0)] *)
Definition _risk_level (risk_str : string) : Z :=
  if (risk_str =? "HIGH")%string then 3
  else if (risk_str =? "MEDIUM")%string then 2
  else if (risk_str =? "LOW")%string then 1
  else 0.

(** The body of [for kec in all_kecamatan] in
    [get_combined_disaster_risk]: the value stored at [combined[kec]]. *)
Definition combined_entry (eq_risk : gmap string EqRisk.t)
    (weather_risk : gmap string WeatherRisk.t) (kec : string) : Risk.t :=
  let causes := [] in
  let max_risk := "LOW"%string in
  let '(causes, max_risk) :=
    match eq_risk !! kec with
    | Some e =>
        (causes ++ [EqRisk.cause e],
         if (_risk_level (EqRisk.risk e) >? _risk_level max_risk)%Z
         then EqRisk.risk e else max_risk)
    | None => (causes, max_risk)
    end in
  let '(causes, max_risk) :=
    match weather_risk !! kec with
    | Some w =>
        (causes ++ [WeatherRisk.cause w],
         if (_risk_level (WeatherRisk.risk w) >? _risk_level max_risk)%Z
         then WeatherRisk.risk w else max_risk)
    | None => (causes, max_risk)
    end in
  {| Risk.risk := max_risk;
     Risk.causes := causes;
     Risk.eq_detail := eq_risk !! kec;
     Risk.weather_detail := weather_risk !! kec |}.

(** The loop of [get_combined_disaster_risk] over
    [all_kecamatan = set(list(eq_risk.keys()) + list(weather_risk.keys()))]. *)
Definition combined_risk_map (eq_risk : gmap string EqRisk.t)
    (weather_risk : gmap string WeatherRisk.t) : gmap string Risk.t :=
  let all_kecamatan : gset string := dom eq_risk ∪ dom weather_risk in
  set_fold (λ kec combined,
              <[kec := combined_entry eq_risk weather_risk kec]> combined)
           ∅ all_kecamatan.

(** [get_combined_disaster_risk].  The BMKG requests of
    [fetch_disaster_data] and the two [assess_*] functions (great-circle
    distances) are its collaborators; each may raise. *)
Definition get_combined_disaster_risk
    (fetch_disaster_data : result Metadata)
    (assess_earthquake_risk :
       list Earthquake.t → result (gmap string EqRisk.t))
    (assess_weather_risk :
       list Warning.t → result (gmap string WeatherRisk.t))
  : result DisasterData :=
  data ← fetch_disaster_data;
  eq_risk ← assess_earthquake_risk (earthquakes data);
  weather_risk ← assess_weather_risk (weather_warnings data);
  mret {| risk_map := combined_risk_map eq_risk weather_risk;
          metadata := {| earthquakes := earthquakes data;
                         weather_warnings := weather_warnings data |} |}.

(** [risk_map.get(level, "LOW")] of [assess_weather_risk] *)
Definition weather_level_risk (level : string) : string :=
  if (level =? "ALERT")%string then "HIGH"
  else if (level =? "WARNING")%string then "MEDIUM"
  else if (level =? "ADVISORY")%string then "LOW"
  else "LOW".

(** [kec not in affected or _risk_level(risk) > _risk_level(affected[kec]["risk"])],
    for the level [old] of the entry that is there, if any. *)
Definition takes_over (risk : string) (old : option string) : bool :=
  match old with
  | None => true
  | Some old_risk => (_risk_level risk >? _risk_level old_risk)%Z
  end.

(** The entry [assess_weather_risk] stores for a warning. *)
Definition weather_entry (warning : Warning.t) : WeatherRisk.t :=
  let level := Warning.level warning in
  let risk := weather_level_risk level in
  {| WeatherRisk.risk := risk;
     WeatherRisk.cause := Warning.type warning;
     WeatherRisk.warning_detail := warning |}.

(** [assess_weather_risk] *)
Definition assess_weather_risk (weather_warnings : list Warning.t)
  : gmap string WeatherRisk.t :=
  foldl
    (λ affected warning,
       foldl
         (λ affected kec,
            if takes_over (WeatherRisk.risk (weather_entry warning))
                          (WeatherRisk.risk <$> affected !! kec)
            then <[kec := weather_entry warning]> affected
            else affected)
         affected (Warning.affected_kecamatan warning))
    ∅ weather_warnings.

Section AssessEarthquake.

(** [haversine_distance] (sines, cosines, a square root and an arc
    tangent) and the text Python prints for a float in an f-string.  The
    distance is a finite number or NaN (None here), and the call may raise:
    [math.sin] raises ValueError on an infinite argument, [math.sqrt] on a
    negative one. *)
Variable haversine_distance :
  Py.Float → Py.Float → Py.Float → Py.Float → result (option Q).
Variable format_float : Q → string.

(** The radius and the risk of a magnitude. *)
Definition magnitude_class (mag : Q) : Q * string :=
  if Qle_bool 5.0 mag then (100, "HIGH"%string)
  else if Qle_bool 4.0 mag then (50, "MEDIUM"%string)
  else (25, "LOW"%string).

(** The entry [assess_earthquake_risk] stores for an earthquake at the
    distance [dist]. *)
Definition earthquake_entry (eq : Earthquake.t) (dist : Q) : EqRisk.t :=
  let mag := Earthquake.magnitude eq in
  {| EqRisk.risk := (magnitude_class mag).2;
     EqRisk.cause := "Gempa " +:+ format_float mag +:+ " SR";
     EqRisk.distance_km := Py.round dist 1;
     EqRisk.earthquake_detail := eq |}.

(** The body of the loop over [KECAMATAN_DB.items()]: the distance is
    computed first; [dist <= radius] is False for a NaN. *)
Definition assess_kecamatan (eq : Earthquake.t) (eq_lat eq_lon : Py.Float)
    (affected : gmap string EqRisk.t) (item : string * MockData.KecInfo)
  : result (gmap string EqRisk.t) :=
  let mag := Earthquake.magnitude eq in
  let radius := (magnitude_class mag).1 in
  let risk := (magnitude_class mag).2 in
  dist ← haversine_distance eq_lat eq_lon
            (Py.Fin (MockData.lat item.2)) (Py.Fin (MockData.lon item.2));
  match dist with
  | Some dist =>
      if Qle_bool dist radius
         && takes_over risk (EqRisk.risk <$> affected !! item.1)
      then Ok (<[item.1 := earthquake_entry eq dist]> affected)
      else Ok affected
  | None => Ok affected
  end.

(** The loop over [KECAMATAN_DB.items()] for one earthquake with
    coordinates: it ends at the first call that raises. *)
Definition assess_one_earthquake (eq : Earthquake.t) (eq_lat eq_lon : Py.Float)
    (affected : gmap string EqRisk.t) : result (gmap string EqRisk.t) :=
  foldl (λ affected item,
           affected ← affected; assess_kecamatan eq eq_lat eq_lon affected item)
        (Ok affected) MockData.KECAMATAN_DB.

(** [assess_earthquake_risk].  An earthquake without coordinates makes the
    subtraction in [haversine_distance] raise. *)
Fixpoint assess_earthquakes_from (affected : gmap string EqRisk.t)
    (earthquakes : list Earthquake.t) : result (gmap string EqRisk.t) :=
  match earthquakes with
  | [] => Ok affected
  | eq :: earthquakes =>
      match Earthquake.latitude eq, Earthquake.longitude eq with
      | Some eq_lat, Some eq_lon =>
          affected ← assess_one_earthquake eq eq_lat eq_lon affected;
          assess_earthquakes_from affected earthquakes
      | _, _ =>
          Raise {| exc_class := "TypeError";
                   exc_str := "unsupported operand type(s) for -: 'float' and 'NoneType'" |}
      end
  end.

Definition assess_earthquake_risk (earthquakes : list Earthquake.t)
  : result (gmap string EqRisk.t) :=
  assess_earthquakes_from ∅ earthquakes.

End AssessEarthquake.

End DisasterCorrelation.

(** ** modules/bmkg_client.py *)

Module BmkgClient.

Import DisasterCorrelation.

(** The key [(q["timestamp"], q["magnitude"])] of the deduplication, and
    the equality of two keys. *)
Definition quake_key (q : Earthquake.t) : string * Q :=
  (Earthquake.timestamp q, Earthquake.magnitude q).

Definition same_quake_key (a b : string * Q) : bool :=
  (a.1 =? b.1)%string && Qeq_bool a.2 b.2.

Definition has_both_coordinates (q : Earthquake.t) : bool :=
  match Earthquake.latitude q, Earthquake.longitude q with
  | Some _, Some _ => true
  | _, _ => false
  end.

(** [fetch_all_earthquakes], from what [fetch_auto_gempa],
    [fetch_gempa_terkini] and [fetch_gempa_dirasakan] returned. *)
Definition fetch_all_earthquakes
    (auto_gempa gempa_terkini gempa_dirasakan : list Earthquake.t)
  : list Earthquake.t :=
  let all_quakes := auto_gempa ++ gempa_terkini ++ gempa_dirasakan in
  let unique := Py.keep_first quake_key same_quake_key all_quakes in
  let valid := filter (λ q, has_both_coordinates q = true) unique in
  Py.sort_desc
    (λ a b, String.leb (Earthquake.timestamp a) (Earthquake.timestamp b))
    valid.

Section Weather.

(** [str.lower], [str(v)] for a decoded JSON value that is not a string,
    and the successive readings of [datetime.now().isoformat()]: a warning
    is stamped with the reading taken when it is appended. *)
Variable lower : string → string.
Variable str : Json.t → string.
Variable now_isoformat : nat → string.

(** [str(v)]: a string is its own text.  A field that holds a decoded JSON
    value is kept as this text. *)
Definition text_of (v : Json.t) : string :=
  match v with
  | Json.String s => s
  | _ => str v
  end.

(** The body of [for item in area_data] in [_parse_bmkg_weather]. *)
Definition weather_item (warnings : list Warning.t) (item : Json.t)
  : list Warning.t :=
  match item with
  | Json.Dict fields =>
      let desc :=
        lower (text_of (default (Json.String "") (Json.get fields "cuaca"))) in
      if existsb (λ w, Py.contains w desc)
           ["hujan lebat"; "petir"; "angin kencang"]%string
      then
        warnings ++
        [{| Warning.timestamp := now_isoformat (length warnings);
            Warning.type :=
              text_of (default (Json.String "Peringatan Cuaca")
                               (Json.get fields "cuaca"));
            Warning.level := "WARNING";
            Warning.impact := "Potensi gangguan infrastruktur";
            Warning.affected_kecamatan := [];
            Warning.source := "BMKG Cuaca";
            Warning.raw := Some (text_of item) |}]
      else warnings
  | _ => warnings
  end.

Definition _parse_bmkg_weather (data : Json.t) (warnings : list Warning.t)
  : list Warning.t :=
  match data with
  | Json.Dict areas =>
      foldl (λ warnings '(area_key, area_data),
               match area_data with
               | Json.List items => foldl weather_item warnings items
               | _ => warnings
               end)
            warnings areas
  | _ => warnings
  end.

(** The body of [for item in issues] in [_parse_bmkg_warning]. *)
Definition warning_item (warnings : list Warning.t) (item : Json.t)
  : list Warning.t :=
  let desc := lower (text_of item) in
  if Py.contains "lampung" desc
  then
    warnings ++
    [{| Warning.timestamp := now_isoformat (length warnings);
        Warning.type := "Peringatan Dini BMKG";
        Warning.level := "WARNING";
        Warning.impact := text_of item;
        Warning.affected_kecamatan := [];
        Warning.source := "BMKG Warning";
        Warning.raw := None |}]
  else warnings.

Definition _parse_bmkg_warning (data : Json.t) (warnings : list Warning.t)
  : list Warning.t :=
  match data with
  | Json.Dict fields =>
      let issues :=
        default (default (Json.List []) (Json.get fields "warning"))
                (Json.get fields "issues") in
      match issues with
      | Json.List items => foldl warning_item warnings items
      | _ => warnings
      end
  | _ => warnings
  end.

(** [fetch_weather_warnings_lampung].  Each of the two requests gives the
    decoded document, or None when it raised, when the status was not 200
    or when the body was not JSON. *)
Definition fetch_weather_warnings_lampung (cuaca_lampung warning : option Json.t)
  : list Warning.t :=
  let warnings := [] in
  let warnings :=
    match cuaca_lampung with
    | Some data => _parse_bmkg_weather data warnings
    | None => warnings
    end in
  match warning with
  | Some data => _parse_bmkg_warning data warnings
  | None => warnings
  end.

End Weather.

End BmkgClient.

(** ** The disaster data of one cycle, from the BMKG responses *)

Module DisasterFeed.

Import DisasterCorrelation.

(** What the five requests of one cycle gave: the normalised records of
    the three earthquake feeds ([[]] for a feed that failed) and the two
    decoded weather documents. *)
Record Responses := {
  auto_gempa : list Earthquake.t;
  gempa_terkini : list Earthquake.t;
  gempa_dirasakan : list Earthquake.t;
  cuaca_lampung : option Json.t;
  warning : option Json.t;
}.

Section Feed.

Variable lower : string → string.
Variable str : Json.t → string.
Variable now_isoformat : nat → string.
Variable haversine_distance :
  Py.Float → Py.Float → Py.Float → Py.Float → result (option Q).
Variable format_float : Q → string.

(** [fetch_disaster_data] *)
Definition fetch_disaster_data (responses : Responses) : Metadata :=
  {| earthquakes :=
       BmkgClient.fetch_all_earthquakes (auto_gempa responses)
         (gempa_terkini responses) (gempa_dirasakan responses);
     weather_warnings :=
       BmkgClient.fetch_weather_warnings_lampung lower str now_isoformat
         (cuaca_lampung responses) (warning responses) |}.

(** [get_combined_disaster_risk] with its own collaborators. *)
Definition combined_disaster_risk (responses : Responses) : result DisasterData :=
  get_combined_disaster_risk
    (Ok (fetch_disaster_data responses))
    (assess_earthquake_risk haversine_distance format_float)
    (λ weather_warnings, Ok (assess_weather_risk weather_warnings)).

End Feed.

End DisasterFeed.



(** ** The data of one fetch

    The dict that [load_all_data] (app.py) and [DataStore._do_fetch] build,
    with its seven keys. *)

Record Snapshot := {
  social_signals : list NlpProcessor.Signal;
  social_agg : gmap string SocialSignal.Aggregate;
  social_scores : gmap string Q;
  disaster_data : DisasterCorrelation.DisasterData;
  probe_results : list InfraProbing.ProbeResult;
  probe_agg : gmap string InfraProbing.Aggregate;
  infra_scores : gmap string Q;
}.

(** ** app.py, the scores idealised as rationals *)

Module App.

Import DisasterCorrelation.

(** A value of the dict [compute_kecamatan_status] returns. *)
Record RegionStatus := {
  status : string;
  color : string;
  combined_score : Q;
  social_score : Q;
  infra_score : Q;
  disaster_risk : string;
  disaster_causes : list string;
}.

(** [kec in disaster_risk_map] *)
Definition has_disaster_in (disaster_risk_map : gmap string Risk.t)
    (kec : string) : bool :=
  bool_decide (is_Some (disaster_risk_map !! kec)).

(** [disaster_risk_map.get(kec, {}).get("risk", "NONE")] *)
Definition disaster_risk_in (disaster_risk_map : gmap string Risk.t)
    (kec : string) : string :=
  match disaster_risk_map !! kec with
  | Some entry => Risk.risk entry
  | None => "NONE"
  end.

(** The weighted score of the loop body. *)
Definition combined_of (social_score infra_score : Q) (disaster_risk : string)
  : Q :=
  (social_score * 0.4) + (infra_score * 0.4) +
  (if (disaster_risk =? "HIGH")%string then 0
   else if (disaster_risk =? "MEDIUM")%string then 50
   else 100) * 0.2.

(** The body of [for kec in KECAMATAN_DB]: the value stored at
    [statuses[kec]]. *)
Definition region_status (data : Snapshot) (kec : string) : RegionStatus :=
  let disaster_risk_map := risk_map (disaster_data data) in
  let social_score := default 100 (social_scores data !! kec) in
  let infra_score := default 100 (infra_scores data !! kec) in
  let has_disaster := has_disaster_in disaster_risk_map kec in
  let disaster_risk := disaster_risk_in disaster_risk_map kec in
  let combined := combined_of social_score infra_score disaster_risk in
  let '(status, color) :=
    if Py.Qlt_bool combined 30
       || (Py.Qlt_bool social_score 40
           && (has_disaster || Py.Qlt_bool infra_score 50))
    then ("CRITICAL", "#eb3349")
    else if Py.Qlt_bool combined 60
            || Py.Qlt_bool social_score 60
            || Py.Qlt_bool infra_score 60
    then ("WARNING", "#F2994A")
    else ("NORMAL", "#38ef7d") in
  {| status := status;
     color := color;
     combined_score := Py.round combined 1;
     social_score := social_score;
     infra_score := infra_score;
     disaster_risk := disaster_risk;
     disaster_causes :=
       match disaster_risk_map !! kec with
       | Some entry => Risk.causes entry
       | None => []
       end |}.

(** The three counters at the top of the dashboard ([main]):
    [sum(1 for s in statuses.values() if s["status"] == value)]. *)
Definition count_status (statuses : gmap string RegionStatus) (value : string)
  : Z :=
  Z.of_nat (length (filter (λ s, status s = value) (map_to_list statuses).*2)).

(** [compute_kecamatan_status] *)
Definition compute_kecamatan_status (data : Snapshot)
  : gmap string RegionStatus :=
  foldl (λ statuses kec, <[kec := region_status data kec]> statuses)
        ∅ (MockData.KECAMATAN_DB.*1).

End App.

(** ** app.py on binary64 numbers

    [compute_kecamatan_status] once more, in the arithmetic it runs in:
    the scores are binary64 floats, the products and the sums are rounded
    to the nearest binary64 number, [<] is false on a NaN, and the int
    operands ([100], [0], [50], [30], [40], [60]) are the floats of the
    same value, which is what Python converts them to. *)

Module AppBinary64.

Import DisasterCorrelation.
Import PrimFloat.

(** The three entries of the snapshot that [compute_kecamatan_status]
    reads. *)
Record Data := {
  social_scores : gmap string PrimFloat.float;
  disaster_data : DisasterCorrelation.DisasterData;
  infra_scores : gmap string PrimFloat.float;
}.

(** A value of the dict [compute_kecamatan_status] returns. *)
Record RegionStatus := {
  status : string;
  color : string;
  combined_score : PrimFloat.float;
  social_score : PrimFloat.float;
  infra_score : PrimFloat.float;
  disaster_risk : string;
  disaster_causes : list string;
}.

(** The weighted score of the loop body. *)
Definition combined_of (social_score infra_score : PrimFloat.float)
    (disaster_risk : string) : PrimFloat.float :=
  ((social_score * 0.4) + (infra_score * 0.4) +
   (if (disaster_risk =? "HIGH")%string then 0
    else if (disaster_risk =? "MEDIUM")%string then 50
    else 100) * 0.2)%float.

(** The body of [for kec in KECAMATAN_DB]: the value stored at
    [statuses[kec]]. *)
Definition region_status (data : Data) (kec : string) : RegionStatus :=
  let disaster_risk_map := risk_map (disaster_data data) in
  let social_score := default 100%float (social_scores data !! kec) in
  let infra_score := default 100%float (infra_scores data !! kec) in
  let has_disaster := App.has_disaster_in disaster_risk_map kec in
  let disaster_risk := App.disaster_risk_in disaster_risk_map kec in
  let combined := combined_of social_score infra_score disaster_risk in
  let '(status, color) :=
    if (combined <? 30)%float
       || ((social_score <? 40)%float
           && (has_disaster || (infra_score <? 50)%float))
    then ("CRITICAL", "#eb3349")
    else if (combined <? 60)%float
            || (social_score <? 60)%float
            || (infra_score <? 60)%float
    then ("WARNING", "#F2994A")
    else ("NORMAL", "#38ef7d") in
  {| status := status;
     color := color;
     combined_score := Py.float_round combined 1;
     social_score := social_score;
     infra_score := infra_score;
     disaster_risk := disaster_risk;
     disaster_causes :=
       match disaster_risk_map !! kec with
       | Some entry => Risk.causes entry
       | None => []
       end |}.

(** [compute_kecamatan_status] *)
Definition compute_kecamatan_status (data : Data)
  : gmap string RegionStatus :=
  foldl (λ statuses kec, <[kec := region_status data kec]> statuses)
        ∅ (MockData.KECAMATAN_DB.*1).

End AppBinary64.

(** ** The classifier as section 4.3 of the specification words it

    [entry] is the risk level a region has in the disaster producer's
    [risk_map], if the region is there at all.  The numbers are binary64
    floats and the formula is evaluated from left to right. *)

Module ClassifierSpec.

Import PrimFloat.

Definition disaster_term (disaster_risk : string) : PrimFloat.float :=
  if (disaster_risk =? "HIGH")%string then 0%float
  else if (disaster_risk =? "MEDIUM")%string then 50%float
  else 100%float.

Definition combined (social_score infra_score : PrimFloat.float)
    (disaster_risk : string) : PrimFloat.float :=
  (0.4 * social_score + 0.4 * infra_score
   + 0.2 * disaster_term disaster_risk)%float.

(** "disaster_risk present AND not NONE" *)
Definition present_and_not_none (entry : option string) : bool :=
  match entry with
  | Some disaster_risk => negb (disaster_risk =? "NONE")%string
  | None => false
  end.

Definition classify (social_score infra_score : PrimFloat.float)
    (entry : option string) : string :=
  let c := combined social_score infra_score (default "NONE"%string entry) in
  if (c <? 30)%float
     || ((social_score <? 40)%float
         && (present_and_not_none entry || (infra_score <? 50)%float))
  then "CRITICAL"
  else if (c <? 60)%float
          || (social_score <? 60)%float
          || (infra_score <? 60)%float
  then "WARNING"
  else "NORMAL".

End ClassifierSpec.

(** ** modules/data_store.py *)

Module DataStore.

Import DisasterCorrelation.

Definition DEFAULT_REFRESH_INTERVAL : Z := 300.

(** A [datetime], in microseconds since the epoch (UTC).  The type holds
    the years 1 to 9999: [datetime.min] to [datetime.max]. *)
Definition datetime := Z.

Definition datetime_min : datetime := (-62135596800000000)%Z.
Definition datetime_max : datetime := 253402300799999999%Z.

Definition OverflowError (msg : string) : Exception :=
  {| exc_class := "OverflowError"; exc_str := msg |}.

(** [timedelta(seconds=...)] of an int, in microseconds.  The days
    [seconds // 86400] are kept in a C int and may not exceed 999999999
    in magnitude (the messages are CPython's). *)
Definition timedelta (seconds : Z) : result Z :=
  let days := (seconds `div` 86400)%Z in
  if (days <? -2147483648)%Z || (2147483647 <? days)%Z
  then Raise (OverflowError "Python int too large to convert to C int")
  else if (999999999 <? Z.abs days)%Z
  then Raise (OverflowError
                ("days=" +:+ pretty days +:+ "; must have magnitude <= 999999999"))
  else Ok (seconds * 1000000)%Z.

(** [d + delta] for a [datetime] and a [timedelta]. *)
Definition datetime_add (d : datetime) (delta : Z) : result datetime :=
  let sum := (d + delta)%Z in
  if (sum <? datetime_min)%Z || (datetime_max <? sum)%Z
  then Raise (OverflowError "date value out of range")
  else Ok sum.

(** [last_refresh + timedelta(seconds=refresh_interval)] *)
Definition next_refresh_after (last_refresh : datetime) (refresh_interval : Z)
  : result datetime :=
  delta ← timedelta refresh_interval;
  datetime_add last_refresh delta.

(** What a fetch cycle calls outside the store: the producers that
    [_do_fetch] imports, the clock, and [threading.TIMEOUT_MAX], the
    longest timeout the platform lets a thread wait.  [World] is what the
    producers and the clock read (the network, the ping subprocesses, the
    anchors file, the time of day). *)
Class Producers := {
  World : Type;
  fetch_social_signals : World → result (list NlpProcessor.Signal);
  aggregate_by_kecamatan :
    list NlpProcessor.Signal → result (gmap string SocialSignal.Aggregate);
  fetch_disaster_data : World → result Metadata;
  assess_earthquake_risk :
    list Earthquake.t → result (gmap string EqRisk.t);
  assess_weather_risk :
    list Warning.t → result (gmap string WeatherRisk.t);
  probe_anchors : World → result (list InfraProbing.ProbeResult);
  aggregate_probe_by_kecamatan :
    list InfraProbing.ProbeResult
    → result (gmap string InfraProbing.Aggregate);
  datetime_now : World → datetime;
  TIMEOUT_MAX : Z;
}.

(** The instance attributes that [__init__] sets. *)
Record t := {
  _refresh_interval : Z;
  _data : option Snapshot;
  _stop_event : bool;
  _is_fetching : bool;
  _last_refresh : option datetime;
  _next_refresh : option datetime;
  _fetch_count : Z;
  _last_error : option string;
}.

(** What a method does besides changing the store. *)
Inductive target := target_do_fetch | target_background_loop.

Inductive effect :=
| thread_start (name : string) (target : target)
| logger_warning (msg : string).

(** A method call: what it returns (or raises), the store it leaves, and
    its effects in order. *)
Record Outcome (A : Type) := {
  returned : result A;
  store : t;
  effects : list effect;
}.

Arguments returned {A} _.
Arguments store {A} _.
Arguments effects {A} _.

(** What [get_status] returns. *)
Record Status := {
  last_refresh : option datetime;
  next_refresh : option datetime;
  is_fetching : bool;
  fetch_count : Z;
  refresh_interval : Z;
  last_error : option string;
}.

(** The attribute assignments of [__init__], up to the first fetch. *)
Definition fresh (refresh_interval : Z) : t :=
  {| _refresh_interval := refresh_interval;
     _data := None;
     _stop_event := false;
     _is_fetching := false;
     _last_refresh := None;
     _next_refresh := None;
     _fetch_count := 0;
     _last_error := None |}.

Section Fetch.

Context `{Producers}.

(** The [try] block of [_do_fetch] up to [new_data]: it stops at the
    first call that raises. *)
Definition build_new_data (w : World) : result Snapshot :=
  social_signals ← fetch_social_signals w;
  social_agg ← aggregate_by_kecamatan social_signals;
  let social_scores := SocialSignal.get_social_score social_agg in
  disaster_data ←
    get_combined_disaster_risk
      (fetch_disaster_data w) assess_earthquake_risk assess_weather_risk;
  probe_results ← probe_anchors w;
  probe_agg ← aggregate_probe_by_kecamatan probe_results;
  let infra_scores := InfraProbing.get_infra_score probe_agg in
  mret {| social_signals := social_signals;
          social_agg := social_agg;
          social_scores := social_scores;
          disaster_data := disaster_data;
          probe_results := probe_results;
          probe_agg := probe_agg;
          infra_scores := infra_scores |}.

(** [self._is_fetching = True] *)
Definition fetch_begin (self : t) : t :=
  {| _refresh_interval := _refresh_interval self;
     _data := _data self;
     _stop_event := _stop_event self;
     _is_fetching := true;
     _last_refresh := _last_refresh self;
     _next_refresh := _next_refresh self;
     _fetch_count := _fetch_count self;
     _last_error := _last_error self |}.

(** The block under [with self._data_lock] in [_do_fetch]: five
    assignments in this order.  The third computes
    [self._last_refresh + timedelta(seconds=self._refresh_interval)]; when
    that raises, the first two have been made and the last two are not. *)
Definition publish (new_data : Snapshot) (now : datetime) (self : t)
  : Outcome unit :=
  let last_refresh := now in
  let self :=
    {| _refresh_interval := _refresh_interval self;
       _data := Some new_data;
       _stop_event := _stop_event self;
       _is_fetching := _is_fetching self;
       _last_refresh := Some last_refresh;
       _next_refresh := _next_refresh self;
       _fetch_count := _fetch_count self;
       _last_error := _last_error self |} in
  match next_refresh_after last_refresh (_refresh_interval self) with
  | Ok next_refresh =>
      {| returned := Ok ();
         store :=
           {| _refresh_interval := _refresh_interval self;
              _data := _data self;
              _stop_event := _stop_event self;
              _is_fetching := _is_fetching self;
              _last_refresh := _last_refresh self;
              _next_refresh := Some next_refresh;
              _fetch_count := (_fetch_count self + 1)%Z;
              _last_error := None |};
         effects := [] |}
  | Raise e => {| returned := Raise e; store := self; effects := [] |}
  end.

(** [except Exception as e: self._last_error = str(e)] *)
Definition record_error (e : Exception) (self : t) : t :=
  {| _refresh_interval := _refresh_interval self;
     _data := _data self;
     _stop_event := _stop_event self;
     _is_fetching := _is_fetching self;
     _last_refresh := _last_refresh self;
     _next_refresh := _next_refresh self;
     _fetch_count := _fetch_count self;
     _last_error := Some (exc_str e) |}.

(** The [try] statement of [_do_fetch] with its [except] clause: the
    store is touched once, when the producers are done, and an exception
    of the publication is handled like one of a producer. *)
Definition fetch_try (w : World) (self : t) : t :=
  match build_new_data w with
  | Ok new_data =>
      let published := publish new_data (datetime_now w) self in
      match returned published with
      | Ok _ => store published
      | Raise e => record_error e (store published)
      end
  | Raise e => record_error e self
  end.

(** [finally: self._is_fetching = False] *)
Definition fetch_finally (self : t) : t :=
  {| _refresh_interval := _refresh_interval self;
     _data := _data self;
     _stop_event := _stop_event self;
     _is_fetching := false;
     _last_refresh := _last_refresh self;
     _next_refresh := _next_refresh self;
     _fetch_count := _fetch_count self;
     _last_error := _last_error self |}.

(** [_do_fetch]: one fetch cycle.  It returns [None]: whatever the
    [try] block raises, the [except] clause handles. *)
Definition _do_fetch (w : World) (self : t) : Outcome unit :=
  {| returned := Ok ();
     store := fetch_finally (fetch_try w (fetch_begin self));
     effects := [] |}.

(** [DataStore(refresh_interval)].  [instance] is the class attribute
    [_instance] when it is already initialised: then [__new__] hands it
    back and [__init__] returns at once.  Otherwise the attributes are
    set, the first fetch runs in the calling thread, and the background
    thread is started. *)
Definition __init__ (refresh_interval : Z) (w : World)
    (instance : option t) : Outcome unit :=
  match instance with
  | Some self => {| returned := Ok (); store := self; effects := [] |}
  | None =>
      let self := fresh refresh_interval in
      let self := store (_do_fetch w self) in
      {| returned := Ok ();
         store := self;
         effects :=
           [thread_start "DataStore-BackgroundFetcher"
                         target_background_loop] |}
  end.

End Fetch.

(** [get_data] *)
Definition get_data (self : t) : Outcome (option Snapshot) :=
  {| returned := Ok (_data self); store := self; effects := [] |}.

(** [get_status] *)
Definition get_status (self : t) : Outcome Status :=
  {| returned :=
       Ok {| last_refresh := _last_refresh self;
             next_refresh := _next_refresh self;
             is_fetching := _is_fetching self;
             fetch_count := _fetch_count self;
             refresh_interval := _refresh_interval self;
             last_error := _last_error self |};
     store := self;
     effects := [] |}.

(** [set_refresh_interval]: [max(60, seconds)] on integers. *)
Definition set_refresh_interval (seconds : Z) (self : t) : Outcome unit :=
  {| returned := Ok ();
     store :=
       {| _refresh_interval := Z.max 60 seconds;
          _data := _data self;
          _stop_event := _stop_event self;
          _is_fetching := _is_fetching self;
          _last_refresh := _last_refresh self;
          _next_refresh := _next_refresh self;
          _fetch_count := _fetch_count self;
          _last_error := _last_error self |};
     effects := [] |}.

(** [force_refresh] *)
Definition force_refresh (self : t) : Outcome unit :=
  if _is_fetching self then
    {| returned := Ok ();
       store := self;
       effects :=
         [logger_warning
            "DataStore: Fetch already in progress, skipping force refresh."] |}
  else
    {| returned := Ok ();
       store := self;
       effects := [thread_start "DataStore-ForceRefresh" target_do_fetch] |}.

(** [stop] *)
Definition stop (self : t) : Outcome unit :=
  {| returned := Ok ();
     store :=
       {| _refresh_interval := _refresh_interval self;
          _data := _data self;
          _stop_event := true;
          _is_fetching := _is_fetching self;
          _last_refresh := _last_refresh self;
          _next_refresh := _next_refresh self;
          _fetch_count := _fetch_count self;
          _last_error := _last_error self |};
     effects := [] |}.

(** *** The store over its lifetime

    Several threads work on one store: the callers of the public methods,
    the background loop, and the threads [force_refresh] starts.  A
    running [_do_fetch] touches the store three times (it sets the flag,
    it publishes or records the error, it clears the flag), and the other
    threads may act in between.  An [event] is one such access; a history
    of the store is any list of events. *)

Section Lifetime.

Context `{Producers}.

Inductive event :=
| ev_init (refresh_interval : Z) (w : World)
| ev_fetch_begin
| ev_fetch_try (w : World)
| ev_fetch_finally
| ev_get_data
| ev_get_status
| ev_set_refresh_interval (seconds : Z)
| ev_force_refresh
| ev_stop.

Definition step (self : t) (ev : event) : t :=
  match ev with
  | ev_init refresh_interval w =>
      store (__init__ refresh_interval w (Some self))
  | ev_fetch_begin => fetch_begin self
  | ev_fetch_try w => fetch_try w self
  | ev_fetch_finally => fetch_finally self
  | ev_get_data => store (get_data self)
  | ev_get_status => store (get_status self)
  | ev_set_refresh_interval seconds =>
      store (set_refresh_interval seconds self)
  | ev_force_refresh => store (force_refresh self)
  | ev_stop => store (stop self)
  end.

Definition run (self : t) (history : list event) : t :=
  foldl step self history.

(** [_background_loop], the target of the background thread.  Each
    element of [wakes] is one call of
    [self._stop_event.wait(timeout=self._refresh_interval)]: whether
    another thread called [stop] before the loop tests the flag again,
    and the world the fetch reads after it.  [wait] looks at the flag
    first and returns at once when it is set; otherwise a timeout above
    [threading.TIMEOUT_MAX] makes it raise OverflowError, which ends the
    thread (the message is CPython 3.11's), and a timeout of 0 or less
    makes it return at once.  The loop is followed for as many calls of
    [wait] as the list has. *)
Fixpoint _background_loop (wakes : list (bool * World)) (self : t)
  : Outcome unit :=
  match wakes with
  | [] => {| returned := Ok (); store := self; effects := [] |}
  | (stopped_while_waiting, w) :: wakes =>
      if _stop_event self
      then {| returned := Ok (); store := self; effects := [] |}
      else
        let timeout := _refresh_interval self in
        if stopped_while_waiting
        then {| returned := Ok (); store := store (stop self); effects := [] |}
        else if (TIMEOUT_MAX <? timeout)%Z
        then {| returned :=
                  Raise (OverflowError
                           "timestamp too large to convert to C _PyTime_t");
                store := self;
                effects := [] |}
        else _background_loop wakes (store (_do_fetch w self))
  end.


(** The event of a fetch cycle that got all its data and could schedule
    the next refresh: the publication is complete. *)
Definition completes (self : t) (ev : event) : bool :=
  match ev with
  | ev_fetch_try w =>
      match build_new_data w,
            next_refresh_after (datetime_now w) (_refresh_interval self) with
      | Ok _, Ok _ => true
      | _, _ => false
      end
  | _ => false
  end.


End Lifetime.

End DataStore.

(** ** Concrete inputs

    The data the examples below run on. *)

Module Examples.

Import DisasterCorrelation.

(** Three complaints, one of them critical. *)
Definition three_complaints : SocialSignal.Aggregate :=
  {| SocialSignal.complaint_count := 3;
     SocialSignal.latest_reports := [];
     SocialSignal.avg_sentiment := -0.45;
     SocialSignal.top_providers := [("Indihome"%string, 2%Z)];
     SocialSignal.max_severity := "critical" |}.

(** Two anchors, one of them timing out. *)
Definition one_anchor_down : InfraProbing.Aggregate :=
  {| InfraProbing.anchors := [];
     InfraProbing.overall_status := "DEGRADED";
     InfraProbing.avg_latency := 35.2;
     InfraProbing.avg_packet_loss := 50;
     InfraProbing.anchor_count := 2;
     InfraProbing.rto_count := 1 |}.

Definition quake : Earthquake.t :=
  {| Earthquake.timestamp := "2024-01-01T10:00:00";
     Earthquake.magnitude := 5.6;
     Earthquake.depth_km := 10;
     Earthquake.latitude := Some (Py.Fin (-5.5));
     Earthquake.longitude := Some (Py.Fin 105.3);
     Earthquake.location := "Lampung";
     Earthquake.dirasakan := "";
     Earthquake.potensi := "";
     Earthquake.source := "BMKG AutoGempa" |}.

Definition eq_risk : gmap string EqRisk.t :=
  {[ "Kedaton"%string :=
       {| EqRisk.risk := "HIGH";
          EqRisk.cause := "Gempa 5.6 SR";
          EqRisk.distance_km := 12.3;
          EqRisk.earthquake_detail := quake |} ]}.

Definition weather_risk : gmap string WeatherRisk.t := ∅.

(** The data of a fetch in which Kedaton has complaints, a failing
    anchor and an earthquake nearby, and no other region is mentioned. *)
Definition kedaton_hit : Snapshot :=
  {| social_signals := [];
     social_agg := {[ "Kedaton"%string := three_complaints ]};
     social_scores :=
       SocialSignal.get_social_score {[ "Kedaton"%string := three_complaints ]};
     disaster_data :=
       {| risk_map := combined_risk_map eq_risk weather_risk;
          metadata := {| earthquakes := [quake]; weather_warnings := [] |} |};
     probe_results := [];
     probe_agg := {[ "Kedaton"%string := one_anchor_down ]};
     infra_scores :=
       InfraProbing.get_infra_score {[ "Kedaton"%string := one_anchor_down ]} |}.

Import PrimFloat.

(** The same disaster data with a social score of 73.6 and an infra
    score of 1.4 at Kedaton: the weighted sum is 30 on paper and
    29.999999999999996 in binary64. *)
Definition kedaton_at_30 : AppBinary64.Data :=
  {| AppBinary64.social_scores := {[ "Kedaton"%string := 73.6%float ]};
     AppBinary64.disaster_data := disaster_data kedaton_hit;
     AppBinary64.infra_scores := {[ "Kedaton"%string := 1.4%float ]} |}.

End Examples.

(** ** Predicates of the statements *)

(** The three levels [get_combined_disaster_risk] can record. *)
Definition recorded_level (risk : string) : Prop :=
  risk = "LOW"%string ∨ risk = "MEDIUM"%string ∨ risk = "HIGH"%string.

(** A list in descending order of [le]: every element is at least all
    those after it. *)
Definition descending {A : Type} (le : A → A → bool) (l : list A) : Prop :=
  StronglySorted (λ x y, le y x = true) l.

(** One step of the two [assess_*] loops, for an entry type [E] with its
    risk: the new entry is stored when the kecamatan has none yet or a
    lower risk. *)
Definition merge_step {E : Type} (risk_of : E → string)
    (affected : gmap string E) (p : string * E) : gmap string E :=
  if DisasterCorrelation.takes_over
       (risk_of p.2) (risk_of <$> affected !! p.1)
  then <[p.1 := p.2]> affected
  else affected.

(** The entries one earthquake with coordinates offers: one for every
    kecamatan of the table whose distance is a number within the radius of
    its magnitude. *)
Definition earthquake_offers
    (haversine_distance :
       Py.Float → Py.Float → Py.Float → Py.Float → result (option Q))
    (format_float : Q → string) (table : list (string * MockData.KecInfo))
    (eq : DisasterCorrelation.Earthquake.t) (eq_lat eq_lon : Py.Float)
  : list (string * DisasterCorrelation.EqRisk.t) :=
  omap (λ item : string * MockData.KecInfo,
          match haversine_distance eq_lat eq_lon
                  (Py.Fin (MockData.lat item.2)) (Py.Fin (MockData.lon item.2)) with
          | Ok (Some dist) =>
              if Qle_bool dist
                   (DisasterCorrelation.magnitude_class
                      (DisasterCorrelation.Earthquake.magnitude eq)).1
              then Some (item.1,
                         DisasterCorrelation.earthquake_entry format_float eq dist)
              else None
          | _ => None
          end)
       table.

(** The distance from the earthquake [eq] to the kecamatan [kec] of
    KECAMATAN_DB is measured with the outcome [measured]. *)
Definition measures
    (haversine_distance :
       Py.Float → Py.Float → Py.Float → Py.Float → result (option Q))
    (eq : DisasterCorrelation.Earthquake.t) (kec : string)
    (measured : result (option Q)) : Prop :=
  ∃ info eq_lat eq_lon,
    (kec, info) ∈ MockData.KECAMATAN_DB
    ∧ DisasterCorrelation.Earthquake.latitude eq = Some eq_lat
    ∧ DisasterCorrelation.Earthquake.longitude eq = Some eq_lon
    ∧ haversine_distance eq_lat eq_lon
        (Py.Fin (MockData.lat info)) (Py.Fin (MockData.lon info))
      = measured.

(** An earthquake has both coordinates. *)
Definition has_coordinates (eq : DisasterCorrelation.Earthquake.t) : Prop :=
  is_Some (DisasterCorrelation.Earthquake.latitude eq)
  ∧ is_Some (DisasterCorrelation.Earthquake.longitude eq).



(** What every warning built by the two BMKG parsers has. *)
Definition plain_warning (w : DisasterCorrelation.Warning.t) : Prop :=
  DisasterCorrelation.Warning.level w = "WARNING"%string
  ∧ DisasterCorrelation.Warning.affected_kecamatan w = []
  ∧ (DisasterCorrelation.Warning.source w = "BMKG Cuaca"%string
     ∨ DisasterCorrelation.Warning.source w = "BMKG Warning"%string).

(** The number of keywords whose lower case occurs in a text. *)
Definition keyword_hits (lower : string → string) (keywords : list string)
    (text_lower : string) : Z :=
  Z.of_nat (length (filter (λ kw, Py.contains (lower kw) text_lower = true)
                           keywords)).

(** A name of the gazetteer occurs in the lower-cased text, and [loc] is
    the name [extract_locations] reports for it: the official name of an
    alias, the name itself otherwise. *)
Definition names_location (lower : string → string) (text_lower : string)
    (names : list string) (loc : string) : Prop :=
  ∃ name,
    name ∈ names
    ∧ Py.contains (lower name) text_lower = true
    ∧ loc = default name (NlpProcessor.LOCATION_ALIASES !! lower name).

(** The argument of the last [set_refresh_interval] of a history, if it
    has one. *)
Definition last_interval_set `{DataStore.Producers}
    (history : list DataStore.event) : option Z :=
  last (omap (λ ev, match ev with
                    | DataStore.ev_set_refresh_interval seconds => Some seconds
                    | _ => None
                    end) history).

(** Failure isolation as the specification words it: in a cycle where the
    social and the disaster producer give their data and the infrastructure
    producer raises, the store holds afterwards a snapshot with that social
    and disaster data, and an error is recorded. *)
Definition infra_failure_isolated `{DataStore.Producers}
    (w : DataStore.World) (self : DataStore.t) : Prop :=
  ∀ signals agg disaster e,
    DataStore.fetch_social_signals w = Ok signals →
    DataStore.aggregate_by_kecamatan signals = Ok agg →
    DisasterCorrelation.get_combined_disaster_risk
      (DataStore.fetch_disaster_data w)
      DataStore.assess_earthquake_risk DataStore.assess_weather_risk
    = Ok disaster →
    DataStore.probe_anchors w = Raise e →
    let after := DataStore.store (DataStore._do_fetch w self) in
    (∃ snapshot,
       DataStore._data after = Some snapshot
       ∧ social_signals snapshot = signals
       ∧ disaster_data snapshot = disaster)
    ∧ DataStore._last_error after ≠ None.

(** ** A replayed world

    Producers that answer from a recording: what the news feeds, the BMKG
    endpoints and the pings gave at one wake-up, and the time it was. *)

Module Replay.

Import DisasterCorrelation DataStore.

Record Recording := {
  social : result (list NlpProcessor.Signal);
  disaster : result Metadata;
  probes : result (list InfraProbing.ProbeResult);
  now : datetime;
}.

#[global] Instance producers : Producers := {|
  World := Recording;
  fetch_social_signals := social;
  aggregate_by_kecamatan := λ _, Ok ∅;
  fetch_disaster_data := disaster;
  assess_earthquake_risk := λ _, Ok ∅;
  assess_weather_risk := λ _, Ok ∅;
  probe_anchors := probes;
  aggregate_probe_by_kecamatan := λ _, Ok ∅;
  datetime_now := now;
  TIMEOUT_MAX := 9223372036;
|}.

(** Nothing to report, all anchors file rows lost: every call succeeds. *)
Definition quiet : Recording :=
  {| social := Ok [];
     disaster := Ok {| earthquakes := []; weather_warnings := [] |};
     probes := Ok [];
     now := 1700000000000000%Z |}.

(** The anchors file cannot be read: [probe_anchors] raises. *)
Definition anchors_missing : Recording :=
  {| social := Ok [];
     disaster := Ok {| earthquakes := [Examples.quake]; weather_warnings := [] |};
     probes :=
       Raise {| exc_class := "FileNotFoundError";
                exc_str := "[Errno 2] No such file or directory: 'data/anchors.csv'" |};
     now := 1700000300000000%Z |}.

(** A store in the middle of a fetch. *)
Definition fetching : DataStore.t := fetch_begin (fresh 300).

End Replay.

(** ** More concrete inputs *)

Module ProbeExamples.

Import InfraProbing.

Definition kedaton_ok : ProbeResult :=
  {| host := "unila.ac.id";
     nama_lokasi := "Universitas Lampung";
     kecamatan := "Kedaton";
     kabupaten := "Bandar Lampung";
     latency_ms := 24.5;
     packet_loss_pct := 0;
     status := "OK";
     timestamp := "2024-01-01T10:00:00" |}.

Definition kedaton_rto : ProbeResult :=
  {| host := "rsudam.lampungprov.go.id";
     nama_lokasi := "RSUD Abdul Moeloek";
     kecamatan := "Kedaton";
     kabupaten := "Bandar Lampung";
     latency_ms := -1;
     packet_loss_pct := 100;
     status := "RTO";
     timestamp := "2024-01-01T10:00:01" |}.

Definition natar_rto : ProbeResult :=
  {| host := "radinintenairport.co.id";
     nama_lokasi := "Bandara Radin Inten II";
     kecamatan := "Natar";
     kabupaten := "Lampung Selatan";
     latency_ms := -1;
     packet_loss_pct := 100;
     status := "RTO";
     timestamp := "2024-01-01T10:00:02" |}.

Definition probes : list ProbeResult := [kedaton_ok; natar_rto; kedaton_rto].

End ProbeExamples.

Module SignalExamples.

Import NlpProcessor.

Definition indihome_kedaton : Signal :=
  {| id := "news_1";
     timestamp := "2024-01-01T10:00:00";
     source := "google_news";
     original_text := "Indihome gangguan di Kedaton, mati total";
     locations_detected := ["Kedaton"%string];
     primary_location := "Kedaton";
     providers_detected := ["Indihome"%string];
     primary_provider := "Indihome";
     issue_type := "digital";
     sentiment_score := -0.8;
     severity := "critical";
     is_digital_issue := true |}.

Definition telkomsel_kedaton : Signal :=
  {| id := "news_2";
     timestamp := "2024-01-01T12:30:00";
     source := "google_news";
     original_text := "Sinyal Telkomsel lemot di Kedaton";
     locations_detected := ["Kedaton"%string];
     primary_location := "Kedaton";
     providers_detected := ["Telkomsel"%string];
     primary_provider := "Telkomsel";
     issue_type := "digital";
     sentiment_score := -0.45;
     severity := "warning";
     is_digital_issue := true |}.

Definition road_kedaton : Signal :=
  {| id := "news_3";
     timestamp := "2024-01-01T11:00:00";
     source := "google_search";
     original_text := "Jalan rusak parah di Kedaton";
     locations_detected := ["Kedaton"%string];
     primary_location := "Kedaton";
     providers_detected := ["Unknown"%string];
     primary_provider := "Unknown";
     issue_type := "non_digital";
     sentiment_score := -0.4;
     severity := "normal";
     is_digital_issue := false |}.

Definition outage_somewhere : Signal :=
  {| id := "news_4";
     timestamp := "2024-01-01T09:00:00";
     source := "google_news";
     original_text := "Internet down sejak pagi";
     locations_detected := [];
     primary_location := "Unknown";
     providers_detected := ["Unknown"%string];
     primary_provider := "Unknown";
     issue_type := "digital";
     sentiment_score := -0.55;
     severity := "critical";
     is_digital_issue := true |}.

Definition signals : list Signal :=
  [indihome_kedaton; road_kedaton; telkomsel_kedaton; outage_somewhere].

End SignalExamples.

(** A keywords file and raw complaints to run the pipeline on; the texts
    are ASCII, and so is the lower case. *)
Module NlpExamples.

Import NlpProcessor.

Definition ascii_lower (c : Ascii.ascii) : Ascii.ascii :=
  let n := Ascii.nat_of_ascii c in
  if (65 <=? n)%nat && (n <=? 90)%nat then Ascii.ascii_of_nat (n + 32) else c.

Fixpoint lower (s : string) : string :=
  match s with
  | EmptyString => EmptyString
  | String c s' => String (ascii_lower c) (lower s')
  end.

Definition keywords : Keywords :=
  {| digital_issue_keywords :=
       ["internet"; "wifi"; "sinyal"; "jaringan"; "gangguan"]%string;
     non_digital_keywords := ["jalan"; "banjir"; "macet"]%string;
     power_outage_keywords := ["mati lampu"; "listrik padam"]%string;
     provider_keywords :=
       [("Indihome", ["indihome"; "telkom"]);
        ("Telkomsel", ["telkomsel"; "tsel"]);
        ("PLN", ["pln"])]%string;
     severity_keywords_critical := ["mati total"; "down"]%string;
     severity_keywords_warning := ["lemot"; "lambat"]%string |}.

Definition outage : RawComplaint :=
  {| raw_id := Some "gnews_0001"%string;
     raw_timestamp := Some "2024-01-01T10:00:00+00:00"%string;
     raw_source := Some "google_news"%string;
     raw_text := Some "Indihome mati total di Kedaton, internet down seharian"%string |}.

Definition blackout : RawComplaint :=
  {| raw_id := Some "gnews_0002"%string;
     raw_timestamp := None;
     raw_source := Some "google_news"%string;
     raw_text := Some "Mati lampu di Lamsel, jalan macet"%string |}.

Definition road : RawComplaint :=
  {| raw_id := None;
     raw_timestamp := Some "2024-01-01T09:00:00+00:00"%string;
     raw_source := None;
     raw_text := Some "Jalan rusak di Natar"%string |}.

Definition clock : string := "2024-01-01T12:00:00.000000".

Definition raw_complaints : list (string * RawComplaint) :=
  [(clock, outage); (clock, blackout); (clock, road)].

End NlpExamples.

(** * Properties *)

(** ** Python built-ins *)

Section PyFacts.

Lemma Qlt_bool_iff (a b : Q) : Py.Qlt_bool a b = true ↔ a < b.
Proof.
  unfold Py.Qlt_bool. rewrite negb_true_iff.
  split.
  - intros Hle. apply Qnot_le_lt. intros Hba.
    apply Qle_bool_iff in Hba. congruence.
  - intros Hlt. destruct (Qle_bool b a) eqn:E; [|done].
    apply Qle_bool_iff in E. lra.
Qed.

Lemma max_0_bounds (x hi : Q) : 0 <= hi → x <= hi → 0 <= Py.max 0 x <= hi.
Proof.
  intros Hhi Hx. unfold Py.max.
  destruct (Py.Qlt_bool 0 x) eqn:E; [|lra].
  apply Qlt_bool_iff in E. lra.
Qed.

(** Rounding to an integer never leaves an interval with integer ends. *)
Lemma round_half_even_bounds (x : Q) (lo hi : Z) :
  inject_Z lo <= x → x <= inject_Z hi →
  (lo <= Py.round_half_even x <= hi)%Z.
Proof.
  intros Hlo Hhi.
  assert (Hf1 : (lo <= Qfloor x)%Z).
  { rewrite <- (Qfloor_Z lo). by apply Qfloor_resp_le. }
  assert (Hf2 : (Qfloor x <= hi)%Z).
  { rewrite <- (Qfloor_Z hi). by apply Qfloor_resp_le. }
  unfold Py.round_half_even.
  destruct (Qcompare (x - inject_Z (Qfloor x)) 0.5) eqn:E.
  - apply Qeq_alt in E.
    destruct (Z.even (Qfloor x)); [lia|].
    destruct (decide (Qfloor x = hi)) as [Heq|]; [|lia].
    exfalso. subst hi. lra.
  - lia.
  - apply Qgt_alt in E.
    destruct (decide (Qfloor x = hi)) as [Heq|]; [|lia].
    exfalso. subst hi. lra.
Qed.

Lemma round_1_bounds (x : Q) : 0 <= x → x <= 100 → 0 <= Py.round x 1 <= 100.
Proof.
  intros H0 H100. unfold Py.round.
  change (inject_Z (10 ^ Z.of_nat 1)) with 10.
  destruct (round_half_even_bounds (x * 10) 0 1000) as [Hb1 Hb2].
  { change (inject_Z 0) with 0. lra. }
  { change (inject_Z 1000) with 1000. lra. }
  set (r := Py.round_half_even (x * 10)) in *.
  assert (H1 : inject_Z 0 <= inject_Z r) by (by rewrite <- Zle_Qle).
  assert (H2 : inject_Z r <= inject_Z 1000) by (by rewrite <- Zle_Qle).
  change (inject_Z 0) with 0 in H1. change (inject_Z 1000) with 1000 in H2.
  split.
  - apply Qle_shift_div_l; lra.
  - apply Qle_shift_div_r; lra.
Qed.

End PyFacts.

(** ** The producers' scores *)

Section Scores.

Import SocialSignal InfraProbing.

Lemma severity_mult_cases (severity : string) :
  severity_mult severity = 0.5 ∨ severity_mult severity = 0.75
  ∨ severity_mult severity = 1.0.
Proof.
  unfold severity_mult.
  destruct (severity =? "critical")%string; [by left|].
  destruct (severity =? "warning")%string; [right; by left|].
  right; by right.
Qed.

Lemma social_score_of_bounds (data : SocialSignal.Aggregate) :
  (0 <= complaint_count data)%Z → 0 <= social_score_of data <= 100.
Proof.
  intros Hcount. unfold social_score_of.
  set (count_score := Z.max 0 (100 - complaint_count data * 15)).
  assert (Hc : (0 <= count_score <= 100)%Z) by lia.
  assert (Hq : 0 <= inject_Z count_score <= 100).
  { destruct Hc as [Hc0 Hc1]. rewrite Zle_Qle in Hc0, Hc1. done. }
  pose proof (Qabs_nonneg (avg_sentiment data)) as Habs.
  destruct (max_0_bounds
              ((inject_Z count_score - Qabs (avg_sentiment data) * 30)
               * severity_mult (max_severity data)) 100) as [Hm0 Hm1];
    [lra| |by apply round_1_bounds].
  destruct (severity_mult_cases (max_severity data)) as [-> | [-> | ->]];
    lra.
Qed.

Lemma infra_score_of_bounds (data : InfraProbing.Aggregate) :
  0 <= avg_packet_loss data → 0 <= infra_score_of data <= 100.
Proof.
  intros Hloss. unfold infra_score_of.
  destruct (overall_status data =? "DOWN")%string; [lra|].
  destruct (overall_status data =? "DEGRADED")%string; [|lra].
  destruct (max_0_bounds (100 - avg_packet_loss data) 100) as [Hl0 Hl1];
    [lra|lra|].
  destruct (Py.Qlt_bool 0 (avg_latency data)) eqn:Hlat.
  - apply Qlt_bool_iff in Hlat.
    assert (0 <= avg_latency data / 10) by (apply Qle_shift_div_l; lra).
    destruct (max_0_bounds (100 - avg_latency data / 10) 100) as [Ht0 Ht1];
      [lra|lra|].
    apply round_1_bounds.
    + apply Qle_shift_div_l; lra.
    + apply Qle_shift_div_r; lra.
  - apply round_1_bounds.
    + apply Qle_shift_div_l; lra.
    + apply Qle_shift_div_r; lra.
Qed.

End Scores.

(** ** Dicts built by a loop *)

Section DictLoops.

Context {A : Type} (f : string → A).

(** [for k in l: d[k] = f(k)] *)
Lemma lookup_foldl_insert (l : list string) (d : gmap string A) (k : string) :
  foldl (λ d k, <[k := f k]> d) d l !! k
  = if decide (k ∈ l) then Some (f k) else d !! k.
Proof.
  revert d. induction l as [|k' l IH]; intros d; cbn [foldl].
  - by rewrite decide_False by apply not_elem_of_nil.
  - rewrite IH. destruct (decide (k ∈ l)) as [Hin|Hnotin].
    + by rewrite decide_True by (by right).
    + destruct (decide (k = k')) as [->|Hne].
      * rewrite lookup_insert_eq. by rewrite decide_True by left.
      * rewrite lookup_insert_ne by done.
        rewrite decide_False; [done|].
        intros [?|?]%elem_of_cons; done.
Qed.

(** [for k in s: d[k] = f(k)], for a set [s] and [d] empty at first. *)
Lemma lookup_set_fold_insert (k : string) (s : gset string) :
  set_fold (λ k (d : gmap string A), <[k := f k]> d) ∅ s !! k
  = if decide (k ∈ s) then Some (f k) else None.
Proof.
  revert s k.
  apply (set_fold_ind_L
           (λ (d : gmap string A) (s : gset string),
              ∀ k, d !! k = if decide (k ∈ s) then Some (f k) else None)).
  - intros k. by rewrite lookup_empty, decide_False by set_solver.
  - intros k' s' d Hnotin IH k.
    destruct (decide (k = k')) as [->|Hne].
    + rewrite lookup_insert_eq. by rewrite decide_True by set_solver.
    + rewrite lookup_insert_ne by done. rewrite IH.
      destruct (decide (k ∈ s')) as [Hin|Hout].
      * rewrite decide_True; [done|]. apply elem_of_union. by right.
      * rewrite decide_False; [done|].
        intros [Hk%elem_of_singleton|Hk]%elem_of_union; done.
Qed.

End DictLoops.

(** ** The disaster risk map *)

Section RiskMap.

Import DisasterCorrelation.

Lemma recorded_level_not_NONE (risk : string) :
  recorded_level risk → (risk =? "NONE")%string = false.
Proof. by intros [-> | [-> | ->]]. Qed.

(** One update of [max_risk] keeps it among the three levels. *)
Lemma max_risk_update (max_risk risk : string) :
  recorded_level max_risk →
  recorded_level
    (if (_risk_level risk >? _risk_level max_risk)%Z then risk else max_risk).
Proof.
  intros Hmax.
  destruct (_risk_level risk >? _risk_level max_risk)%Z eqn:Hgt; [|done].
  rewrite Z.gtb_ltb, Z.ltb_lt in Hgt. revert Hgt.
  unfold recorded_level, _risk_level at 2.
  destruct (String.eqb_spec risk "HIGH") as [->|_]; [by auto|].
  destruct (String.eqb_spec risk "MEDIUM") as [->|_]; [by auto|].
  destruct (String.eqb_spec risk "LOW") as [->|_]; [by auto|].
  intros Hlt. exfalso.
  destruct Hmax as [-> | [-> | ->]]; vm_compute in Hlt; done.
Qed.

Lemma combined_entry_risk eq_risk weather_risk (kec : string) :
  recorded_level (Risk.risk (combined_entry eq_risk weather_risk kec)).
Proof.
  unfold combined_entry.
  destruct (eq_risk !! kec) as [e|]; destruct (weather_risk !! kec) as [w|];
    simpl; repeat apply max_risk_update; by left.
Qed.

Lemma combined_entry_causes eq_risk weather_risk (kec : string) :
  kec ∈ dom eq_risk ∪ dom weather_risk →
  Risk.causes (combined_entry eq_risk weather_risk kec) ≠ [].
Proof.
  rewrite elem_of_union, !elem_of_dom. unfold combined_entry.
  destruct (eq_risk !! kec) as [e|]; destruct (weather_risk !! kec) as [w|];
    simpl; try done.
  intros [[? [=]] | [? [=]]].
Qed.

Lemma lookup_combined_risk_map eq_risk weather_risk (kec : string) :
  combined_risk_map eq_risk weather_risk !! kec
  = if decide (kec ∈ dom eq_risk ∪ dom weather_risk)
    then Some (combined_entry eq_risk weather_risk kec) else None.
Proof.
  unfold combined_risk_map.
  apply (lookup_set_fold_insert (combined_entry eq_risk weather_risk)).
Qed.

Lemma combined_risk_map_entry eq_risk weather_risk (kec : string) entry :
  combined_risk_map eq_risk weather_risk !! kec = Some entry →
  recorded_level (Risk.risk entry) ∧ Risk.causes entry ≠ [].
Proof.
  rewrite lookup_combined_risk_map.
  case_decide as Hin; [|done]. intros [= <-]. split.
  - apply combined_entry_risk.
  - by apply combined_entry_causes.
Qed.

(** On such a map the membership test of the classifier is the
    condition of the specification. *)
Lemma has_disaster_in_combined eq_risk weather_risk (kec : string) :
  let risk_map := combined_risk_map eq_risk weather_risk in
  App.has_disaster_in risk_map kec
  = ClassifierSpec.present_and_not_none (Risk.risk <$> risk_map !! kec).
Proof.
  intros risk_map. unfold App.has_disaster_in.
  destruct (risk_map !! kec) as [entry|] eqn:Hkec; simpl; [|done].
  destruct (combined_risk_map_entry _ _ _ _ Hkec) as [Hlevel _].
  by rewrite (recorded_level_not_NONE _ Hlevel).
Qed.

(** C10: every entry of the risk map that [get_combined_disaster_risk]
    builds has the level LOW, MEDIUM or HIGH (never NONE) and at least one
    cause; so the classifier reads the level NONE for a region exactly
    when the region is not in the map, and its membership test agrees
    with "a disaster risk is present and not NONE". *)
Theorem risk_map_levels eq_risk weather_risk :
  let risk_map := combined_risk_map eq_risk weather_risk in
  (∀ kec entry,
     risk_map !! kec = Some entry →
     recorded_level (Risk.risk entry)
     ∧ Risk.risk entry ≠ "NONE"%string
     ∧ Risk.causes entry ≠ [])
  ∧ (∀ kec,
       App.disaster_risk_in risk_map kec = "NONE"%string
       ↔ risk_map !! kec = None)
  ∧ (∀ kec,
       App.has_disaster_in risk_map kec
       = ClassifierSpec.present_and_not_none
           (Risk.risk <$> risk_map !! kec)).
Proof.
  intros risk_map. split; [|split].
  - intros kec entry Hkec.
    destruct (combined_risk_map_entry _ _ _ _ Hkec) as [Hlevel Hcauses].
    split; [done|]. split; [|done].
    by destruct Hlevel as [-> | [-> | ->]].
  - intros kec. unfold App.disaster_risk_in.
    destruct (risk_map !! kec) as [entry|] eqn:Hkec; [|done].
    destruct (combined_risk_map_entry _ _ _ _ Hkec) as [[-> | [-> | ->]] _];
      done.
  - intros kec. apply has_disaster_in_combined.
Qed.

End RiskMap.

(** ** The status classifier *)

Section Classifier.

Import DisasterCorrelation App.

Lemma lookup_compute_kecamatan_status (data : Snapshot) (kec : string) :
  kec ∈ MockData.KECAMATAN_DB.*1 →
  compute_kecamatan_status data !! kec = Some (region_status data kec).
Proof.
  intros Hkec. unfold compute_kecamatan_status.
  rewrite (lookup_foldl_insert (region_status data)).
  by rewrite decide_True.
Qed.

(** The three-way decision of the loop body, read off the record. *)
Lemma status_region_status (data : Snapshot) (kec : string) :
  let rm := risk_map (disaster_data data) in
  let social := default 100 (social_scores data !! kec) in
  let infra := default 100 (infra_scores data !! kec) in
  let c := combined_of social infra (disaster_risk_in rm kec) in
  status (region_status data kec)
  = if Py.Qlt_bool c 30
       || (Py.Qlt_bool social 40
           && (has_disaster_in rm kec || Py.Qlt_bool infra 50))
    then "CRITICAL"%string
    else if Py.Qlt_bool c 60 || Py.Qlt_bool social 60 || Py.Qlt_bool infra 60
    then "WARNING"%string
    else "NORMAL"%string.
Proof.
  intros rm social infra c. unfold region_status.
  fold rm social infra. fold c.
  destruct (Py.Qlt_bool c 30
            || Py.Qlt_bool social 40
               && (has_disaster_in rm kec || Py.Qlt_bool infra 50)); [done|].
  by destruct (Py.Qlt_bool c 60 || Py.Qlt_bool social 60
               || Py.Qlt_bool infra 60).
Qed.

(** The fields of the record that do not depend on the decision. *)
Lemma fields_region_status (data : Snapshot) (kec : string) :
  let rm := risk_map (disaster_data data) in
  let social := default 100 (social_scores data !! kec) in
  let infra := default 100 (infra_scores data !! kec) in
  let r := region_status data kec in
  combined_score r
  = Py.round (combined_of social infra (disaster_risk_in rm kec)) 1
  ∧ social_score r = social
  ∧ infra_score r = infra
  ∧ disaster_risk r = disaster_risk_in rm kec.
Proof.
  intros rm social infra r. unfold r, region_status.
  fold rm social infra.
  set (c := combined_of social infra (disaster_risk_in rm kec)).
  destruct (Py.Qlt_bool c 30
            || Py.Qlt_bool social 40
               && (has_disaster_in rm kec || Py.Qlt_bool infra 50)); [done|].
  by destruct (Py.Qlt_bool c 60 || Py.Qlt_bool social 60
               || Py.Qlt_bool infra 60).
Qed.

(** C8: a region that a producer does not mention gets that producer's
    default (social score 100, infra score 100, disaster risk NONE); a
    region that none of the three mentions is NORMAL with combined
    score 100. *)
Theorem absent_region_defaults (data : Snapshot) (kec : string) :
  kec ∈ MockData.KECAMATAN_DB.*1 →
  ∃ r,
    compute_kecamatan_status data !! kec = Some r
    ∧ (social_scores data !! kec = None → social_score r = 100)
    ∧ (infra_scores data !! kec = None → infra_score r = 100)
    ∧ (risk_map (disaster_data data) !! kec = None
       → disaster_risk r = "NONE"%string)
    ∧ (social_scores data !! kec = None →
       infra_scores data !! kec = None →
       risk_map (disaster_data data) !! kec = None →
       status r = "NORMAL"%string ∧ combined_score r == 100).
Proof.
  intros Hkec. exists (region_status data kec).
  split; [by apply lookup_compute_kecamatan_status|].
  destruct (fields_region_status data kec) as (Hc & -> & -> & ->).
  rewrite Hc, status_region_status.
  unfold disaster_risk_in, has_disaster_in.
  split; [by intros ->|]. split; [by intros ->|]. split; [by intros ->|].
  intros Hs Hi Hd. rewrite Hs, Hi, Hd. split; vm_compute; reflexivity.
Qed.

Lemma absent_region_defaults_witness :
  ∃ r,
    compute_kecamatan_status Examples.kedaton_hit !! "Liwa"%string = Some r
    ∧ social_score r = 100 ∧ infra_score r = 100
    ∧ disaster_risk r = "NONE"%string
    ∧ status r = "NORMAL"%string ∧ combined_score r == 100.
Proof.
  destruct (absent_region_defaults Examples.kedaton_hit "Liwa")
    as (r & Hr & Hs & Hi & Hd & Hall).
  - apply (bool_decide_unpack _). vm_compute. exact I.
  - exists r. split; [done|].
    assert (Hs' : social_scores Examples.kedaton_hit !! "Liwa"%string = None)
      by (vm_compute; reflexivity).
    assert (Hi' : infra_scores Examples.kedaton_hit !! "Liwa"%string = None)
      by (vm_compute; reflexivity).
    assert (Hd' : risk_map (disaster_data Examples.kedaton_hit)
                    !! "Liwa"%string = None) by (vm_compute; reflexivity).
    destruct (Hall Hs' Hi' Hd') as [Hst Hc]. auto.
Defined.

End Classifier.

(* ------------------------------------------------------------------ *)
(** ** The classifier in binary64 arithmetic *)

Section ClassifierBinary64.

Import DisasterCorrelation AppBinary64.
Import PrimFloat.

(** The product of two binary64 numbers does not depend on their order. *)
Lemma float_mul_comm (x y : PrimFloat.float) : (x * y = y * x)%float.
Proof.
  apply FloatAxioms.Prim2SF_inj. rewrite !FloatAxioms.mul_spec.
  unfold FloatAxioms.SF64mul, SpecFloat.SFmul.
  destruct (FloatOps.Prim2SF x) as [sx|sx| |sx mx ex],
           (FloatOps.Prim2SF y) as [sy|sy| |sy my ey];
    try reflexivity; try (by rewrite (xorb_comm sx sy)).
  by rewrite (xorb_comm sx sy), (Pos.mul_comm mx my), (Z.add_comm ex ey).
Qed.

Lemma lookup_compute_kecamatan_status_binary64 (data : Data) (kec : string) :
  kec ∈ MockData.KECAMATAN_DB.*1 →
  compute_kecamatan_status data !! kec = Some (region_status data kec).
Proof.
  intros Hkec. unfold compute_kecamatan_status.
  rewrite (lookup_foldl_insert (region_status data)).
  by rewrite decide_True.
Qed.

(** The weighted sum of the code is the one of the specification. *)
Lemma combined_of_spec (social_score infra_score : PrimFloat.float)
    (disaster_risk : string) :
  combined_of social_score infra_score disaster_risk
  = ClassifierSpec.combined social_score infra_score disaster_risk.
Proof.
  unfold combined_of, ClassifierSpec.combined, ClassifierSpec.disaster_term.
  rewrite (float_mul_comm social_score), (float_mul_comm infra_score).
  destruct (disaster_risk =? "HIGH")%string; [by rewrite float_mul_comm|].
  destruct (disaster_risk =? "MEDIUM")%string; by rewrite float_mul_comm.
Qed.

(** C1: for every region of KECAMATAN_DB, on the risk map that
    [get_combined_disaster_risk] builds, [compute_kecamatan_status]
    weighs the scores as 0.4, 0.4 and 0.2 (with the disaster term 0 for
    HIGH, 50 for MEDIUM, 100 otherwise) and decides as section 4.3 says:
    CRITICAL first, then WARNING, then NORMAL, all comparisons strict.
    The scores are any binary64 numbers, the sum is the one binary64
    arithmetic gives, and the score shown is that sum rounded to one
    decimal. *)
Theorem classifier_follows_spec (data : Data)
    (eq_risk : gmap string EqRisk.t) (weather_risk : gmap string WeatherRisk.t)
    (kec : string) :
  risk_map (disaster_data data) = combined_risk_map eq_risk weather_risk →
  kec ∈ MockData.KECAMATAN_DB.*1 →
  let social := default 100%float (social_scores data !! kec) in
  let infra := default 100%float (infra_scores data !! kec) in
  let entry := Risk.risk <$> risk_map (disaster_data data) !! kec in
  let disaster_risk := default "NONE"%string entry in
  ∃ r,
    compute_kecamatan_status data !! kec = Some r
    ∧ status r = ClassifierSpec.classify social infra entry
    ∧ combined_score r
      = Py.float_round (ClassifierSpec.combined social infra disaster_risk) 1
    ∧ social_score r = social
    ∧ infra_score r = infra
    ∧ AppBinary64.disaster_risk r = disaster_risk.
Proof.
  intros Hmap Hkec social infra entry disaster_risk.
  exists (region_status data kec).
  assert (Hrisk : App.disaster_risk_in (risk_map (disaster_data data)) kec
                  = disaster_risk).
  { unfold App.disaster_risk_in, disaster_risk, entry.
    by destruct (risk_map (disaster_data data) !! kec). }
  assert (Hhas : App.has_disaster_in (risk_map (disaster_data data)) kec
                 = ClassifierSpec.present_and_not_none entry).
  { unfold entry. rewrite Hmap. apply has_disaster_in_combined. }
  split; [by apply lookup_compute_kecamatan_status_binary64|].
  unfold region_status. fold social infra.
  rewrite Hrisk, Hhas, combined_of_spec.
  unfold ClassifierSpec.classify. fold disaster_risk.
  set (c := ClassifierSpec.combined social infra disaster_risk).
  destruct ((c <? 30)%float
            || (social <? 40)%float
               && (ClassifierSpec.present_and_not_none entry
                   || (infra <? 50)%float)); [done|].
  by destruct ((c <? 60)%float || (social <? 60)%float
               || (infra <? 60)%float).
Qed.

Lemma classifier_follows_spec_witness :
  ∃ r,
    compute_kecamatan_status Examples.kedaton_at_30 !! "Kedaton"%string
    = Some r
    ∧ status r = "CRITICAL"%string
    ∧ combined_score r = 30%float.
Proof.
  destruct (classifier_follows_spec Examples.kedaton_at_30
              Examples.eq_risk Examples.weather_risk "Kedaton")
    as (r & Hr & Hstatus & Hscore & _).
  - reflexivity.
  - apply (bool_decide_unpack _). vm_compute. exact I.
  - exists r. split; [done|]. split.
    + rewrite Hstatus. vm_compute. reflexivity.
    + rewrite Hscore. vm_compute. reflexivity.
Defined.

(** The defaults of an absent region are exact in binary64 too: 40 + 40 +
    20 is 100, and the region is NORMAL. *)
Lemma absent_region_defaults_binary64 (data : Data) (kec : string) :
  social_scores data !! kec = None →
  infra_scores data !! kec = None →
  risk_map (disaster_data data) !! kec = None →
  let r := region_status data kec in
  status r = "NORMAL"%string
  ∧ combined_score r = 100%float
  ∧ social_score r = 100%float
  ∧ infra_score r = 100%float
  ∧ AppBinary64.disaster_risk r = "NONE"%string.
Proof.
  intros Hs Hi Hd r. unfold r, region_status.
  unfold App.has_disaster_in, App.disaster_risk_in.
  rewrite Hs, Hi, Hd. by vm_compute.
Qed.

End ClassifierBinary64.


(** ** The data store *)

Section Store.

Import DisasterCorrelation DataStore.

Context `{Producers}.

(** What a successful [try] block has called and built. *)
Lemma build_new_data_Ok (w : World) (new_data : Snapshot) :
  build_new_data w = Ok new_data ↔
  ∃ signals agg disaster probes pagg,
    fetch_social_signals w = Ok signals
    ∧ aggregate_by_kecamatan signals = Ok agg
    ∧ get_combined_disaster_risk
        (fetch_disaster_data w) assess_earthquake_risk assess_weather_risk
      = Ok disaster
    ∧ probe_anchors w = Ok probes
    ∧ aggregate_probe_by_kecamatan probes = Ok pagg
    ∧ new_data = {| social_signals := signals;
                    social_agg := agg;
                    social_scores := SocialSignal.get_social_score agg;
                    disaster_data := disaster;
                    probe_results := probes;
                    probe_agg := pagg;
                    infra_scores := InfraProbing.get_infra_score pagg |}.
Proof.
  unfold build_new_data. split.
  - destruct (fetch_social_signals w) as [signals|] eqn:Hs;
      cbn [mbind result_bind]; [|done].
    destruct (aggregate_by_kecamatan signals) as [agg|] eqn:Ha;
      cbn [mbind result_bind]; [|done].
    destruct (get_combined_disaster_risk _ _ _) as [disaster|] eqn:Hd;
      cbn [mbind result_bind]; [|done].
    destruct (probe_anchors w) as [probes|] eqn:Hp;
      cbn [mbind result_bind]; [|done].
    destruct (aggregate_probe_by_kecamatan probes) as [pagg|] eqn:Hg;
      cbn [mbind result_bind]; [|done].
    intros [= <-]. by exists signals, agg, disaster, probes, pagg.
  - intros (signals & agg & disaster & probes & pagg
            & Hs & Ha & Hd & Hp & Hg & ->).
    rewrite Hs; cbn [mbind result_bind]. rewrite Ha; cbn [mbind result_bind].
    rewrite Hd; cbn [mbind result_bind]. rewrite Hp; cbn [mbind result_bind].
    by rewrite Hg.
Qed.

Lemma build_new_data_all_ok (w : World) signals agg disaster probes pagg :
  fetch_social_signals w = Ok signals →
  aggregate_by_kecamatan signals = Ok agg →
  get_combined_disaster_risk
    (fetch_disaster_data w) assess_earthquake_risk assess_weather_risk
  = Ok disaster →
  probe_anchors w = Ok probes →
  aggregate_probe_by_kecamatan probes = Ok pagg →
  build_new_data w
  = Ok {| social_signals := signals;
          social_agg := agg;
          social_scores := SocialSignal.get_social_score agg;
          disaster_data := disaster;
          probe_results := probes;
          probe_agg := pagg;
          infra_scores := InfraProbing.get_infra_score pagg |}.
Proof.
  intros Hs Ha Hd Hp Hg. apply build_new_data_Ok.
  by exists signals, agg, disaster, probes, pagg.
Qed.

(** A raising [probe_anchors] ends the [try] block, after the social and
    disaster data were fetched. *)
Lemma build_new_data_probe_raises (w : World) signals agg disaster e :
  fetch_social_signals w = Ok signals →
  aggregate_by_kecamatan signals = Ok agg →
  get_combined_disaster_risk
    (fetch_disaster_data w) assess_earthquake_risk assess_weather_risk
  = Ok disaster →
  probe_anchors w = Raise e →
  build_new_data w = Raise e.
Proof.
  intros Hs Ha Hd Hp. unfold build_new_data.
  rewrite Hs; cbn [mbind result_bind]. rewrite Ha; cbn [mbind result_bind].
  rewrite Hd; cbn [mbind result_bind]. by rewrite Hp.
Qed.

Lemma do_fetch_failed (w : World) (self : t) (e : Exception) :
  build_new_data w = Raise e →
  _do_fetch w self
  = {| returned := Ok ();
       store :=
         {| _refresh_interval := _refresh_interval self;
            _data := _data self;
            _stop_event := _stop_event self;
            _is_fetching := false;
            _last_refresh := _last_refresh self;
            _next_refresh := _next_refresh self;
            _fetch_count := _fetch_count self;
            _last_error := Some (exc_str e) |};
       effects := [] |}.
Proof. intros He. unfold _do_fetch, fetch_try. by rewrite He. Qed.

(** In range, the next refresh is the last one plus the interval. *)
Lemma next_refresh_after_Ok (last_refresh : datetime) (refresh_interval : Z)
    (next_refresh : datetime) :
  next_refresh_after last_refresh refresh_interval = Ok next_refresh →
  next_refresh = (last_refresh + refresh_interval * 1000000)%Z
  ∧ (datetime_min <= next_refresh <= datetime_max)%Z.
Proof.
  unfold next_refresh_after, timedelta, datetime_add.
  destruct (_ || _); [done|]. destruct (_ <? _)%Z; [done|].
  cbn [mbind result_bind].
  destruct ((_ <? _)%Z || (_ <? _)%Z) eqn:Hrange; [done|].
  intros [= <-]. apply orb_false_iff in Hrange as [Hlo Hhi].
  apply Z.ltb_ge in Hlo, Hhi. done.
Qed.

(** What the publication does to the store, when the next refresh can be
    scheduled and when it cannot. *)
Lemma fetch_try_published (w : World) (self : t) (new_data : Snapshot) :
  build_new_data w = Ok new_data →
  fetch_try w self
  = match next_refresh_after (datetime_now w) (_refresh_interval self) with
    | Ok next_refresh =>
        {| _refresh_interval := _refresh_interval self;
           _data := Some new_data;
           _stop_event := _stop_event self;
           _is_fetching := _is_fetching self;
           _last_refresh := Some (datetime_now w);
           _next_refresh := Some next_refresh;
           _fetch_count := (_fetch_count self + 1)%Z;
           _last_error := None |}
    | Raise e =>
        {| _refresh_interval := _refresh_interval self;
           _data := Some new_data;
           _stop_event := _stop_event self;
           _is_fetching := _is_fetching self;
           _last_refresh := Some (datetime_now w);
           _next_refresh := _next_refresh self;
           _fetch_count := _fetch_count self;
           _last_error := Some (exc_str e) |}
    end.
Proof.
  intros Hok. unfold fetch_try, publish. rewrite Hok.
  cbn [_refresh_interval].
  by destruct (next_refresh_after _ _).
Qed.

Lemma fetch_try_failed (w : World) (self : t) (e : Exception) :
  build_new_data w = Raise e → fetch_try w self = record_error e self.
Proof. intros He. unfold fetch_try. by rewrite He. Qed.

Lemma fetch_count_step (self : t) (ev : event) :
  _fetch_count (step self ev)
  = if completes self ev then (_fetch_count self + 1)%Z
    else _fetch_count self.
Proof.
  destruct ev; simpl; try done.
  - destruct (build_new_data w) as [new_data|e] eqn:Hw.
    + rewrite (fetch_try_published _ _ _ Hw).
      by destruct (next_refresh_after _ _).
    + by rewrite (fetch_try_failed _ _ _ Hw).
  - unfold force_refresh. by destruct (_is_fetching self).
Qed.



(** C2: when a producer call of the [try] block raises, before the
    snapshot is built, [_do_fetch] returns normally; the snapshot, [last_refresh], [next_refresh] and
    [fetch_count] (and the interval and the stop flag) are what they
    were, [last_error] is the message of the exception, and
    [is_fetching] is false. *)
Theorem failed_cycle_keeps_snapshot (w : World) (self : t) (e : Exception) :
  build_new_data w = Raise e →
  let cycle := _do_fetch w self in
  returned cycle = Ok ()
  ∧ _data (store cycle) = _data self
  ∧ _last_refresh (store cycle) = _last_refresh self
  ∧ _next_refresh (store cycle) = _next_refresh self
  ∧ _fetch_count (store cycle) = _fetch_count self
  ∧ _refresh_interval (store cycle) = _refresh_interval self
  ∧ _stop_event (store cycle) = _stop_event self
  ∧ _last_error (store cycle) = Some (exc_str e)
  ∧ _is_fetching (store cycle) = false.
Proof.
  intros He cycle. unfold cycle. by rewrite (do_fetch_failed _ _ _ He).
Qed.

(** C3, amended: when the infrastructure producer raises while the social
    and the disaster producer succeed, the cycle publishes nothing: the
    store keeps the snapshot and the refresh times and count it had (the
    social and disaster data of this cycle are dropped), [last_error] is
    the message of the exception, and [is_fetching] is false. *)
Theorem infra_failure_aborts_cycle (w : World) (self : t)
    signals agg disaster (e : Exception) :
  fetch_social_signals w = Ok signals →
  aggregate_by_kecamatan signals = Ok agg →
  get_combined_disaster_risk
    (fetch_disaster_data w) assess_earthquake_risk assess_weather_risk
  = Ok disaster →
  probe_anchors w = Raise e →
  let after := store (_do_fetch w self) in
  _data after = _data self
  ∧ _last_refresh after = _last_refresh self
  ∧ _next_refresh after = _next_refresh self
  ∧ _fetch_count after = _fetch_count self
  ∧ _last_error after = Some (exc_str e)
  ∧ _is_fetching after = false.
Proof.
  intros Hs Ha Hd Hp after. unfold after.
  by rewrite (do_fetch_failed _ _ _
                (build_new_data_probe_raises _ _ _ _ _ Hs Ha Hd Hp)).
Qed.

(** C4: a successful cycle, one whose [try] block raises nothing (every
    producer gives its data and the next refresh can be scheduled),
    publishes in one access to the store: the snapshot becomes the seven
    values of this cycle, [last_refresh] the time of publication,
    [next_refresh] that time plus the refresh interval, [fetch_count] one
    more, [last_error] None; [_do_fetch] then only clears [is_fetching].
    Over any history [fetch_count] never decreases, and it changes only at
    the publication of a successful cycle, by one. *)
Theorem successful_cycle_publishes :
  (∀ (w : World) (self : t) signals agg disaster probes pagg next_refresh,
     fetch_social_signals w = Ok signals →
     aggregate_by_kecamatan signals = Ok agg →
     get_combined_disaster_risk
       (fetch_disaster_data w) assess_earthquake_risk assess_weather_risk
     = Ok disaster →
     probe_anchors w = Ok probes →
     aggregate_probe_by_kecamatan probes = Ok pagg →
     next_refresh_after (datetime_now w) (_refresh_interval self)
     = Ok next_refresh →
     let new_data :=
       {| social_signals := signals;
          social_agg := agg;
          social_scores := SocialSignal.get_social_score agg;
          disaster_data := disaster;
          probe_results := probes;
          probe_agg := pagg;
          infra_scores := InfraProbing.get_infra_score pagg |} in
     next_refresh = (datetime_now w + _refresh_interval self * 1000000)%Z
     ∧ step self (ev_fetch_try w)
       = {| _refresh_interval := _refresh_interval self;
            _data := Some new_data;
            _stop_event := _stop_event self;
            _is_fetching := _is_fetching self;
            _last_refresh := Some (datetime_now w);
            _next_refresh := Some next_refresh;
            _fetch_count := (_fetch_count self + 1)%Z;
            _last_error := None |}
     ∧ _do_fetch w self
       = {| returned := Ok ();
            store :=
              {| _refresh_interval := _refresh_interval self;
                 _data := Some new_data;
                 _stop_event := _stop_event self;
                 _is_fetching := false;
                 _last_refresh := Some (datetime_now w);
                 _next_refresh := Some next_refresh;
                 _fetch_count := (_fetch_count self + 1)%Z;
                 _last_error := None |};
            effects := [] |})
  ∧ (∀ (self : t) (history : list event),
       (_fetch_count self <= _fetch_count (run self history))%Z)
  ∧ (∀ (self : t) (ev : event),
       _fetch_count (step self ev) ≠ _fetch_count self →
       completes self ev = true
       ∧ _fetch_count (step self ev) = (_fetch_count self + 1)%Z).
Proof.
  split; [|split].
  - intros w self signals agg disaster probes pagg next_refresh
      Hs Ha Hd Hp Hg Hnext new_data.
    pose proof (build_new_data_all_ok _ _ _ _ _ _ Hs Ha Hd Hp Hg) as Hok.
    fold new_data in Hok.
    split; [by apply next_refresh_after_Ok in Hnext as [? _]|].
    split.
    + cbn [step]. by rewrite (fetch_try_published _ _ _ Hok), Hnext.
    + unfold _do_fetch. f_equal.
      rewrite (fetch_try_published _ _ _ Hok). cbn [fetch_begin _refresh_interval].
      by rewrite Hnext.
  - intros self history. revert self.
    induction history as [|ev history IH]; intros self; [done|].
    unfold run in *. cbn [foldl]. etrans; [|apply IH].
    rewrite fetch_count_step. destruct (completes self ev); lia.
  - intros self ev. rewrite fetch_count_step.
    by destruct (completes self ev).
Qed.


(** C6: [force_refresh] on a store whose fetch is in progress returns
    normally, starts no thread, leaves the store as it is, and reports
    the skip with a warning. *)
Theorem force_refresh_while_fetching (self : t) :
  _is_fetching self = true →
  force_refresh self
  = {| returned := Ok ();
       store := self;
       effects :=
         [logger_warning
            "DataStore: Fetch already in progress, skipping force refresh."] |}.
Proof. intros Hfetching. unfold force_refresh. by rewrite Hfetching. Qed.

(** C7: [set_refresh_interval] sets the interval to the larger of 60 and
    its argument: never below 60, the argument itself from 60 on, and 60
    for the argument 10. *)
Theorem refresh_interval_floor (seconds : Z) (self : t) :
  let after := store (set_refresh_interval seconds self) in
  _refresh_interval after = Z.max 60 seconds
  ∧ (60 <= _refresh_interval after)%Z
  ∧ ((60 <= seconds)%Z → _refresh_interval after = seconds)
  ∧ _refresh_interval (store (set_refresh_interval 10 self)) = 60%Z.
Proof. intros after. unfold after. simpl. repeat split; lia. Qed.

End Store.

(** C3, as stated, fails: with the anchors file missing, a new store ends
    the cycle with no snapshot at all, although the social and the disaster
    producer had given their data. *)
Lemma infra_failure_not_isolated :
  ¬ @infra_failure_isolated Replay.producers Replay.anchors_missing (DataStore.fresh 300).
Proof.
  intros Hclaim.
  destruct (Hclaim [] ∅
              {| DisasterCorrelation.risk_map := ∅;
                 DisasterCorrelation.metadata :=
                   {| DisasterCorrelation.earthquakes := [Examples.quake];
                      DisasterCorrelation.weather_warnings := [] |} |}
              {| exc_class := "FileNotFoundError";
                 exc_str := "[Errno 2] No such file or directory: 'data/anchors.csv'" |})
    as [(snapshot & Hdata & _) _]; try reflexivity.
  vm_compute in Hdata. discriminate Hdata.
Qed.

Lemma failed_cycle_keeps_snapshot_witness :
  let cycle := @DataStore._do_fetch Replay.producers Replay.anchors_missing (DataStore.fresh 300) in
  DataStore.returned cycle = Ok ()
  ∧ DataStore._data (DataStore.store cycle) = None
  ∧ DataStore._fetch_count (DataStore.store cycle) = 0%Z
  ∧ DataStore._last_error (DataStore.store cycle)
    = Some "[Errno 2] No such file or directory: 'data/anchors.csv'"%string
  ∧ DataStore._is_fetching (DataStore.store cycle) = false.
Proof.
  destruct (@failed_cycle_keeps_snapshot Replay.producers Replay.anchors_missing
              (DataStore.fresh 300)
              {| exc_class := "FileNotFoundError";
                 exc_str := "[Errno 2] No such file or directory: 'data/anchors.csv'" |})
    as (Hr & Hd & _ & _ & Hc & _ & _ & He & Hf); [reflexivity|].
  repeat split; assumption.
Defined.

Lemma infra_failure_aborts_cycle_witness :
  let after :=
    DataStore.store
      (@DataStore._do_fetch Replay.producers Replay.anchors_missing (DataStore.fresh 300)) in
  DataStore._data after = None
  ∧ DataStore._last_error after
    = Some "[Errno 2] No such file or directory: 'data/anchors.csv'"%string.
Proof.
  destruct (@infra_failure_aborts_cycle Replay.producers Replay.anchors_missing
              (DataStore.fresh 300) [] ∅
              {| DisasterCorrelation.risk_map := ∅;
                 DisasterCorrelation.metadata :=
                   {| DisasterCorrelation.earthquakes := [Examples.quake];
                      DisasterCorrelation.weather_warnings := [] |} |}
              {| exc_class := "FileNotFoundError";
                 exc_str := "[Errno 2] No such file or directory: 'data/anchors.csv'" |})
    as (Hd & _ & _ & _ & He & _); try reflexivity.
  split; assumption.
Defined.

Lemma force_refresh_while_fetching_witness :
  DataStore.force_refresh Replay.fetching
  = {| DataStore.returned := Ok ();
       DataStore.store := Replay.fetching;
       DataStore.effects :=
         [DataStore.logger_warning
            "DataStore: Fetch already in progress, skipping force refresh."] |}.
Proof. apply force_refresh_while_fetching. reflexivity. Defined.

Lemma successful_cycle_publishes_witness :
  let cycle := @DataStore._do_fetch Replay.producers Replay.quiet (DataStore.fresh 300) in
  let after := DataStore.store cycle in
  DataStore.returned cycle = Ok ()
  ∧ DataStore._fetch_count after = 1%Z
  ∧ DataStore._last_refresh after = Some 1700000000000000%Z
  ∧ DataStore._next_refresh after = Some 1700000300000000%Z
  ∧ DataStore._last_error after = None
  ∧ DataStore._is_fetching after = false
  ∧ (social_signals <$> DataStore._data after) = Some [].
Proof.
  intros cycle after. unfold after, cycle.
  rewrite (proj2 (proj2
             (proj1 (@successful_cycle_publishes Replay.producers)
                Replay.quiet (DataStore.fresh 300) [] ∅
                {| DisasterCorrelation.risk_map := ∅;
                   DisasterCorrelation.metadata :=
                     {| DisasterCorrelation.earthquakes := [];
                        DisasterCorrelation.weather_warnings := [] |} |}
                [] ∅ 1700000300000000%Z
                eq_refl eq_refl eq_refl eq_refl eq_refl eq_refl))).
  repeat split.
Defined.

(** ** Probing the anchors *)

Section Probing.

Import InfraProbing.

Lemma round_half_even_ge (x : Q) (lo : Z) :
  inject_Z lo <= x → (lo <= Py.round_half_even x)%Z.
Proof.
  intros Hlo.
  assert (Hf : (lo <= Qfloor x)%Z).
  { rewrite <- (Qfloor_Z lo). by apply Qfloor_resp_le. }
  unfold Py.round_half_even.
  destruct (Qcompare (x - inject_Z (Qfloor x)) 0.5); [|lia..].
  destruct (Z.even (Qfloor x)); lia.
Qed.

Lemma round_half_even_le (x : Q) (hi : Z) :
  x <= inject_Z hi → (Py.round_half_even x <= hi)%Z.
Proof.
  intros Hhi.
  assert (Hf : (Qfloor x <= hi)%Z).
  { rewrite <- (Qfloor_Z hi). by apply Qfloor_resp_le. }
  pose proof (Qfloor_le x) as Hfl.
  unfold Py.round_half_even.
  destruct (Qcompare (x - inject_Z (Qfloor x)) 0.5) eqn:E.
  - apply Qeq_alt in E.
    destruct (Z.even (Qfloor x)); [lia|].
    destruct (decide (Qfloor x = hi)) as [Heq|]; [|lia].
    exfalso. subst hi. lra.
  - lia.
  - apply Qgt_alt in E.
    destruct (decide (Qfloor x = hi)) as [Heq|]; [|lia].
    exfalso. subst hi. lra.
Qed.

Lemma scale_pos (ndigits : nat) : 0 < inject_Z (10 ^ Z.of_nat ndigits).
Proof.
  change 0 with (inject_Z 0). rewrite <- Zlt_Qlt.
  apply Z.pow_pos_nonneg; lia.
Qed.

Lemma round_nonneg (x : Q) (ndigits : nat) : 0 <= x → 0 <= Py.round x ndigits.
Proof.
  intros Hx. unfold Py.round.
  pose proof (scale_pos ndigits) as Hs.
  set (scale := inject_Z (10 ^ Z.of_nat ndigits)) in *.
  assert (Hr : (0 <= Py.round_half_even (x * scale))%Z).
  { apply round_half_even_ge. change (inject_Z 0) with 0.
    apply Qmult_le_0_compat; lra. }
  rewrite Zle_Qle in Hr. change (inject_Z 0) with 0 in Hr.
  apply Qle_shift_div_l; [done|]. lra.
Qed.

(** Rounding to one decimal keeps a value that is at most an integer at
    most that integer. *)
Lemma round_1_le (x : Q) (hi : Z) : x <= inject_Z hi → Py.round x 1 <= inject_Z hi.
Proof.
  intros Hx. unfold Py.round.
  change (inject_Z (10 ^ Z.of_nat 1)) with 10.
  assert (Hr : (Py.round_half_even (x * 10) <= hi * 10)%Z).
  { apply round_half_even_le. rewrite inject_Z_mult.
    change (inject_Z 10) with 10. lra. }
  rewrite Zle_Qle, inject_Z_mult in Hr. change (inject_Z 10) with 10 in Hr.
  apply Qle_shift_div_r; lra.
Qed.

Lemma sum_from_nonneg (l : list Q) (acc : Q) :
  0 <= acc → Forall (λ x, 0 <= x) l → 0 <= foldl Qplus acc l.
Proof.
  revert acc. induction l as [|x l IH]; intros acc Hacc Hl; simpl; [done|].
  apply Forall_cons in Hl as [Hx Hl]. apply IH; [lra|done].
Qed.

Lemma mean_nonneg (l : list Q) :
  Forall (λ x, 0 <= x) l → 0 <= Py.sum l / Py.len l.
Proof.
  intros Hl. unfold Py.sum, Py.len.
  pose proof (sum_from_nonneg l 0 ltac:(lra) Hl) as Hsum.
  destruct l as [|x l].
  - vm_compute. discriminate.
  - apply Qle_shift_div_l; [|lra].
    change 0 with (inject_Z 0). rewrite <- Zlt_Qlt. simpl. lia.
Qed.

(** *** [_ping_host] *)

(** X1: whatever the parsers read and whatever the subprocess does, a ping
    result has one of the three statuses; its latency is the sentinel -1 or
    not negative; RTO means a loss of 100 percent or more and always has the
    sentinel; OK means a loss of at most 20 percent and a latency of at
    most 200 ms. *)
Theorem ping_host_contract (_parse_packet_loss : string → string → Q)
    (_parse_latency : string → string → option Q)
    (system : string) (run : result string) :
  let ping := _ping_host _parse_packet_loss _parse_latency system run in
  (Ping.status ping = "RTO"%string ∨ Ping.status ping = "HIGH_LATENCY"%string
   ∨ Ping.status ping = "OK"%string)
  ∧ (Ping.latency_ms ping = -1 ∨ 0 <= Ping.latency_ms ping)
  ∧ (Ping.status ping = "RTO"%string ↔ 100 <= Ping.packet_loss_pct ping)
  ∧ (Ping.status ping = "RTO"%string → Ping.latency_ms ping = -1)
  ∧ (Ping.status ping = "OK"%string →
     Ping.packet_loss_pct ping <= 20 ∧ Ping.latency_ms ping <= 200).
Proof.
  intros ping. unfold ping, _ping_host.
  destruct run as [output|e]; simpl.
  2: { split_and!; auto; done. }
  set (loss := _parse_packet_loss output system).
  set (lat := _parse_latency output system).
  destruct (Qle_bool 100 loss) eqn:Hrto; simpl.
  { apply Qle_bool_iff in Hrto. split_and!; auto; done. }
  assert (Hlt : ¬ 100 <= loss).
  { intros Hle. apply Qle_bool_iff in Hle. congruence. }
  assert (Hlat : ∀ l, (if Qle_bool 0 l then Py.round l 1 else -1) = -1
                      ∨ 0 <= (if Qle_bool 0 l then Py.round l 1 else -1)).
  { intros l. destruct (Qle_bool 0 l) eqn:Hl; [|by left].
    right. apply round_nonneg. by apply Qle_bool_iff. }
  destruct (Py.Qlt_bool 20 loss) eqn:Hloss; simpl.
  { split_and!; auto; try done. destruct lat; auto. }
  assert (Hloss' : loss <= 20).
  { apply Qnot_lt_le. intros Hc. apply Qlt_bool_iff in Hc. congruence. }
  destruct lat as [l|]; simpl.
  - destruct (Py.Qlt_bool 200 l) eqn:Hl; simpl.
    + split_and!; auto; done.
    + assert (Hl' : l <= 200).
      { apply Qnot_lt_le. intros Hc. apply Qlt_bool_iff in Hc. congruence. }
      split_and!; auto; try done.
      intros _. split; [done|].
      destruct (Qle_bool 0 l); [|lra].
      apply (round_1_le l 200). by change (inject_Z 200) with 200.
  - split_and!; auto; done.
Qed.

End Probing.

(** *** [aggregate_probe_by_kecamatan] *)

Section ProbeAggregation.

Import InfraProbing.

(** The first loop collects, for every kecamatan, its results in the order
    they came. *)
Lemma lookup_foldl_add_probe (probe_results : list ProbeResult) (kec : string) :
  foldl add_probe ∅ probe_results !! kec
  = match filter (λ r, kecamatan r = kec) probe_results with
    | [] => None
    | rs =>
        Some {| Raw.anchors := rs;
                Raw.latencies :=
                  latency_ms <$> filter (λ r, Qle_bool 0 (latency_ms r) = true) rs;
                Raw.packet_losses := packet_loss_pct <$> rs;
                Raw.statuses := status <$> rs |}
    end.
Proof.
  induction probe_results as [|r probe_results IH] using rev_ind; [done|].
  rewrite foldl_app, filter_app. cbn [foldl]. unfold add_probe at 1.
  destruct (decide (kecamatan r = kec)) as [Hkec|Hkec].
  - rewrite (filter_cons_True _ r []) by done. rewrite filter_nil.
    rewrite Hkec, lookup_insert_eq, IH.
    set (rs := filter (λ r, kecamatan r = kec) probe_results).
    assert (Hne : ∃ x l, rs ++ [r] = x :: l).
    { destruct rs; simpl; eauto. }
    destruct Hne as (x & l & Hxl). rewrite Hxl, <- Hxl. f_equal.
    rewrite filter_app, !fmap_app.
    destruct (Qle_bool 0 (latency_ms r)) eqn:Hlat.
    + rewrite (filter_cons_True _ r []) by done. rewrite filter_nil.
      by destruct rs.
    + rewrite (filter_cons_False _ r []) by congruence. rewrite filter_nil.
      rewrite app_nil_r. by destruct rs.
  - rewrite (filter_cons_False _ r []) by done. rewrite filter_nil, app_nil_r.
    by rewrite lookup_insert_ne.
Qed.

Lemma lookup_aggregate_probe (probe_results : list ProbeResult) (kec : string)
    (a : Aggregate) :
  aggregate_probe_by_kecamatan probe_results !! kec = Some a →
  let rs := filter (λ r, kecamatan r = kec) probe_results in
  rs ≠ []
  ∧ a = probe_statistics
          {| Raw.anchors := rs;
             Raw.latencies :=
               latency_ms <$> filter (λ r, Qle_bool 0 (latency_ms r) = true) rs;
             Raw.packet_losses := packet_loss_pct <$> rs;
             Raw.statuses := status <$> rs |}.
Proof.
  unfold aggregate_probe_by_kecamatan.
  rewrite lookup_fmap, lookup_foldl_add_probe.
  destruct (filter (λ r, kecamatan r = kec) probe_results) as [|x l] eqn:Hrs;
    [done|].
  intros [= <-]. by split.
Qed.

Lemma count_spec (x : string) (l : list string) :
  (0 <= Py.count x l <= Z.of_nat (length l))%Z
  ∧ (Py.count x l = Z.of_nat (length l) ↔ Forall (λ y, y = x) l)
  ∧ (Py.count x l = 0%Z ↔ Forall (λ y, y ≠ x) l).
Proof.
  unfold Py.count. induction l as [|y l (IH1 & IH2 & IH3)].
  - simpl. split_and!; try done; lia.
  - rewrite !Forall_cons.
    destruct (decide (y = x)) as [->|Hne].
    + rewrite filter_cons_True by done. cbn [length].
      split_and!; [lia..| |].
      * split.
        -- intros Heq. split; [done|]. apply IH2. lia.
        -- intros [_ Hall]. apply IH2 in Hall. lia.
      * split; [lia|]. by intros [? _].
    + rewrite filter_cons_False by done. cbn [length].
      split_and!; [lia..| |].
      * split; [lia|]. by intros [? _].
      * rewrite IH3. tauto.
Qed.

(** X2: the keys of the aggregation are the kecamatan of the results; each
    entry holds the results of its kecamatan in the order they came, their
    number (at least one) and the number of RTO among them. *)
Theorem aggregate_probe_groups (probe_results : list ProbeResult) (kec : string) :
  (aggregate_probe_by_kecamatan probe_results !! kec = None
   ↔ Forall (λ r, kecamatan r ≠ kec) probe_results)
  ∧ (∀ a,
       aggregate_probe_by_kecamatan probe_results !! kec = Some a →
       anchors a = filter (λ r, kecamatan r = kec) probe_results
       ∧ anchor_count a = Z.of_nat (length (anchors a))
       ∧ (1 <= anchor_count a)%Z
       ∧ rto_count a
         = Z.of_nat (length (filter (λ r, status r = "RTO"%string) (anchors a)))
       ∧ (0 <= rto_count a <= anchor_count a)%Z).
Proof.
  split.
  - unfold aggregate_probe_by_kecamatan.
    rewrite lookup_fmap, lookup_foldl_add_probe.
    destruct (filter (λ r, kecamatan r = kec) probe_results) as [|x l] eqn:Hrs.
    + split; [intros _|done].
      apply Forall_forall. intros r Hr Hkec.
      assert (Hin : r ∈ filter (λ r, kecamatan r = kec) probe_results)
        by (by apply list_elem_of_filter).
      rewrite Hrs in Hin. by apply not_elem_of_nil in Hin.
    + split; [done|]. intros Hall. exfalso.
      assert (Hin : x ∈ filter (λ r, kecamatan r = kec) probe_results)
        by (rewrite Hrs; left).
      apply list_elem_of_filter in Hin as [Hkec Hin].
      by eapply Forall_forall in Hall.
  - intros a Ha. apply lookup_aggregate_probe in Ha as [Hne ->].
    cbn -[filter]. set (rs := filter (λ r, kecamatan r = kec) probe_results) in *.
    rewrite length_fmap.
    pose proof (count_spec "RTO" (status <$> rs)) as (Hc & _ & _).
    rewrite length_fmap in Hc.
    assert (Hlen : (1 <= Z.of_nat (length rs))%Z).
    { destruct rs; [done|]. simpl. lia. }
    assert (Hcount : Py.count "RTO" (status <$> rs)
                     = Z.of_nat (length (filter (λ r, status r = "RTO"%string) rs))).
    { unfold Py.count. f_equal. clear.
      induction rs as [|r rs IH]; [done|]. rewrite fmap_cons.
      destruct (decide (status r = "RTO"%string)) as [Hr|Hr].
      - rewrite !filter_cons_True by done. simpl. by rewrite IH.
      - by rewrite !filter_cons_False by done. }
    split_and!; try done; lia.
Qed.

Lemma Forall_fmap_status (P : string → Prop) (rs : list ProbeResult) :
  Forall P (status <$> rs) ↔ Forall (λ r, P (status r)) rs.
Proof. by rewrite Forall_fmap. Qed.

Lemma overall_status_spec (data : Raw.t) :
  Raw.statuses data ≠ [] →
  let a := probe_statistics data in
  (overall_status a = "DOWN"%string
   ↔ Forall (λ s, s = "RTO"%string) (Raw.statuses data))
  ∧ (overall_status a = "OK"%string
     ↔ Forall (λ s, s ≠ "RTO"%string ∧ s ≠ "HIGH_LATENCY"%string)
              (Raw.statuses data))
  ∧ (overall_status a = "DOWN"%string ∨ overall_status a = "DEGRADED"%string
     ∨ overall_status a = "OK"%string).
Proof.
  intros Hne a. unfold a, probe_statistics; cbn [overall_status].
  set (l := Raw.statuses data) in *.
  destruct (count_spec "RTO" l) as (Hr & Hrall & Hrnone).
  destruct (count_spec "HIGH_LATENCY" l) as (Hh & _ & Hhnone).
  assert (Hlen : (1 <= Z.of_nat (length l))%Z).
  { destruct l; [done|]. simpl. lia. }
  destruct (Py.count "RTO" l =? Z.of_nat (length l))%Z eqn:Hall.
  - apply Z.eqb_eq in Hall. split_and!; [|split; [done|]|by left].
    + split; [intros _|done]. by apply Hrall.
    + intros Hok. exfalso.
      assert (Hz : Py.count "RTO" l = 0%Z).
      { apply Hrnone. eapply Forall_impl; [exact Hok|]. by intros ? [? _]. }
      lia.
  - apply Z.eqb_neq in Hall.
    assert (Hnotall : ¬ Forall (λ s, s = "RTO"%string) l) by (by rewrite <- Hrall).
    rewrite !Z.gtb_ltb.
    destruct (0 <? Py.count "RTO" l)%Z eqn:Hrto; simpl.
    + apply Z.ltb_lt in Hrto. split_and!; [done| |right; by left].
      split; [done|]. intros Hok. exfalso.
      assert (Hz : Py.count "RTO" l = 0%Z).
      { apply Hrnone. eapply Forall_impl; [exact Hok|]. by intros ? [? _]. }
      lia.
    + apply Z.ltb_ge in Hrto.
      assert (Hr0 : Py.count "RTO" l = 0%Z) by lia.
      destruct (0 <? Py.count "HIGH_LATENCY" l)%Z eqn:Hhigh; simpl.
      * apply Z.ltb_lt in Hhigh. split_and!; [done| |right; by left].
        split; [done|]. intros Hok. exfalso.
        assert (Hz : Py.count "HIGH_LATENCY" l = 0%Z).
        { apply Hhnone. eapply Forall_impl; [exact Hok|]. by intros ? [_ ?]. }
        lia.
      * apply Z.ltb_ge in Hhigh.
        assert (Hh0 : Py.count "HIGH_LATENCY" l = 0%Z) by lia.
        split_and!; [done| |right; by right].
        split; [intros _|done].
        apply Hrnone in Hr0. apply Hhnone in Hh0.
        rewrite Forall_forall in *. intros s Hs. split; eauto.
Qed.

(** X3: a kecamatan is DOWN exactly when all its anchors are RTO, OK exactly
    when none is RTO or HIGH_LATENCY, and DEGRADED otherwise. *)
Theorem aggregate_probe_overall_status (probe_results : list ProbeResult)
    (kec : string) (a : Aggregate) :
  aggregate_probe_by_kecamatan probe_results !! kec = Some a →
  (overall_status a = "DOWN"%string
   ↔ Forall (λ r, status r = "RTO"%string) (anchors a))
  ∧ (overall_status a = "OK"%string
     ↔ Forall (λ r, status r ≠ "RTO"%string ∧ status r ≠ "HIGH_LATENCY"%string)
              (anchors a))
  ∧ (overall_status a = "DOWN"%string ∨ overall_status a = "DEGRADED"%string
     ∨ overall_status a = "OK"%string).
Proof.
  intros Ha. apply lookup_aggregate_probe in Ha as [Hne ->].
  set (rs := filter (λ r, kecamatan r = kec) probe_results) in *.
  set (data := {| Raw.anchors := rs;
                  Raw.latencies := _;
                  Raw.packet_losses := _;
                  Raw.statuses := status <$> rs |}).
  destruct (overall_status_spec data) as (Hdown & Hok & Hcases).
  { simpl. by destruct rs. }
  cbn [Raw.statuses data] in Hdown, Hok.
  rewrite Forall_fmap_status in Hdown. rewrite Forall_fmap_status in Hok.
  done.
Qed.

Lemma aggregate_probe_overall_status_witness :
  ∃ a,
    aggregate_probe_by_kecamatan ProbeExamples.probes !! "Kedaton"%string = Some a
    ∧ (overall_status a = "DOWN"%string
       ↔ Forall (λ r, status r = "RTO"%string) (anchors a))
    ∧ (overall_status a = "OK"%string
       ↔ Forall (λ r, status r ≠ "RTO"%string ∧ status r ≠ "HIGH_LATENCY"%string)
                (anchors a))
    ∧ (overall_status a = "DOWN"%string ∨ overall_status a = "DEGRADED"%string
       ∨ overall_status a = "OK"%string).
Proof.
  eexists. split; [vm_compute; reflexivity|].
  apply (aggregate_probe_overall_status ProbeExamples.probes "Kedaton").
  vm_compute. reflexivity.
Defined.

Lemma sum_from_le (l : list Q) (acc hi : Q) :
  Forall (λ x, x <= hi) l → foldl Qplus acc l <= acc + hi * Py.len l.
Proof.
  unfold Py.len. revert acc.
  induction l as [|x l IH]; intros acc Hl; cbn [foldl length].
  - change (inject_Z (Z.of_nat 0)) with 0. lra.
  - apply Forall_cons in Hl as [Hx Hl].
    eapply Qle_trans; [by apply IH|].
    rewrite Nat2Z.inj_succ, <- Z.add_1_r, inject_Z_plus.
    change (inject_Z 1) with 1. lra.
Qed.

Lemma len_pos {A : Type} (l : list A) : l ≠ [] → 0 < Py.len l.
Proof.
  intros Hne. unfold Py.len. change 0 with (inject_Z 0). rewrite <- Zlt_Qlt.
  destruct l; [done|]. simpl. lia.
Qed.

Lemma mean_le (l : list Q) (hi : Q) :
  l ≠ [] → Forall (λ x, x <= hi) l → Py.sum l / Py.len l <= hi.
Proof.
  intros Hne Hl. pose proof (len_pos l Hne) as Hpos.
  pose proof (sum_from_le l 0 hi Hl) as Hsum.
  apply Qle_shift_div_r; [done|]. unfold Py.sum. lra.
Qed.

Lemma filter_none {A : Type} (P : A → Prop) `{∀ x, Decision (P x)} (l : list A) :
  Forall (λ x, ¬ P x) l → filter P l = [].
Proof.
  induction 1 as [|x l Hx Hl IH]; [done|].
  by rewrite filter_cons_False.
Qed.

Lemma avg_packet_loss_nonneg (rs : list ProbeResult) (latencies : list Q) :
  Forall (λ r, 0 <= packet_loss_pct r) rs →
  0 <= avg_packet_loss
         (probe_statistics
            {| Raw.anchors := rs;
               Raw.latencies := latencies;
               Raw.packet_losses := packet_loss_pct <$> rs;
               Raw.statuses := status <$> rs |}).
Proof.
  intros Hall. cbn [probe_statistics avg_packet_loss Raw.packet_losses].
  apply round_nonneg, mean_nonneg. by apply Forall_fmap.
Qed.

(** X4: the average latency of a kecamatan is the sentinel -1 when none of its
    anchors answered (all latencies negative) and not negative as soon as
    one did; its average packet loss lies between 0 and 100 when that of
    every anchor does. *)
Theorem aggregate_probe_averages (probe_results : list ProbeResult)
    (kec : string) (a : Aggregate) :
  aggregate_probe_by_kecamatan probe_results !! kec = Some a →
  (Forall (λ r, latency_ms r < 0) (anchors a) → avg_latency a = -1)
  ∧ (Exists (λ r, 0 <= latency_ms r) (anchors a) → 0 <= avg_latency a)
  ∧ (Forall (λ r, 0 <= packet_loss_pct r) (anchors a) → 0 <= avg_packet_loss a)
  ∧ (Forall (λ r, packet_loss_pct r <= 100) (anchors a)
     → avg_packet_loss a <= 100).
Proof.
  intros Ha. apply lookup_aggregate_probe in Ha as [Hne ->].
  set (rs := filter (λ r, kecamatan r = kec) probe_results) in *.
  split_and!; [| |apply avg_packet_loss_nonneg|].
  all: cbn [probe_statistics anchors avg_latency avg_packet_loss
            Raw.latencies Raw.packet_losses].
  all: set (answered := filter (λ r, Qle_bool 0 (latency_ms r) = true) rs).
  - intros Hall.
    assert (Hnone : answered = []).
    { unfold answered. apply filter_none.
      eapply Forall_impl; [exact Hall|]. intros r Hr Hle.
      apply Qle_bool_iff in Hle. cbn beta in Hr. lra. }
    by rewrite Hnone.
  - intros (r & Hr & Hle)%Exists_exists.
    assert (Hin : r ∈ answered).
    { apply list_elem_of_filter. split; [by apply Qle_bool_iff|done]. }
    assert (Hpos : Forall (λ x, 0 <= x) (latency_ms <$> answered)).
    { apply Forall_fmap, Forall_forall. intros y Hy. cbn.
      apply list_elem_of_filter in Hy as [Hy _]. by apply Qle_bool_iff. }
    destruct (latency_ms <$> answered) as [|x l] eqn:Hans.
    + apply fmap_nil_inv in Hans. rewrite Hans in Hin.
      by apply not_elem_of_nil in Hin.
    + by apply round_nonneg, mean_nonneg.
  - intros Hall. apply (round_1_le _ 100). change (inject_Z 100) with 100.
    apply mean_le; [by destruct rs|]. by apply Forall_fmap.
Qed.

Lemma aggregate_probe_averages_witness :
  ∃ a,
    aggregate_probe_by_kecamatan ProbeExamples.probes !! "Natar"%string = Some a
    ∧ (Forall (λ r, latency_ms r < 0) (anchors a) → avg_latency a = -1)
    ∧ (Exists (λ r, 0 <= latency_ms r) (anchors a) → 0 <= avg_latency a)
    ∧ (Forall (λ r, 0 <= packet_loss_pct r) (anchors a) → 0 <= avg_packet_loss a)
    ∧ (Forall (λ r, packet_loss_pct r <= 100) (anchors a)
       → avg_packet_loss a <= 100).
Proof.
  eexists. split; [vm_compute; reflexivity|].
  apply (aggregate_probe_averages ProbeExamples.probes "Natar").
  vm_compute. reflexivity.
Defined.

(** X5: from the probe results to the scores: when no packet loss is negative,
    every kecamatan that has an anchor gets a score from 0 to 100; it is 0
    when all its anchors are RTO and 100 when none is RTO or
    HIGH_LATENCY. *)
Theorem infra_score_of_probes (probe_results : list ProbeResult)
    (kec : string) (score : Q) :
  Forall (λ r, 0 <= packet_loss_pct r) probe_results →
  get_infra_score (aggregate_probe_by_kecamatan probe_results) !! kec
  = Some score →
  let rs := filter (λ r, kecamatan r = kec) probe_results in
  rs ≠ []
  ∧ 0 <= score <= 100
  ∧ (Forall (λ r, status r = "RTO"%string) rs → score = 0.0)
  ∧ (Forall (λ r, status r ≠ "RTO"%string ∧ status r ≠ "HIGH_LATENCY"%string) rs
     → score = 100.0).
Proof.
  intros Hloss Hscore rs. revert Hscore.
  unfold get_infra_score. rewrite lookup_fmap.
  destruct (aggregate_probe_by_kecamatan probe_results !! kec) as [a|] eqn:Ha;
    [|done].
  intros [= <-].
  apply lookup_aggregate_probe in Ha as [Hne ->].
  fold rs in Hne |- *.
  set (data := {| Raw.anchors := rs;
                  Raw.latencies := _;
                  Raw.packet_losses := _;
                  Raw.statuses := status <$> rs |}).
  destruct (overall_status_spec data) as (Hdown & Hok & _).
  { simpl. by destruct rs. }
  cbn [Raw.statuses data] in Hdown, Hok.
  rewrite Forall_fmap_status in Hdown. rewrite Forall_fmap_status in Hok.
  assert (Hrs : Forall (λ r, 0 <= packet_loss_pct r) rs).
  { apply Forall_forall. intros r [_ Hr]%list_elem_of_filter.
    by eapply Forall_forall in Hloss. }
  pose proof (avg_packet_loss_nonneg rs _ Hrs : 0 <= avg_packet_loss (probe_statistics data))
    as Havg.
  split_and!; [done| | | |].
  - by apply infra_score_of_bounds.
  - by apply infra_score_of_bounds.
  - intros Hall. apply Hdown in Hall. unfold infra_score_of. by rewrite Hall.
  - intros Hall. apply Hok in Hall. unfold infra_score_of. by rewrite Hall.
Qed.

Lemma infra_score_of_probes_witness :
  get_infra_score (aggregate_probe_by_kecamatan ProbeExamples.probes)
    !! "Natar"%string = Some 0.0
  ∧ 0 <= 0.0 <= 100.
Proof.
  assert (Hscore : get_infra_score
                     (aggregate_probe_by_kecamatan ProbeExamples.probes)
                     !! "Natar"%string = Some 0.0)
    by (vm_compute; reflexivity).
  split; [exact Hscore|].
  exact (proj1 (proj2 (infra_score_of_probes ProbeExamples.probes "Natar" 0.0
                         ltac:(repeat constructor; vm_compute; discriminate)
                         Hscore))).
Defined.

End ProbeAggregation.

(** ** Python's sort and string order *)

Section Sorting.

Lemma ascii_compare_refl (a : Ascii.ascii) : Ascii.compare a a = Eq.
Proof. apply N.compare_refl. Qed.

Lemma string_leb_trans (a b c : string) :
  String.leb a b = true → String.leb b c = true → String.leb a c = true.
Proof.
  unfold String.leb. revert b c.
  induction a as [|x a IH]; intros [|y b] [|z c]; simpl; try done.
  destruct (Ascii.compare x y) eqn:Hxy; [| |done].
  - apply Ascii.compare_eq_iff in Hxy as ->.
    destruct (Ascii.compare y z); [apply IH|done..].
  - destruct (Ascii.compare y z) eqn:Hyz; [| |done]; intros _ _.
    + apply Ascii.compare_eq_iff in Hyz as <-. by rewrite Hxy.
    + unfold Ascii.compare in *. rewrite N.compare_lt_iff in Hxy, Hyz.
      assert (Hxz : (Ascii.N_of_ascii x < Ascii.N_of_ascii z)%N) by lia.
      apply N.compare_lt_iff in Hxz. by rewrite Hxz.
Qed.

Context {A : Type} (le : A → A → bool).
Hypothesis le_total : ∀ x y, le x y = true ∨ le y x = true.
Hypothesis le_trans : ∀ x y z, le x y = true → le y z = true → le x z = true.

Lemma insert_desc_perm (x : A) (l : list A) : Py.insert_desc le x l ≡ₚ x :: l.
Proof.
  induction l as [|y l IH]; simpl; [done|].
  destruct (le y x); [done|]. rewrite IH. apply Permutation_swap.
Qed.

Lemma sort_desc_perm (l : list A) : Py.sort_desc le l ≡ₚ l.
Proof.
  unfold Py.sort_desc. induction l as [|x l IH]; simpl; [done|].
  by rewrite insert_desc_perm, IH.
Qed.

Lemma insert_desc_descending (x : A) (l : list A) :
  descending le l → descending le (Py.insert_desc le x l).
Proof.
  unfold descending. induction 1 as [|y l Hl IH Hy]; simpl.
  - repeat constructor.
  - destruct (le y x) eqn:Hyx.
    + constructor; [by constructor|].
      constructor; [done|].
      eapply Forall_impl; [exact Hy|]. intros z Hz.
      exact (le_trans _ _ _ Hz Hyx).
    + constructor; [done|].
      rewrite insert_desc_perm. constructor; [|done].
      by destruct (le_total x y) as [?|?]; [|congruence].
Qed.

Lemma sort_desc_descending (l : list A) : descending le (Py.sort_desc le l).
Proof.
  unfold Py.sort_desc. induction l as [|x l IH]; simpl; [constructor|].
  by apply insert_desc_descending.
Qed.

Lemma descending_take_drop (n : nat) (l : list A) :
  descending le l →
  descending le (take n l)
  ∧ ∀ x y, x ∈ take n l → y ∈ drop n l → le y x = true.
Proof.
  unfold descending. intros Hl. revert n.
  induction Hl as [|z l Hl IH Hz]; intros [|n]; simpl.
  - split; [constructor|]. by intros x y ?%not_elem_of_nil.
  - split; [constructor|]. by intros x y ?%not_elem_of_nil.
  - split; [constructor|]. by intros x y ?%not_elem_of_nil.
  - destruct (IH n) as [IH1 IH2]. split.
    + constructor; [done|].
      apply Forall_forall. intros x Hx%subseteq_take.
      by eapply Forall_forall in Hz.
    + intros x y [->|Hx]%elem_of_cons Hy.
      * eapply Forall_forall in Hz; [done|].
        by eapply subseteq_drop.
      * by apply IH2.
Qed.

End Sorting.

(** ** Aggregating the complaints *)

Section SignalAggregation.

Import NlpProcessor SocialSignal.

(** The first loop collects, for every kecamatan but "Unknown", the
    signals located there in the order they came. *)
Lemma lookup_foldl_add_signal (signals : list Signal) (kec : string) :
  foldl add_signal ∅ signals !! kec
  = if (kec =? "Unknown")%string then None
    else
      match filter (λ s, primary_location s = kec) signals with
      | [] => None
      | rs =>
          Some {| Raw.complaint_count := Z.of_nat (length rs);
                  Raw.sentiments := sentiment_score <$> rs;
                  Raw.providers := rs ≫= providers_detected;
                  Raw.severities := NlpProcessor.severity <$> rs;
                  Raw.latest_reports := report_of <$> rs |}
      end.
Proof.
  induction signals as [|s signals IH] using rev_ind.
  { simpl. rewrite lookup_empty. by destruct (kec =? "Unknown")%string. }
  rewrite foldl_app, filter_app. cbn [foldl]. unfold add_signal at 1.
  destruct (String.eqb_spec (primary_location s) "Unknown") as [Hunk|Hknown].
  - rewrite IH. destruct (String.eqb_spec kec "Unknown") as [Hk|Hkec]; [done|].
    rewrite (filter_cons_False _ s []) by congruence.
    by rewrite filter_nil, app_nil_r.
  - destruct (decide (primary_location s = kec)) as [Hkec|Hkec].
    + rewrite (filter_cons_True _ s []) by done. rewrite filter_nil.
      assert (Hk : (kec =? "Unknown")%string = false)
        by (apply String.eqb_neq; congruence).
      rewrite Hkec, lookup_insert_eq, IH, Hk.
      set (rs := filter (λ s, primary_location s = kec) signals).
      assert (Hne : ∃ x l, rs ++ [s] = x :: l).
      { destruct rs; simpl; eauto. }
      destruct Hne as (x & l & Hxl). rewrite Hxl, <- Hxl. f_equal.
      rewrite length_app, bind_app, !fmap_app. cbn [length].
      destruct rs as [|y rs']; simpl.
      * by rewrite app_nil_r.
      * rewrite app_nil_r. f_equal. lia.
    + rewrite (filter_cons_False _ s []) by done. rewrite filter_nil, app_nil_r.
      by rewrite lookup_insert_ne.
Qed.

Lemma lookup_aggregate_signal (processed_signals : list Signal) (kec : string)
    (a : Aggregate) :
  aggregate_by_kecamatan processed_signals !! kec = Some a →
  let rs := filter (λ s, is_digital_issue s = true ∧ primary_location s = kec)
              processed_signals in
  kec ≠ "Unknown"%string
  ∧ rs ≠ []
  ∧ a = signal_statistics
          {| Raw.complaint_count := Z.of_nat (length rs);
             Raw.sentiments := sentiment_score <$> rs;
             Raw.providers := rs ≫= providers_detected;
             Raw.severities := NlpProcessor.severity <$> rs;
             Raw.latest_reports := report_of <$> rs |}.
Proof.
  intros Ha rs. revert Ha.
  assert (Hrs : rs = filter (λ s, primary_location s = kec)
                       (filter (λ s, is_digital_issue s = true)
                               processed_signals)).
  { unfold rs. rewrite list_filter_filter. apply list_filter_iff. tauto. }
  unfold aggregate_by_kecamatan.
  rewrite lookup_fmap, lookup_foldl_add_signal, <- Hrs.
  destruct (String.eqb_spec kec "Unknown") as [Hk|Hkec]; [done|].
  destruct rs as [|x l]; [done|].
  intros [= <-]. by split_and!.
Qed.

(** X6: the aggregation has a key for a kecamatan exactly when a digital
    complaint is located there, and never for "Unknown"; non-digital
    signals are not counted.  The complaint count of an entry is the number
    of digital complaints located there, which is at least one. *)
Theorem aggregate_signal_groups (processed_signals : list Signal) (kec : string) :
  let located :=
    filter (λ s, is_digital_issue s = true ∧ primary_location s = kec)
           processed_signals in
  (aggregate_by_kecamatan processed_signals !! kec = None
   ↔ kec = "Unknown"%string ∨ located = [])
  ∧ (∀ a,
       aggregate_by_kecamatan processed_signals !! kec = Some a →
       kec ≠ "Unknown"%string
       ∧ complaint_count a = Z.of_nat (length located)
       ∧ (1 <= complaint_count a)%Z).
Proof.
  intros located.
  assert (Hlocated : located
                     = filter (λ s, primary_location s = kec)
                         (filter (λ s, is_digital_issue s = true)
                                 processed_signals)).
  { unfold located. rewrite list_filter_filter.
    apply list_filter_iff. tauto. }
  split.
  - unfold aggregate_by_kecamatan.
    rewrite lookup_fmap, lookup_foldl_add_signal, <- Hlocated.
    destruct (String.eqb_spec kec "Unknown") as [Hk|Hkec]; [by split; auto|].
    destruct located; [by split; auto|].
    split; [done|]. by intros [?|?].
  - intros a Ha. apply lookup_aggregate_signal in Ha as (Hkec & Hne & ->).
    fold located in Hne |- *.
    cbn [signal_statistics complaint_count Raw.complaint_count].
    split_and!; [done..|]. destruct located; [done|]. simpl. lia.
Qed.

Lemma round_le (x : Q) (hi : Z) (ndigits : nat) :
  x <= inject_Z hi → Py.round x ndigits <= inject_Z hi.
Proof.
  intros Hx. unfold Py.round. pose proof (scale_pos ndigits) as Hs.
  set (scale := (10 ^ Z.of_nat ndigits)%Z) in *.
  assert (Hr : (Py.round_half_even (x * inject_Z scale) <= hi * scale)%Z).
  { apply round_half_even_le. rewrite inject_Z_mult.
    apply Qmult_le_compat_r; lra. }
  rewrite Zle_Qle, inject_Z_mult in Hr.
  apply Qle_shift_div_r; [done|]. lra.
Qed.

Lemma round_ge (x : Q) (lo : Z) (ndigits : nat) :
  inject_Z lo <= x → inject_Z lo <= Py.round x ndigits.
Proof.
  intros Hx. unfold Py.round. pose proof (scale_pos ndigits) as Hs.
  set (scale := (10 ^ Z.of_nat ndigits)%Z) in *.
  assert (Hr : (lo * scale <= Py.round_half_even (x * inject_Z scale))%Z).
  { apply round_half_even_ge. rewrite inject_Z_mult.
    apply Qmult_le_compat_r; lra. }
  rewrite Zle_Qle, inject_Z_mult in Hr.
  apply Qle_shift_div_l; [done|]. lra.
Qed.

Lemma sum_from_ge (l : list Q) (acc lo : Q) :
  Forall (λ x, lo <= x) l → acc + lo * Py.len l <= foldl Qplus acc l.
Proof.
  unfold Py.len. revert acc.
  induction l as [|x l IH]; intros acc Hl; cbn [foldl length].
  - change (inject_Z (Z.of_nat 0)) with 0. lra.
  - apply Forall_cons in Hl as [Hx Hl].
    eapply Qle_trans; [|by apply IH].
    rewrite Nat2Z.inj_succ, <- Z.add_1_r, inject_Z_plus.
    change (inject_Z 1) with 1. lra.
Qed.

Lemma mean_ge (l : list Q) (lo : Q) :
  l ≠ [] → Forall (λ x, lo <= x) l → lo <= Py.sum l / Py.len l.
Proof.
  intros Hne Hl. pose proof (len_pos l Hne) as Hpos.
  pose proof (sum_from_ge l 0 lo Hl) as Hsum.
  apply Qle_shift_div_l; [done|]. unfold Py.sum. lra.
Qed.

(** With at least one complaint the count score is at most 85, and so is
    the social score. *)
Lemma social_score_of_le_85 (data : Aggregate) :
  (1 <= complaint_count data)%Z → 0 <= social_score_of data <= 85.
Proof.
  intros Hcount. split.
  { apply social_score_of_bounds. lia. }
  unfold social_score_of.
  set (count_score := Z.max 0 (100 - complaint_count data * 15)).
  assert (Hc : (0 <= count_score <= 85)%Z) by lia.
  assert (Hq : 0 <= inject_Z count_score <= 85).
  { destruct Hc as [Hc0 Hc1]. rewrite Zle_Qle in Hc0, Hc1. done. }
  pose proof (Qabs_nonneg (avg_sentiment data)) as Habs.
  apply (round_le _ 85). change (inject_Z 85) with 85.
  apply max_0_bounds; [lra|].
  destruct (severity_mult_cases (max_severity data)) as [-> | [-> | ->]]; lra.
Qed.

(** X7: from the processed signals to the scores: every kecamatan with a
    digital complaint gets a score from 0 to 85; a score of 100 is left to
    the kecamatan without an entry. *)
Theorem social_score_of_signals (processed_signals : list Signal)
    (kec : string) (score : Q) :
  get_social_score (aggregate_by_kecamatan processed_signals) !! kec
  = Some score →
  0 <= score <= 85.
Proof.
  unfold get_social_score. rewrite lookup_fmap.
  destruct (aggregate_by_kecamatan processed_signals !! kec) as [a|] eqn:Ha;
    [|done].
  intros [= <-]. apply lookup_aggregate_signal in Ha as (_ & Hne & ->).
  apply social_score_of_le_85.
  cbn [signal_statistics complaint_count Raw.complaint_count].
  destruct (filter _ processed_signals); [done|]. simpl. lia.
Qed.

Lemma social_score_of_signals_witness : 0 <= 25.7 <= 85.
Proof.
  apply (social_score_of_signals SignalExamples.signals "Kedaton" 25.7).
  vm_compute. reflexivity.
Defined.

(** X8: the severity of a kecamatan is the worst of its digital complaints:
    critical when one is critical, else warning when one is warning, else
    normal. *)
Theorem aggregate_signal_max_severity (processed_signals : list Signal)
    (kec : string) (a : Aggregate) :
  aggregate_by_kecamatan processed_signals !! kec = Some a →
  let located :=
    filter (λ s, is_digital_issue s = true ∧ primary_location s = kec)
           processed_signals in
  let some_critical :=
    Exists (λ s, NlpProcessor.severity s = "critical"%string) located in
  let some_warning :=
    Exists (λ s, NlpProcessor.severity s = "warning"%string) located in
  (max_severity a = "critical"%string ↔ some_critical)
  ∧ (max_severity a = "warning"%string ↔ ¬ some_critical ∧ some_warning)
  ∧ (max_severity a = "normal"%string ↔ ¬ some_critical ∧ ¬ some_warning).
Proof.
  intros Ha located some_critical some_warning.
  apply lookup_aggregate_signal in Ha as (_ & _ & ->). fold located.
  cbn [signal_statistics max_severity Raw.severities].
  assert (Hin : ∀ x, x ∈ NlpProcessor.severity <$> located
                     ↔ Exists (λ s, NlpProcessor.severity s = x) located).
  { intros x. rewrite list_elem_of_fmap, Exists_exists. split.
    - intros (s & -> & Hs). by exists s.
    - intros (s & Hs & <-). by exists s. }
  fold some_critical some_warning in Hin.
  pose proof (Hin "critical"%string) as Hc.
  pose proof (Hin "warning"%string) as Hw.
  fold some_critical in Hc. fold some_warning in Hw.
  repeat case_bool_decide; split_and!; split; try done; tauto.
Qed.

Lemma aggregate_signal_max_severity_witness :
  ∃ a,
    aggregate_by_kecamatan SignalExamples.signals !! "Kedaton"%string = Some a
    ∧ let located :=
        filter (λ s, is_digital_issue s = true
                     ∧ primary_location s = "Kedaton"%string)
               SignalExamples.signals in
      let some_critical :=
        Exists (λ s, NlpProcessor.severity s = "critical"%string) located in
      let some_warning :=
        Exists (λ s, NlpProcessor.severity s = "warning"%string) located in
      (max_severity a = "critical"%string ↔ some_critical)
      ∧ (max_severity a = "warning"%string ↔ ¬ some_critical ∧ some_warning)
      ∧ (max_severity a = "normal"%string ↔ ¬ some_critical ∧ ¬ some_warning).
Proof.
  eexists. split; [vm_compute; reflexivity|].
  apply (aggregate_signal_max_severity SignalExamples.signals "Kedaton").
  vm_compute. reflexivity.
Defined.

(** X9: an entry keeps at most five reports, the newest ones, newest first:
    they are in descending order of their time strings, and together with
    the reports left out (none of which is later than a kept one) they are
    the reports of the digital complaints located there. *)
Theorem aggregate_signal_latest_reports (processed_signals : list Signal)
    (kec : string) (a : Aggregate) :
  aggregate_by_kecamatan processed_signals !! kec = Some a →
  let located :=
    filter (λ s, is_digital_issue s = true ∧ primary_location s = kec)
           processed_signals in
  let by_time := λ x y : Report, String.leb (time x) (time y) in
  length (latest_reports a) ≤ 5
  ∧ descending by_time (latest_reports a)
  ∧ ∃ left_out,
      latest_reports a ++ left_out ≡ₚ report_of <$> located
      ∧ ∀ x y, x ∈ latest_reports a → y ∈ left_out → by_time y x = true.
Proof.
  intros Ha located by_time.
  apply lookup_aggregate_signal in Ha as (_ & _ & ->). fold located.
  cbn [signal_statistics latest_reports Raw.latest_reports].
  fold by_time. set (sorted := Py.sort_desc by_time (report_of <$> located)).
  assert (Htotal : ∀ x y, by_time x y = true ∨ by_time y x = true).
  { intros x y. apply String.leb_total. }
  assert (Htrans : ∀ x y z, by_time x y = true → by_time y z = true
                            → by_time x z = true).
  { intros x y z. apply string_leb_trans. }
  destruct (descending_take_drop by_time 5 sorted) as [Hdesc Hsplit].
  { by apply sort_desc_descending. }
  split_and!.
  - rewrite length_take. lia.
  - done.
  - exists (drop 5 sorted). split; [|done].
    rewrite take_drop. apply sort_desc_perm.
Qed.

Lemma aggregate_signal_latest_reports_witness :
  ∃ a,
    aggregate_by_kecamatan SignalExamples.signals !! "Kedaton"%string = Some a
    ∧ (time <$> latest_reports a)
      = ["2024-01-01T12:30:00"; "2024-01-01T10:00:00"]%string
    ∧ descending (λ x y : Report, String.leb (time x) (time y))
                 (latest_reports a).
Proof.
  eexists. split; [vm_compute; reflexivity|]. split; [vm_compute; reflexivity|].
  apply (aggregate_signal_latest_reports SignalExamples.signals "Kedaton").
  vm_compute. reflexivity.
Defined.

(** When every sentiment score lies between -1 and 0, so does the average
    sentiment of every entry. *)
Theorem aggregate_signal_avg_sentiment (processed_signals : list Signal)
    (kec : string) (a : Aggregate) :
  Forall (λ s, -1 <= sentiment_score s <= 0) processed_signals →
  aggregate_by_kecamatan processed_signals !! kec = Some a →
  -1 <= avg_sentiment a <= 0.
Proof.
  intros Hall Ha. apply lookup_aggregate_signal in Ha as (_ & Hne & ->).
  set (located := filter _ processed_signals) in *.
  cbn [signal_statistics avg_sentiment Raw.sentiments].
  assert (Hloc : Forall (λ x, -1 <= x <= 0) (sentiment_score <$> located)).
  { apply Forall_fmap, Forall_forall. intros s [_ Hs]%list_elem_of_filter.
    by eapply Forall_forall in Hall. }
  destruct (sentiment_score <$> located) as [|x l] eqn:Hs.
  { by apply fmap_nil_inv in Hs. }
  split.
  - apply (round_ge _ (-1)). change (inject_Z (-1)) with (-1).
    apply mean_ge; [done|]. eapply Forall_impl; [exact Hloc|]. by intros ? [? _].
  - apply (round_le _ 0). change (inject_Z 0) with 0.
    apply mean_le; [done|]. eapply Forall_impl; [exact Hloc|]. by intros ? [_ ?].
Qed.

Lemma aggregate_signal_avg_sentiment_witness : -1 <= -0.62 <= 0.
Proof.
  assert (Ha : aggregate_by_kecamatan SignalExamples.signals !! "Kedaton"%string
               = Some {| complaint_count := 2;
                         latest_reports :=
                           [report_of SignalExamples.telkomsel_kedaton;
                            report_of SignalExamples.indihome_kedaton];
                         avg_sentiment := -0.62;
                         top_providers :=
                           [("Indihome"%string, 1%Z); ("Telkomsel"%string, 1%Z)];
                         max_severity := "critical" |})
    by (vm_compute; reflexivity).
  apply (aggregate_signal_avg_sentiment SignalExamples.signals "Kedaton" _
           ltac:(repeat constructor; vm_compute; discriminate) Ha).
Defined.

End SignalAggregation.

(* ------------------------------------------------------------------ *)
(** ** The scores of the two producers, from their inputs *)

Section ProducerScores.

Import NlpProcessor SocialSignal InfraProbing.

(** C9: [get_social_score] and [get_infra_score] give every region of
    their output a score in the closed interval from 0 to 100, on every
    aggregation they can be given: the aggregation
    [aggregate_by_kecamatan] builds from any list of processed signals,
    the aggregation [aggregate_probe_by_kecamatan] builds from any list of
    probe results whose packet losses are percentages of lost packets
    (not negative), and any other aggregation whose complaint counts and
    average packet losses are not negative. *)
Theorem scores_within_0_100 :
  (∀ (processed_signals : list Signal) (kec : string) (score : Q),
     get_social_score (aggregate_by_kecamatan processed_signals) !! kec
     = Some score →
     0 <= score <= 100)
  ∧ (∀ (probe_results : list ProbeResult) (kec : string) (score : Q),
       Forall (λ r, 0 <= packet_loss_pct r) probe_results →
       get_infra_score (aggregate_probe_by_kecamatan probe_results) !! kec
       = Some score →
       0 <= score <= 100)
  ∧ (∀ (social_agg : gmap string SocialSignal.Aggregate),
       (∀ kec data,
          social_agg !! kec = Some data → (0 <= complaint_count data)%Z) →
       ∀ kec score,
         get_social_score social_agg !! kec = Some score → 0 <= score <= 100)
  ∧ (∀ (infra_agg : gmap string InfraProbing.Aggregate),
       (∀ kec data,
          infra_agg !! kec = Some data → 0 <= avg_packet_loss data) →
       ∀ kec score,
         get_infra_score infra_agg !! kec = Some score → 0 <= score <= 100).
Proof.
  assert (Hsocial : ∀ (social_agg : gmap string SocialSignal.Aggregate),
             (∀ kec data,
                social_agg !! kec = Some data
                → (0 <= complaint_count data)%Z) →
             ∀ kec score,
               get_social_score social_agg !! kec = Some score
               → 0 <= score <= 100).
  { intros social_agg Hcount kec score.
    unfold get_social_score. rewrite lookup_fmap.
    destruct (social_agg !! kec) as [data|] eqn:Hkec; [|done].
    intros [= <-]. eapply social_score_of_bounds, Hcount, Hkec. }
  assert (Hinfra : ∀ (infra_agg : gmap string InfraProbing.Aggregate),
             (∀ kec data,
                infra_agg !! kec = Some data → 0 <= avg_packet_loss data) →
             ∀ kec score,
               get_infra_score infra_agg !! kec = Some score
               → 0 <= score <= 100).
  { intros infra_agg Hloss kec score.
    unfold get_infra_score. rewrite lookup_fmap.
    destruct (infra_agg !! kec) as [data|] eqn:Hkec; [|done].
    intros [= <-]. eapply infra_score_of_bounds, Hloss, Hkec. }
  split; [|split; [|split; [exact Hsocial|exact Hinfra]]].
  - intros processed_signals. apply Hsocial. intros kec data Hkec.
    apply lookup_aggregate_signal in Hkec. destruct Hkec as (_ & _ & ->).
    cbn [signal_statistics complaint_count Raw.complaint_count]. lia.
  - intros probe_results kec score Hall. apply Hinfra.
    intros kec' data Hkec. apply lookup_aggregate_probe in Hkec.
    destruct Hkec as [_ ->]. apply avg_packet_loss_nonneg.
    apply Forall_forall. intros r [_ Hr]%list_elem_of_filter.
    by eapply Forall_forall in Hall.
Qed.

Lemma scores_within_0_100_witness :
  (∀ kec score,
     get_social_score (aggregate_by_kecamatan SignalExamples.signals)
       !! kec = Some score → 0 <= score <= 100)
  ∧ (∀ kec score,
       get_infra_score (aggregate_probe_by_kecamatan ProbeExamples.probes)
         !! kec = Some score → 0 <= score <= 100)
  ∧ (∀ kec score,
       get_social_score {[ "Kedaton"%string := Examples.three_complaints ]}
         !! kec = Some score → 0 <= score <= 100)
  ∧ (∀ kec score,
       get_infra_score {[ "Kedaton"%string := Examples.one_anchor_down ]}
         !! kec = Some score → 0 <= score <= 100).
Proof.
  destruct scores_within_0_100 as (Hsignals & Hprobes & Hsocial & Hinfra).
  split; [exact (Hsignals SignalExamples.signals)|]. split; [|split].
  - intros kec score. apply (Hprobes ProbeExamples.probes kec score).
    repeat constructor; vm_compute; discriminate.
  - apply (Hsocial {[ "Kedaton"%string := Examples.three_complaints ]}).
    intros kec data [_ <-]%lookup_singleton_Some. by vm_compute.
  - apply (Hinfra {[ "Kedaton"%string := Examples.one_anchor_down ]}).
    intros kec data [_ <-]%lookup_singleton_Some. by vm_compute.
Defined.

End ProducerScores.


(** ** Assessing the disasters *)

Section MaxMerge.

Import DisasterCorrelation.

Context {E : Type} (risk_of : E → string).

(** After a run of [merge_step], a kecamatan has an entry exactly when one
    was offered for it, and then it is one that was offered and no offer for
    it had a higher risk. *)
Lemma merge_step_spec (pairs : list (string * E)) (kec : string) :
  match foldl (merge_step risk_of) ∅ pairs !! kec with
  | None => Forall (λ p, p.1 ≠ kec) pairs
  | Some e =>
      (kec, e) ∈ pairs
      ∧ Forall (λ p, p.1 = kec
                     → (_risk_level (risk_of p.2) <= _risk_level (risk_of e))%Z)
               pairs
  end.
Proof.
  induction pairs as [|[k e'] pairs IH] using rev_ind.
  { simpl. by rewrite lookup_empty. }
  rewrite foldl_app. cbn [foldl]. set (m := foldl (merge_step risk_of) ∅ pairs) in *.
  unfold merge_step at 1. cbn [fst snd].
  destruct (decide (k = kec)) as [->|Hne].
  - destruct (m !! kec) as [old|] eqn:Hold; cbn [fmap option_fmap option_map takes_over].
    + destruct IH as [Hin Hmax].
      destruct (_risk_level (risk_of e') >? _risk_level (risk_of old))%Z eqn:Hgt.
      * rewrite lookup_insert_eq. rewrite Z.gtb_ltb, Z.ltb_lt in Hgt. split.
        -- apply elem_of_app. right. by left.
        -- apply Forall_app. split.
           ++ eapply Forall_impl; [exact Hmax|]. intros p Hp Hk.
              specialize (Hp Hk). lia.
           ++ constructor; [|done]. cbn. lia.
      * rewrite Hold. rewrite Z.gtb_ltb, Z.ltb_ge in Hgt. split.
        -- apply elem_of_app. by left.
        -- apply Forall_app. split; [done|]. constructor; [|done]. by cbn.
    + rewrite lookup_insert_eq. split.
      * apply elem_of_app. right. by left.
      * apply Forall_app. split.
        -- eapply Forall_impl; [exact IH|]. by intros p Hp Hk.
        -- constructor; [|done]. cbn. lia.
  - assert (Hsame : (if takes_over (risk_of e') (risk_of <$> m !! k)
                     then <[k:=e']> m else m) !! kec = m !! kec).
    { destruct (takes_over _ _); [by rewrite lookup_insert_ne|done]. }
    rewrite Hsame. destruct (m !! kec) as [old|].
    + destruct IH as [Hin Hmax]. split.
      * apply elem_of_app. by left.
      * apply Forall_app. split; [done|]. constructor; [|done]. by cbn.
    + apply Forall_app. split; [done|]. constructor; [|done]. by cbn.
Qed.

End MaxMerge.

Section Weather.

Import DisasterCorrelation.

(** The offers [assess_weather_risk] goes through, in its order. *)
Lemma assess_weather_risk_offers (weather_warnings : list Warning.t) :
  assess_weather_risk weather_warnings
  = foldl (merge_step WeatherRisk.risk) ∅
      (weather_warnings
         ≫= λ w, (λ kec, (kec, weather_entry w)) <$> Warning.affected_kecamatan w).
Proof.
  unfold assess_weather_risk. generalize (∅ : gmap string WeatherRisk.t).
  induction weather_warnings as [|w ws IH]; intros affected; [done|].
  cbn [foldl mbind list_bind]. rewrite foldl_app, IH. f_equal.
  generalize affected. clear.
  induction (Warning.affected_kecamatan w) as [|kec kecs IH]; intros affected;
    [done|].
  cbn [foldl fmap list_fmap]. by rewrite IH.
Qed.

Lemma weather_level_risk_recorded (level : string) :
  recorded_level (weather_level_risk level).
Proof.
  unfold weather_level_risk, recorded_level.
  repeat (destruct (_ =? _)%string; [by auto|]). by auto.
Qed.

(** X10: a kecamatan is in the weather risk map exactly when a warning names it;
    its entry is made from one of the warnings that name it, one of the
    highest risk among them (ALERT is HIGH, WARNING is MEDIUM, anything
    else LOW). *)
Theorem assess_weather_risk_spec (weather_warnings : list Warning.t)
    (kec : string) :
  let names := λ w, kec ∈ Warning.affected_kecamatan w in
  (assess_weather_risk weather_warnings !! kec = None
   ↔ Forall (λ w, ¬ names w) weather_warnings)
  ∧ (∀ entry,
       assess_weather_risk weather_warnings !! kec = Some entry →
       let w := WeatherRisk.warning_detail entry in
       w ∈ weather_warnings
       ∧ names w
       ∧ entry = weather_entry w
       ∧ recorded_level (WeatherRisk.risk entry)
       ∧ Forall (λ w', names w'
                       → (_risk_level (weather_level_risk (Warning.level w'))
                          <= _risk_level (WeatherRisk.risk entry))%Z)
                weather_warnings).
Proof.
  intros names. rewrite assess_weather_risk_offers.
  set (offers := weather_warnings ≫= _).
  assert (Hoffer : ∀ k e, (k, e) ∈ offers
                          ↔ ∃ w, w ∈ weather_warnings
                                 ∧ k ∈ Warning.affected_kecamatan w
                                 ∧ e = weather_entry w).
  { intros k e. unfold offers. rewrite list_elem_of_bind. split.
    - intros (w & Hke & Hw). apply list_elem_of_fmap in Hke as (k' & [= -> ->] & Hk).
      by exists w.
    - intros (w & Hw & Hk & ->). exists w. split; [|done].
      apply list_elem_of_fmap. by exists k. }
  pose proof (merge_step_spec WeatherRisk.risk offers kec) as Hspec.
  destruct (foldl (merge_step WeatherRisk.risk) ∅ offers !! kec) as [e|].
  - destruct Hspec as [Hin Hmax]. split.
    + split; [done|]. intros Hnone. exfalso.
      apply Hoffer in Hin as (w & Hw & Hk & _).
      by eapply Forall_forall in Hnone.
    + intros entry [= <-]. apply Hoffer in Hin as (w & Hw & Hk & ->).
      cbn [weather_entry WeatherRisk.warning_detail WeatherRisk.risk].
      split_and!; try done.
      * apply weather_level_risk_recorded.
      * apply Forall_forall. intros w' Hw' Hk'.
        assert (Hin' : (kec, weather_entry w') ∈ offers).
        { apply Hoffer. by exists w'. }
        eapply Forall_forall in Hmax; [|exact Hin']. by apply Hmax.
  - split; [|done]. split; [intros _|done].
    apply Forall_forall. intros w Hw Hk.
    assert (Hin : (kec, weather_entry w) ∈ offers).
    { apply Hoffer. by exists w. }
    eapply Forall_forall in Hspec; [|exact Hin]. by apply Hspec.
Qed.

End Weather.

Section Earthquakes.

Import DisasterCorrelation.

Context (haversine_distance :
           Py.Float → Py.Float → Py.Float → Py.Float → result (option Q))
        (format_float : Q → string).

Lemma magnitude_class_recorded (mag : Q) : recorded_level (magnitude_class mag).2.
Proof.
  unfold magnitude_class, recorded_level.
  repeat (destruct (Qle_bool _ _); [by auto|]). by auto.
Qed.

Lemma foldl_raised {A B : Type} (f : A → B → result A) (e : Exception)
    (l : list B) :
  foldl (λ acc x, acc ← acc; f acc x) (Raise e) l = Raise e.
Proof. induction l as [|x l IH]; [done|]. by cbn [foldl mbind result_bind]. Qed.

Lemma earthquake_offers_cons (item : string * MockData.KecInfo)
    (table : list (string * MockData.KecInfo))
    (eq : Earthquake.t) (eq_lat eq_lon : Py.Float) :
  earthquake_offers haversine_distance format_float (item :: table)
    eq eq_lat eq_lon
  = match haversine_distance eq_lat eq_lon
            (Py.Fin (MockData.lat item.2)) (Py.Fin (MockData.lon item.2)) with
    | Ok (Some dist) =>
        if Qle_bool dist (magnitude_class (Earthquake.magnitude eq)).1
        then (item.1, earthquake_entry format_float eq dist)
             :: earthquake_offers haversine_distance format_float table
                  eq eq_lat eq_lon
        else earthquake_offers haversine_distance format_float table
               eq eq_lat eq_lon
    | _ => earthquake_offers haversine_distance format_float table
             eq eq_lat eq_lon
    end.
Proof.
  unfold earthquake_offers. cbn [omap list_omap].
  destruct (haversine_distance eq_lat eq_lon _ _) as [[dist|]|e]; try done.
  by destruct (Qle_bool dist _).
Qed.

(** The loop over a table of kecamatan: it goes through the offers of the
    earthquake, or ends with the exception of the first distance that
    raises. *)
Lemma assess_table (table : list (string * MockData.KecInfo))
    (eq : Earthquake.t) (eq_lat eq_lon : Py.Float)
    (affected : gmap string EqRisk.t) :
  match foldl (λ affected item,
                 affected ← affected;
                 assess_kecamatan haversine_distance format_float
                   eq eq_lat eq_lon affected item)
              (Ok affected) table with
  | Ok m =>
      Forall (λ item : string * MockData.KecInfo,
                ∀ e, haversine_distance eq_lat eq_lon
                       (Py.Fin (MockData.lat item.2)) (Py.Fin (MockData.lon item.2))
                     ≠ Raise e)
             table
      ∧ m = foldl (merge_step EqRisk.risk) affected
              (earthquake_offers haversine_distance format_float
                 table eq eq_lat eq_lon)
  | Raise e =>
      Exists (λ item : string * MockData.KecInfo,
                haversine_distance eq_lat eq_lon
                  (Py.Fin (MockData.lat item.2)) (Py.Fin (MockData.lon item.2))
                = Raise e)
             table
  end.
Proof.
  revert affected.
  induction table as [|item table IH]; intros affected.
  { cbn. by split. }
  cbn [foldl mbind result_bind]. unfold assess_kecamatan at 2.
  rewrite earthquake_offers_cons.
  destruct (haversine_distance eq_lat eq_lon _ _) as [[dist|]|e] eqn:Hdist;
    cbn [mbind result_bind].
  - destruct (Qle_bool dist _) eqn:Hle; cbn [andb].
    + cbn [foldl]. unfold merge_step at 2. cbn [fst snd].
      change (EqRisk.risk (earthquake_entry format_float eq dist))
        with (magnitude_class (Earthquake.magnitude eq)).2.
      destruct (takes_over _ _).
      * specialize (IH (<[item.1 := earthquake_entry format_float eq dist]> affected)).
        destruct (foldl _ _ table) as [m|e].
        -- destruct IH as [Hall ->]. split; [|done].
           constructor; [by rewrite Hdist|done].
        -- by right.
      * specialize (IH affected). destruct (foldl _ _ table) as [m|e].
        -- destruct IH as [Hall ->]. split; [|done].
           constructor; [by rewrite Hdist|done].
        -- by right.
    + specialize (IH affected). destruct (foldl _ _ table) as [m|e].
      * destruct IH as [Hall ->]. split; [|done].
        constructor; [by rewrite Hdist|done].
      * by right.
  - specialize (IH affected). destruct (foldl _ _ table) as [m|e].
    + destruct IH as [Hall ->]. split; [|done].
      constructor; [by rewrite Hdist|done].
    + by right.
  - rewrite foldl_raised. by left.
Qed.

Lemma list_elem_of_earthquake_offers (table : list (string * MockData.KecInfo))
    (eq : Earthquake.t) (eq_lat eq_lon : Py.Float) (k : string) (e : EqRisk.t) :
  (k, e) ∈ earthquake_offers haversine_distance format_float table eq eq_lat eq_lon
  ↔ ∃ info dist,
      (k, info) ∈ table
      ∧ haversine_distance eq_lat eq_lon
          (Py.Fin (MockData.lat info)) (Py.Fin (MockData.lon info))
        = Ok (Some dist)
      ∧ dist <= (magnitude_class (Earthquake.magnitude eq)).1
      ∧ e = earthquake_entry format_float eq dist.
Proof.
  unfold earthquake_offers. rewrite list_elem_of_omap. split.
  - intros ([k' info] & Hin & Hsome). cbn [fst snd] in Hsome.
    destruct (haversine_distance eq_lat eq_lon _ _) as [[dist|]|?] eqn:Hdist;
      try done.
    destruct (Qle_bool dist _) eqn:Hle; [|done].
    injection Hsome as -> <-. exists info, dist.
    split_and!; [done|done|by apply Qle_bool_iff|done].
  - intros (info & dist & Hin & Hdist & Hle & ->). exists (k, info).
    split; [done|]. cbn [fst snd]. rewrite Hdist.
    apply Qle_bool_iff in Hle. by rewrite Hle.
Qed.

(** The offers of an earthquake, none when a coordinate is missing. *)
Lemma assess_one_earthquake_spec (eq : Earthquake.t) (eq_lat eq_lon : Py.Float)
    (affected : gmap string EqRisk.t) :
  Earthquake.latitude eq = Some eq_lat →
  Earthquake.longitude eq = Some eq_lon →
  match assess_one_earthquake haversine_distance format_float
          eq eq_lat eq_lon affected with
  | Ok m =>
      (∀ kec e, ¬ measures haversine_distance eq kec (Raise e))
      ∧ m = foldl (merge_step EqRisk.risk) affected
              (earthquake_offers haversine_distance format_float
                 MockData.KECAMATAN_DB eq eq_lat eq_lon)
  | Raise e => ∃ kec, measures haversine_distance eq kec (Raise e)
  end.
Proof.
  intros Hlat Hlon. unfold assess_one_earthquake, measures.
  pose proof (assess_table MockData.KECAMATAN_DB eq eq_lat eq_lon affected)
    as Htable.
  revert Htable. generalize MockData.KECAMATAN_DB. intros table Htable.
  destruct (foldl _ _ table) as [m|e].
  - destruct Htable as [Hall ->]. split; [|done].
    intros kec e (info & lat' & lon' & Hin & Hlat' & Hlon' & Hraise).
    rewrite Hlat in Hlat'. rewrite Hlon in Hlon'.
    injection Hlat' as <-. injection Hlon' as <-.
    eapply Forall_forall in Hall; [|exact Hin]. by apply (Hall e).
  - apply Exists_exists in Htable as ([kec info] & Hin & Hraise).
    by exists kec, info, eq_lat, eq_lon.
Qed.

(** The run over the earthquakes: it raises at the first one without
    coordinates or with a distance that raises, and goes through the
    offers of the others. *)
Lemma assess_earthquakes_from_spec (affected : gmap string EqRisk.t)
    (earthquakes : list Earthquake.t) :
  match assess_earthquakes_from haversine_distance format_float
          affected earthquakes with
  | Ok m =>
      Forall has_coordinates earthquakes
      ∧ (∀ eq kec e,
           eq ∈ earthquakes → ¬ measures haversine_distance eq kec (Raise e))
      ∧ m = foldl (merge_step EqRisk.risk) affected
              (earthquakes ≫= λ eq,
                 match Earthquake.latitude eq, Earthquake.longitude eq with
                 | Some eq_lat, Some eq_lon =>
                     earthquake_offers haversine_distance format_float
                       MockData.KECAMATAN_DB eq eq_lat eq_lon
                 | _, _ => []
                 end)
  | Raise e =>
      (Exists (λ eq, ¬ has_coordinates eq) earthquakes
       ∧ exc_class e = "TypeError"%string)
      ∨ ∃ eq kec,
          eq ∈ earthquakes ∧ measures haversine_distance eq kec (Raise e)
  end.
Proof.
  revert affected. induction earthquakes as [|eq eqs IH]; intros affected.
  { cbn. split_and!; [done| |done]. by intros eq kec e ?%not_elem_of_nil. }
  cbn [assess_earthquakes_from mbind list_bind].
  destruct (Earthquake.latitude eq) as [eq_lat|] eqn:Hlat.
  2: { left. split; [|done]. left. unfold has_coordinates. rewrite Hlat.
       by intros [[? [=]] _]. }
  destruct (Earthquake.longitude eq) as [eq_lon|] eqn:Hlon.
  2: { left. split; [|done]. left. unfold has_coordinates. rewrite Hlon.
       by intros [_ [? [=]]]. }
  pose proof (assess_one_earthquake_spec eq eq_lat eq_lon affected Hlat Hlon)
    as Hone.
  destruct (assess_one_earthquake _ _ eq eq_lat eq_lon affected)
    as [affected'|e]; cbn [mbind result_bind].
  2: { right. destruct Hone as [kec Hkec]. exists eq, kec. split; [left|done]. }
  destruct Hone as [Hnone ->].
  specialize (IH (foldl (merge_step EqRisk.risk) affected
                    (earthquake_offers haversine_distance format_float
                       MockData.KECAMATAN_DB eq eq_lat eq_lon))).
  destruct (assess_earthquakes_from _ _ _ eqs) as [m|e].
  - destruct IH as (Hall & Hok & ->). split; [|split].
    + constructor; [|done]. unfold has_coordinates. rewrite Hlat, Hlon. eauto.
    + intros eq' kec e [->|Hin]%elem_of_cons; [apply Hnone|by apply Hok].
    + by rewrite foldl_app.
  - destruct IH as [[Hex Hclass]|(eq' & kec & Hin & Hraise)].
    + left. split; [by right|done].
    + right. exists eq', kec. split; [by right|done].
Qed.

Lemma assess_earthquake_risk_offers (earthquakes : list Earthquake.t) :
  ∃ offers : list (string * EqRisk.t),
    (∀ k e,
       (k, e) ∈ offers
       ↔ ∃ eq dist,
           eq ∈ earthquakes
           ∧ measures haversine_distance eq k (Ok (Some dist))
           ∧ dist <= (magnitude_class (Earthquake.magnitude eq)).1
           ∧ e = earthquake_entry format_float eq dist)
    ∧ match assess_earthquake_risk haversine_distance format_float
              earthquakes with
      | Ok m =>
          Forall has_coordinates earthquakes
          ∧ (∀ eq kec e,
               eq ∈ earthquakes
               → ¬ measures haversine_distance eq kec (Raise e))
          ∧ m = foldl (merge_step EqRisk.risk) ∅ offers
      | Raise e =>
          (Exists (λ eq, ¬ has_coordinates eq) earthquakes
           ∧ exc_class e = "TypeError"%string)
          ∨ ∃ eq kec,
              eq ∈ earthquakes ∧ measures haversine_distance eq kec (Raise e)
      end.
Proof.
  eexists. split; [|apply (assess_earthquakes_from_spec ∅ earthquakes)].
  intros k e. rewrite list_elem_of_bind. unfold measures. split.
  - intros (eq & Hke & Heq).
    destruct (Earthquake.latitude eq) as [eq_lat|] eqn:Hlat;
      [|by apply not_elem_of_nil in Hke].
    destruct (Earthquake.longitude eq) as [eq_lon|] eqn:Hlon;
      [|by apply not_elem_of_nil in Hke].
    apply list_elem_of_earthquake_offers in Hke as (info & dist & Hin & Hd & Hle & ->).
    exists eq, dist. split_and!; [done| |done|done].
    by exists info, eq_lat, eq_lon.
  - intros (eq & dist & Heq & (info & eq_lat & eq_lon & Hin & Hlat & Hlon & Hd)
            & Hle & ->).
    exists eq. split; [|done]. rewrite Hlat, Hlon.
    apply list_elem_of_earthquake_offers. by exists info, dist.
Qed.

(** X11: [assess_earthquake_risk] returns a map exactly when every
    earthquake has both coordinates and no distance raises; otherwise it
    raises a TypeError for a missing coordinate, or what
    [haversine_distance] raised (a ValueError for an infinite
    coordinate).  An entry of the map is made from one of the earthquakes,
    for a kecamatan of KECAMATAN_DB whose distance is a number within the
    radius of its magnitude; its risk is LOW, MEDIUM or HIGH, and no
    earthquake that reaches the kecamatan has a higher one. *)
Theorem assess_earthquake_risk_spec (earthquakes : list Earthquake.t) :
  let assessed :=
    assess_earthquake_risk haversine_distance format_float earthquakes in
  let reaches := λ (eq : Earthquake.t) (kec : string) (dist : Q),
    measures haversine_distance eq kec (Ok (Some dist))
    ∧ dist <= (magnitude_class (Earthquake.magnitude eq)).1 in
  let fails := λ (eq : Earthquake.t) (e : Exception),
    ∃ kec, measures haversine_distance eq kec (Raise e) in
  ((∃ m, assessed = Ok m)
   ↔ Forall has_coordinates earthquakes
     ∧ ∀ eq e, eq ∈ earthquakes → ¬ fails eq e)
  ∧ (∀ e, assessed = Raise e →
          (exc_class e = "TypeError"%string
           ∧ Exists (λ eq, ¬ has_coordinates eq) earthquakes)
          ∨ ∃ eq, eq ∈ earthquakes ∧ fails eq e)
  ∧ (∀ m kec entry,
       assessed = Ok m → m !! kec = Some entry →
       let eq := EqRisk.earthquake_detail entry in
       eq ∈ earthquakes
       ∧ (∃ dist, reaches eq kec dist
                  ∧ entry = earthquake_entry format_float eq dist)
       ∧ recorded_level (EqRisk.risk entry)
       ∧ ∀ eq' dist',
           eq' ∈ earthquakes → reaches eq' kec dist' →
           (_risk_level (magnitude_class (Earthquake.magnitude eq')).2
            <= _risk_level (EqRisk.risk entry))%Z).
Proof.
  intros assessed reaches fails.
  destruct (assess_earthquake_risk_offers earthquakes) as (offers & Hoffer & Hspec).
  change (assess_earthquake_risk haversine_distance format_float earthquakes)
    with assessed in Hspec.
  clearbody assessed.
  split_and!.
  - destruct assessed as [m|e].
    + destruct Hspec as (Hall & Hok & _). split; [|by exists m].
      intros _. split; [done|]. intros eq e Heq [kec Hkec]. by eapply Hok.
    + split; [by intros [? ?]|]. intros [Hall Hnone]. exfalso.
      destruct Hspec as [[Hex _]|(eq & kec & Heq & Hraise)].
      * apply Exists_exists in Hex as (eq & Heq & Hno).
        by eapply Forall_forall in Hall.
      * apply (Hnone eq e Heq). by exists kec.
  - intros e He. rewrite He in Hspec.
    destruct Hspec as [[Hex Hclass]|(eq & kec & Heq & Hraise)].
    + by left.
    + right. exists eq. split; [done|]. by exists kec.
  - intros m kec entry Hm Hentry eq. rewrite Hm in Hspec.
    destruct Hspec as (_ & _ & ->).
    pose proof (merge_step_spec EqRisk.risk offers kec) as Hmerge.
    rewrite Hentry in Hmerge. destruct Hmerge as [Hin Hmax].
    apply Hoffer in Hin as (eq0 & dist & Heq0 & Hmeasured & Hle & Hentry').
    subst eq. rewrite Hentry'.
    split_and!.
    + done.
    + exists dist. by split.
    + apply magnitude_class_recorded.
    + intros eq' dist' Heq' [Hmeasured' Hle'].
      eapply Forall_forall in Hmax.
      2: { apply Hoffer. by exists eq', dist'. }
      rewrite Hentry' in Hmax. by apply Hmax.
Qed.

End Earthquakes.

(** ** The combined risk map, entry by entry *)

Section CombinedRisk.

Import DisasterCorrelation.

(** X12: a kecamatan is in the combined map exactly when it is in one of the two
    assessments; its entry carries both assessments' entries unchanged, the
    causes in the order earthquake, weather, and as risk the higher of the
    two (LOW when neither has a recorded level). *)
Theorem combined_risk_map_entries (eq_risk : gmap string EqRisk.t)
    (weather_risk : gmap string WeatherRisk.t) (kec : string) :
  let combined := combined_risk_map eq_risk weather_risk in
  let level_of := λ risk : option string, default 0%Z (_risk_level <$> risk) in
  (combined !! kec = None ↔ eq_risk !! kec = None ∧ weather_risk !! kec = None)
  ∧ (∀ entry,
       combined !! kec = Some entry →
       Risk.eq_detail entry = eq_risk !! kec
       ∧ Risk.weather_detail entry = weather_risk !! kec
       ∧ Risk.causes entry
         = option_list (EqRisk.cause <$> eq_risk !! kec)
           ++ option_list (WeatherRisk.cause <$> weather_risk !! kec)
       ∧ _risk_level (Risk.risk entry)
         = Z.max (Z.max 1 (level_of (EqRisk.risk <$> eq_risk !! kec)))
                 (level_of (WeatherRisk.risk <$> weather_risk !! kec))).
Proof.
  intros combined level_of. unfold combined.
  rewrite lookup_combined_risk_map. split.
  - case_decide as Hin; rewrite elem_of_union, !elem_of_dom in Hin.
    + split; [done|]. intros [He Hw]. rewrite He, Hw in Hin.
      by destruct Hin as [[? [=]]|[? [=]]].
    + split; [intros _|done].
      destruct (eq_risk !! kec), (weather_risk !! kec); try done;
        exfalso; apply Hin; eauto.
  - intros entry. case_decide as Hin; [|done]. intros [= <-].
    unfold combined_entry.
    assert (Hlevel : ∀ r, (0 <= _risk_level r)%Z).
    { intros r. unfold _risk_level.
      repeat (destruct (_ =? _)%string; [lia|]). lia. }
    assert (Hupdate : ∀ cur risk,
               _risk_level (if (_risk_level risk >? _risk_level cur)%Z
                            then risk else cur)
               = Z.max (_risk_level cur) (_risk_level risk)).
    { intros cur risk. rewrite Z.gtb_ltb.
      destruct (_risk_level cur <? _risk_level risk)%Z eqn:Hlt;
        [apply Z.ltb_lt in Hlt|apply Z.ltb_ge in Hlt]; lia. }
    destruct (eq_risk !! kec) as [e|]; destruct (weather_risk !! kec) as [w|];
      cbn [Risk.eq_detail Risk.weather_detail Risk.causes Risk.risk
           fmap option_fmap option_map option_list default level_of];
      (split_and!; [done..|]); rewrite ?Hupdate;
      change (_risk_level "LOW") with 1%Z;
      try pose proof (Hlevel (EqRisk.risk e));
      try pose proof (Hlevel (WeatherRisk.risk w)); cbv [id]; lia.
Qed.

End CombinedRisk.

(** ** The status of every region *)

Section Statuses.

Import DisasterCorrelation App.

Lemma KECAMATAN_DB_keys_NoDup : NoDup MockData.KECAMATAN_DB.*1.
Proof. apply (bool_decide_unpack _). vm_compute. exact I. Qed.

Lemma dom_compute_kecamatan_status (data : Snapshot) :
  dom (compute_kecamatan_status data) = list_to_set MockData.KECAMATAN_DB.*1.
Proof.
  apply set_eq. intros kec. rewrite elem_of_dom, elem_of_list_to_set.
  unfold compute_kecamatan_status.
  rewrite (lookup_foldl_insert (region_status data)).
  case_decide; [by split; eauto|]. rewrite lookup_empty. split; [by intros [? ?]|done].
Qed.

Lemma size_compute_kecamatan_status (data : Snapshot) :
  size (compute_kecamatan_status data) = 38%nat.
Proof.
  rewrite <- size_dom, dom_compute_kecamatan_status.
  rewrite size_list_to_set by apply KECAMATAN_DB_keys_NoDup. reflexivity.
Qed.

(** X13: [compute_kecamatan_status] has an entry for each of the 38 kecamatan of
    KECAMATAN_DB and for no other name, whatever regions the producers
    mention. *)
Theorem statuses_cover_kecamatan_db (data : Snapshot) :
  (∀ kec,
     is_Some (compute_kecamatan_status data !! kec)
     ↔ kec ∈ MockData.KECAMATAN_DB.*1)
  ∧ size (compute_kecamatan_status data) = 38%nat.
Proof.
  split.
  - intros kec.
    by rewrite <- elem_of_dom, dom_compute_kecamatan_status, elem_of_list_to_set.
  - apply size_compute_kecamatan_status.
Qed.

Lemma status_cases (data : Snapshot) (kec : string) :
  let r := region_status data kec in
  (status r = "CRITICAL"%string ∧ color r = "#eb3349"%string)
  ∨ (status r = "WARNING"%string ∧ color r = "#F2994A"%string)
  ∨ (status r = "NORMAL"%string ∧ color r = "#38ef7d"%string).
Proof.
  intros r. unfold r, region_status.
  destruct (_ || _ && (_ || _)); [by left|].
  destruct (_ || _ || _); [right; by left|right; by right].
Qed.

Lemma three_way_count {A : Type} (f : A → string) (l : list A) :
  Forall (λ x, f x = "CRITICAL"%string ∨ f x = "WARNING"%string
               ∨ f x = "NORMAL"%string) l →
  (length (filter (λ x, f x = "CRITICAL"%string) l)
   + length (filter (λ x, f x = "WARNING"%string) l)
   + length (filter (λ x, f x = "NORMAL"%string) l))%nat
  = length l.
Proof.
  induction 1 as [|x l Hx Hl IH]; [done|].
  destruct Hx as [Hx | [Hx | Hx]].
  - rewrite filter_cons_True by done.
    rewrite !filter_cons_False by (rewrite Hx; done). simpl. lia.
  - rewrite (filter_cons_True (λ x, f x = "WARNING"%string)) by done.
    rewrite !filter_cons_False by (rewrite Hx; done). simpl. lia.
  - rewrite (filter_cons_True (λ x, f x = "NORMAL"%string)) by done.
    rewrite !filter_cons_False by (rewrite Hx; done). simpl. lia.
Qed.

(** X14: the three counters of the dashboard always add up to 38: every
    kecamatan is counted once, as CRITICAL, WARNING or NORMAL. *)
Theorem status_counters_add_up (data : Snapshot) :
  let statuses := compute_kecamatan_status data in
  (count_status statuses "CRITICAL" + count_status statuses "WARNING"
   + count_status statuses "NORMAL")%Z = 38%Z.
Proof.
  intros statuses. unfold count_status.
  rewrite <- !Nat2Z.inj_add, three_way_count.
  - rewrite length_fmap, length_map_to_list.
    unfold statuses. by rewrite size_compute_kecamatan_status.
  - apply Forall_fmap, Forall_forall. intros [kec r] Hin. cbn.
    apply elem_of_map_to_list in Hin. unfold statuses in Hin.
    unfold compute_kecamatan_status in Hin.
    rewrite (lookup_foldl_insert (region_status data)) in Hin.
    case_decide; [|by rewrite lookup_empty in Hin]. injection Hin as <-.
    destruct (status_cases data kec) as [[-> _] | [[-> _] | [-> _]]]; auto.
Qed.

Lemma combined_of_bounds (social infra : Q) (disaster_risk : string) :
  social * 0.4 + infra * 0.4 <= combined_of social infra disaster_risk
  ∧ combined_of social infra disaster_risk <= social * 0.4 + infra * 0.4 + 20.
Proof.
  unfold combined_of.
  destruct (disaster_risk =? "HIGH")%string; [lra|].
  destruct (disaster_risk =? "MEDIUM")%string; lra.
Qed.

Lemma Qlt_bool_false (a b : Q) : b <= a → Py.Qlt_bool a b = false.
Proof.
  intros Hle. destruct (Py.Qlt_bool a b) eqn:E; [|done].
  apply Qlt_bool_iff in E. lra.
Qed.

(** X15: what the scores alone decide, whatever the disaster risk: with both
    scores at 75 or more a kecamatan is NORMAL; with a social score of at
    least 40 and an infra score of at least 35 it is not CRITICAL; and it
    is NORMAL only if both scores are at least 60.  Scores between 0 and
    100 give a combined score between 0 and 100. *)
Theorem status_from_scores (data : Snapshot) (kec : string) (r : RegionStatus) :
  compute_kecamatan_status data !! kec = Some r →
  (75 <= social_score r → 75 <= infra_score r → status r = "NORMAL"%string)
  ∧ (40 <= social_score r → 35 <= infra_score r → status r ≠ "CRITICAL"%string)
  ∧ (status r = "NORMAL"%string → 60 <= social_score r ∧ 60 <= infra_score r)
  ∧ (0 <= social_score r <= 100 → 0 <= infra_score r <= 100
     → 0 <= combined_score r <= 100).
Proof.
  unfold compute_kecamatan_status.
  rewrite (lookup_foldl_insert (region_status data)).
  case_decide; [|by rewrite lookup_empty]. intros [= <-].
  destruct (fields_region_status data kec) as (Hc & Hs & Hi & _).
  rewrite Hc, Hs, Hi, status_region_status.
  set (social := default 100 (social_scores data !! kec)).
  set (infra := default 100 (infra_scores data !! kec)).
  set (risk := disaster_risk_in _ kec).
  set (has := has_disaster_in _ kec).
  destruct (combined_of_bounds social infra risk) as [Hlo Hhi].
  split_and!.
  - intros Hsoc Hinf.
    rewrite !Qlt_bool_false by lra. by cbn.
  - intros Hsoc Hinf.
    rewrite (Qlt_bool_false _ 30), (Qlt_bool_false social 40) by lra. cbn.
    by destruct (_ || _ || _).
  - destruct (_ || _ && (_ || _)); [done|].
    destruct (Py.Qlt_bool _ 60) eqn:H1; [done|].
    destruct (Py.Qlt_bool social 60) eqn:H2; [done|].
    destruct (Py.Qlt_bool infra 60) eqn:H3; [done|]. intros _.
    split; apply Qnot_lt_le; intros Hlt; apply Qlt_bool_iff in Hlt; congruence.
  - intros Hsoc Hinf. apply round_1_bounds; lra.
Qed.

Lemma status_from_scores_witness :
  ∃ r,
    compute_kecamatan_status Examples.kedaton_hit !! "Natar"%string = Some r
    ∧ status r = "NORMAL"%string.
Proof.
  eexists. split; [vm_compute; reflexivity|].
  apply (status_from_scores Examples.kedaton_hit "Natar" _
           ltac:(vm_compute; reflexivity)).
  - vm_compute. discriminate.
  - vm_compute. discriminate.
Defined.

End Statuses.

(** ** The store over its lifetime *)

Section StoreLifetime.

Import DisasterCorrelation DataStore.

Context `{Producers}.

Lemma run_snoc (self : t) (history : list event) (ev : event) :
  run self (history ++ [ev]) = step (run self history) ev.
Proof. unfold run. by rewrite foldl_app. Qed.





Lemma interval_step (self : t) (ev : event) :
  _refresh_interval (step self ev)
  = match ev with
    | ev_set_refresh_interval seconds => Z.max 60 seconds
    | _ => _refresh_interval self
    end.
Proof.
  destruct ev; cbn [step]; try done.
  - destruct (build_new_data w) as [new_data|e] eqn:Hw.
    + rewrite (fetch_try_published _ _ _ Hw).
      by destruct (next_refresh_after _ _).
    + by rewrite (fetch_try_failed _ _ _ Hw).
  - unfold force_refresh. by destruct (_is_fetching self).
Qed.

(** X17: the floor of 60 seconds is applied by [set_refresh_interval] only: the
    interval in force is the larger of 60 and the argument of the last
    [set_refresh_interval], and, as long as there was none, the argument
    the store was created with, whatever it is.  No other access changes
    it, not even a second [DataStore(...)] call. *)
Theorem refresh_interval_in_force (refresh_interval : Z) (history : list event) :
  _refresh_interval (run (fresh refresh_interval) history)
  = match last_interval_set history with
    | Some seconds => Z.max 60 seconds
    | None => refresh_interval
    end.
Proof.
  unfold last_interval_set.
  induction history as [|ev history IH] using rev_ind; [done|].
  rewrite run_snoc, interval_step, omap_app.
  destruct ev; cbn [omap list_omap]; rewrite ?app_nil_r; try done.
  by rewrite last_snoc.
Qed.

(** X18: changing the interval does not move the refresh that is already
    scheduled.  The next cycle that gets all its data schedules with the
    new interval, the larger of 60 and the argument; when that time is
    beyond what a [datetime] holds, the cycle has replaced the snapshot
    and [last_refresh] but leaves the old [next_refresh] and the count,
    and shows the OverflowError. *)
Theorem set_refresh_interval_not_retroactive (seconds : Z) (w : World)
    (self : t) (new_data : Snapshot) :
  build_new_data w = Ok new_data →
  let changed := store (set_refresh_interval seconds self) in
  let after := store (_do_fetch w changed) in
  _next_refresh changed = _next_refresh self
  ∧ _last_refresh changed = _last_refresh self
  ∧ _data after = Some new_data
  ∧ _last_refresh after = Some (datetime_now w)
  ∧ match next_refresh_after (datetime_now w) (Z.max 60 seconds) with
    | Ok next_refresh =>
        next_refresh = (datetime_now w + Z.max 60 seconds * 1000000)%Z
        ∧ _next_refresh after = Some next_refresh
        ∧ _fetch_count after = (_fetch_count self + 1)%Z
        ∧ _last_error after = None
    | Raise e =>
        _next_refresh after = _next_refresh self
        ∧ _fetch_count after = _fetch_count self
        ∧ _last_error after = Some (exc_str e)
    end.
Proof.
  intros Hok changed after. unfold after, changed, _do_fetch.
  cbn [store set_refresh_interval]. rewrite (fetch_try_published _ _ _ Hok).
  cbn [fetch_begin _refresh_interval].
  destruct (next_refresh_after _ _) as [next_refresh|e] eqn:Hnext;
    cbn [fetch_finally _next_refresh _last_refresh _data _fetch_count
         _last_error]; [|done].
  apply next_refresh_after_Ok in Hnext as [Hnext _]. done.
Qed.

(** X19: [stop] only sets the stop flag, and calling it again changes
    nothing.  A background loop that finds the flag set, at its start or
    after a wait, runs no further fetch and returns: whatever wake-ups
    follow, the store stays as it is. *)
Theorem stop_ends_background_loop (self : t) (wakes : list (bool * World)) :
  store (stop (store (stop self))) = store (stop self)
  ∧ _background_loop wakes (store (stop self))
    = {| returned := Ok (); store := store (stop self); effects := [] |}
  ∧ (∀ w, _background_loop ((true, w) :: wakes) self =
          {| returned := Ok ();
             store := if _stop_event self then self else store (stop self);
             effects := [] |})
  ∧ _fetch_count (store (stop self)) = _fetch_count self
  ∧ _data (store (stop self)) = _data self.
Proof.
  split_and!; try done.
  all: try by destruct wakes as [|[? ?] ?].
  all: intros w; cbn [_background_loop]; by destruct (_stop_event self).
Qed.




End StoreLifetime.

Lemma set_refresh_interval_not_retroactive_witness :
  let changed :=
    DataStore.store (DataStore.set_refresh_interval 10 (DataStore.fresh 300)) in
  let after :=
    DataStore.store (@DataStore._do_fetch Replay.producers Replay.quiet changed) in
  let too_long :=
    DataStore.store
      (DataStore.set_refresh_interval 1000000000000 (DataStore.fresh 300)) in
  let stale :=
    DataStore.store (@DataStore._do_fetch Replay.producers Replay.quiet too_long) in
  DataStore._next_refresh changed = None
  ∧ DataStore._next_refresh after = Some 1700000060000000%Z
  ∧ DataStore._fetch_count after = 1%Z
  ∧ DataStore._last_refresh stale = Some 1700000000000000%Z
  ∧ DataStore._next_refresh stale = None
  ∧ DataStore._fetch_count stale = 0%Z
  ∧ DataStore._last_error stale = Some "date value out of range"%string.
Proof.
  destruct (@set_refresh_interval_not_retroactive Replay.producers 10
              Replay.quiet (DataStore.fresh 300) _ eq_refl)
    as (Hchanged & _ & _ & _ & Hafter).
  assert (Hnext : @DataStore.next_refresh_after
                    (@DataStore.datetime_now Replay.producers Replay.quiet)
                    (Z.max 60 10)
                  = Ok 1700000060000000%Z) by reflexivity.
  rewrite Hnext in Hafter. destruct Hafter as (_ & Hafter & Hcount & _).
  destruct (@set_refresh_interval_not_retroactive Replay.producers 1000000000000
              Replay.quiet (DataStore.fresh 300) _ eq_refl)
    as (_ & _ & _ & Hlast & Hstale).
  assert (Hlate : @DataStore.next_refresh_after
                    (@DataStore.datetime_now Replay.producers Replay.quiet)
                    (Z.max 60 1000000000000)
                  = Raise (DataStore.OverflowError "date value out of range"))
    by reflexivity.
  rewrite Hlate in Hstale. destruct Hstale as (Hnone & Hzero & Herr).
  split_and!; [exact Hchanged|exact Hafter|exact Hcount|exact Hlast
              |exact Hnone|exact Hzero|exact Herr].
Defined.




(** ** Keeping the first element of each key *)

Section KeepFirst.

Context {A K : Type} (key : A → K) (same : K → K → bool).
Hypothesis same_sym : ∀ a b, same a b = same b a.
Hypothesis same_trans : ∀ a b c, same a b = true → same b c = true → same a c = true.








End KeepFirst.

(** ** modules/bmkg_client.py *)

Section Bmkg.

Import DisasterCorrelation BmkgClient.



Lemma has_both_coordinates_spec (q : Earthquake.t) :
  has_both_coordinates q = true ↔ has_coordinates q.
Proof.
  unfold has_both_coordinates, has_coordinates.
  destruct (Earthquake.latitude q), (Earthquake.longitude q); split;
    try done.
  all: try by (intros _; split; eexists).
  all: try by intros [_ [? [=]]].
  all: by intros [[? [=]] _].
Qed.



End Bmkg.

(** ** The weather warnings and the risk map of a cycle *)

Section WeatherFeed.

Import DisasterCorrelation BmkgClient.

Context (lower : string → string) (str : Json.t → string)
        (now_isoformat : nat → string).

Lemma weather_item_plain (warnings : list Warning.t) (item : Json.t) :
  Forall plain_warning warnings →
  Forall plain_warning (weather_item lower str now_isoformat warnings item).
Proof.
  intros Hall. unfold weather_item. destruct item; try done.
  destruct (existsb _ _); [|done].
  apply Forall_app. split; [done|]. constructor; [|done].
  unfold plain_warning. cbn. auto.
Qed.

Lemma parse_bmkg_weather_plain (data : Json.t) (warnings : list Warning.t) :
  Forall plain_warning warnings →
  Forall plain_warning
    (_parse_bmkg_weather lower str now_isoformat data warnings).
Proof.
  unfold _parse_bmkg_weather. destruct data as [| | | |?|areas]; try done.
  revert warnings.
  induction areas as [|[area_key area_data] areas IH]; intros warnings Hall;
    [done|].
  cbn [foldl]. apply IH. destruct area_data as [| | | |items|?]; try done.
  revert warnings Hall.
  induction items as [|item items IHi]; intros warnings Hall; [done|].
  cbn [foldl]. by apply IHi, weather_item_plain.
Qed.

Lemma warning_item_plain (warnings : list Warning.t) (item : Json.t) :
  Forall plain_warning warnings →
  Forall plain_warning (warning_item lower str now_isoformat warnings item).
Proof.
  intros Hall. unfold warning_item. destruct (Py.contains _ _); [|done].
  apply Forall_app. split; [done|]. constructor; [|done].
  unfold plain_warning. cbn. auto.
Qed.

Lemma parse_bmkg_warning_plain (data : Json.t) (warnings : list Warning.t) :
  Forall plain_warning warnings →
  Forall plain_warning
    (_parse_bmkg_warning lower str now_isoformat data warnings).
Proof.
  unfold _parse_bmkg_warning. destruct data as [| | | |?|fields]; try done.
  destruct (default _ _) as [| | | |items|?]; try done.
  revert warnings.
  induction items as [|item items IH]; intros warnings Hall; [done|].
  cbn [foldl]. by apply IH, warning_item_plain.
Qed.

Lemma fetch_weather_warnings_plain (cuaca_lampung warning : option Json.t) :
  Forall plain_warning
    (fetch_weather_warnings_lampung lower str now_isoformat
       cuaca_lampung warning).
Proof.
  unfold fetch_weather_warnings_lampung.
  destruct warning as [w|]; [apply parse_bmkg_warning_plain|];
    (destruct cuaca_lampung as [c|]; [by apply parse_bmkg_weather_plain|done]).
Qed.

Lemma assess_weather_risk_unnamed (weather_warnings : list Warning.t) :
  Forall (λ w, Warning.affected_kecamatan w = []) weather_warnings →
  assess_weather_risk weather_warnings = ∅.
Proof.
  unfold assess_weather_risk. generalize (∅ : gmap string WeatherRisk.t).
  induction 1 as [|w ws Hw Hws IH]; [done|].
  cbn [foldl]. by rewrite Hw.
Qed.

(** X23: every warning [fetch_weather_warnings_lampung] returns has the level
    WARNING and names no kecamatan, whatever the two BMKG documents hold;
    so [assess_weather_risk] marks no kecamatan for them. *)
Theorem weather_warnings_mark_no_kecamatan (cuaca_lampung warning : option Json.t) :
  let warnings :=
    fetch_weather_warnings_lampung lower str now_isoformat
      cuaca_lampung warning in
  Forall (λ w, Warning.level w = "WARNING"%string
               ∧ Warning.affected_kecamatan w = []
               ∧ (Warning.source w = "BMKG Cuaca"%string
                  ∨ Warning.source w = "BMKG Warning"%string))
         warnings
  ∧ assess_weather_risk warnings = ∅.
Proof.
  intros warnings.
  pose proof (fetch_weather_warnings_plain cuaca_lampung warning) as Hplain.
  split; [exact Hplain|].
  apply assess_weather_risk_unnamed.
  eapply Forall_impl; [exact Hplain|]. by intros w (_ & ? & _).
Qed.

Context (haversine_distance :
           Py.Float → Py.Float → Py.Float → Py.Float → result (option Q))
        (format_float : Q → string).

(** What [get_combined_disaster_risk] makes of the responses: the
    earthquakes that reach the assessment all have coordinates, and the
    weather warnings name no kecamatan. *)
Lemma combined_disaster_risk_cases (responses : DisasterFeed.Responses) :
  let fetched :=
    DisasterFeed.fetch_disaster_data lower str now_isoformat responses in
  ∃ offers : list (string * EqRisk.t),
    (∀ k e,
       (k, e) ∈ offers
       ↔ ∃ eq dist,
           eq ∈ earthquakes fetched
           ∧ measures haversine_distance eq k (Ok (Some dist))
           ∧ dist <= (magnitude_class (Earthquake.magnitude eq)).1
           ∧ e = earthquake_entry format_float eq dist)
    ∧ match DisasterFeed.combined_disaster_risk lower str now_isoformat
              haversine_distance format_float responses with
      | Ok data =>
          (∀ eq kec e,
             eq ∈ earthquakes fetched
             → ¬ measures haversine_distance eq kec (Raise e))
          ∧ data = {| risk_map :=
                        combined_risk_map
                          (foldl (merge_step EqRisk.risk) ∅ offers) ∅;
                      metadata := fetched |}
      | Raise e =>
          ∃ eq kec,
            eq ∈ earthquakes fetched
            ∧ measures haversine_distance eq kec (Raise e)
      end.
Proof.
  intros fetched.
  unfold DisasterFeed.combined_disaster_risk, get_combined_disaster_risk.
  fold fetched. cbn [mbind result_bind].
  destruct (assess_earthquake_risk_offers haversine_distance format_float
              (earthquakes fetched)) as (offers & Hoffer & Hspec).
  exists offers. split; [exact Hoffer|].
  destruct (assess_earthquake_risk haversine_distance format_float
              (earthquakes fetched)) as [eq_risk|e] eqn:Heq.
  - destruct Hspec as (_ & Hok & ->).
    assert (Hweather : assess_weather_risk (weather_warnings fetched) = ∅).
    { apply assess_weather_risk_unnamed.
      eapply Forall_impl; [apply fetch_weather_warnings_plain|].
      by intros w (_ & ? & _). }
    cbn [mret result_ret]. rewrite Hweather. split; [exact Hok|].
    by destruct fetched.
  - destruct Hspec as [[Hex _]|Hraise]; [|exact Hraise].
    exfalso. apply Exists_exists in Hex as (q & Hq & Hno). apply Hno.
    unfold fetched in Hq.
    cbn [DisasterFeed.fetch_disaster_data earthquakes] in Hq.
    unfold fetch_all_earthquakes in Hq.
    rewrite sort_desc_perm in Hq.
    apply list_elem_of_filter in Hq as [Hq _].
    by apply has_both_coordinates_spec.
Qed.

(** X24: a cycle's disaster data never fails for a missing coordinate:
    the earthquakes that reach the assessment all have both.  It fails
    only with what [haversine_distance] raises for one of them (a
    ValueError for an infinite coordinate), and returns when no distance
    raises.  The risk map it returns holds earthquake entries only: each
    entry has the risk and the one cause of an earthquake that was
    fetched, and no weather detail. *)
Theorem risk_map_of_responses (responses : DisasterFeed.Responses) :
  let fetched :=
    DisasterFeed.fetch_disaster_data lower str now_isoformat responses in
  let outcome :=
    DisasterFeed.combined_disaster_risk lower str now_isoformat
      haversine_distance format_float responses in
  (∀ e, outcome = Raise e →
        ∃ eq kec,
          eq ∈ earthquakes fetched
          ∧ measures haversine_distance eq kec (Raise e))
  ∧ ((∀ eq kec e,
        eq ∈ earthquakes fetched
        → ¬ measures haversine_distance eq kec (Raise e))
     → ∃ data, outcome = Ok data)
  ∧ (∀ data,
       outcome = Ok data →
       metadata data = fetched
       ∧ ∀ kec entry,
           risk_map data !! kec = Some entry →
           Risk.weather_detail entry = None
           ∧ ∃ e,
               Risk.eq_detail entry = Some e
               ∧ Risk.causes entry = [EqRisk.cause e]
               ∧ Risk.risk entry = EqRisk.risk e
               ∧ EqRisk.earthquake_detail e ∈ earthquakes fetched
               ∧ kec ∈ MockData.KECAMATAN_DB.*1).
Proof.
  intros fetched outcome.
  destruct (combined_disaster_risk_cases responses) as (offers & Hoffer & Hcases).
  fold fetched in Hoffer, Hcases. fold outcome in Hcases. clearbody outcome.
  split; [|split].
  - intros e ->. exact Hcases.
  - intros Hnone. destruct outcome as [data|e]; [by exists data|].
    exfalso. destruct Hcases as (eq & kec & Heq & Hraise). by eapply Hnone.
  - intros data ->. destruct Hcases as [_ ->]. cbn [metadata risk_map].
    split; [done|].
    intros kec entry. rewrite lookup_combined_risk_map.
    case_decide as Hin; [|done]. intros [= <-].
    rewrite dom_empty_L, elem_of_union, elem_of_dom in Hin.
    destruct Hin as [[e He]|Hin]; [|by apply not_elem_of_empty in Hin].
    pose proof He as He'.
    pose proof (merge_step_spec EqRisk.risk offers kec) as Hmerge.
    rewrite He in Hmerge. destruct Hmerge as [Hoffered _].
    apply Hoffer in Hoffered
      as (q & dist & Hq & (info & _ & _ & Hinfo & _) & _ & Hentry).
    assert (Hkec : kec ∈ MockData.KECAMATAN_DB.*1).
    { apply list_elem_of_fmap. by exists (kec, info). }
    assert (Hdetail : EqRisk.earthquake_detail e = q) by (by rewrite Hentry).
    assert (Hrisk : recorded_level (EqRisk.risk e)).
    { rewrite Hentry. apply magnitude_class_recorded. }
    clear Hoffer Hinfo Hentry He.
    generalize dependent (MockData.KECAMATAN_DB.*1). intros keys Hkec.
    unfold combined_entry. rewrite He', lookup_empty.
    cbn [Risk.weather_detail Risk.eq_detail Risk.causes Risk.risk app].
    split; [done|]. exists e. rewrite Hdetail. split_and!; try done.
    by destruct Hrisk as [-> | [-> | ->]].
Qed.

End WeatherFeed.

(** ** modules/nlp_processor.py *)

Section NlpLocations.

Import NlpProcessor.

Context (lower : string → string).

Lemma extract_location_loop (text_lower : string) (names : list string) :
  let found := foldl (extract_location lower text_lower) [] names in
  (found = []
   ↔ Forall (λ name, Py.contains (lower name) text_lower = false) names)
  ∧ Forall (names_location lower text_lower names) found.
Proof.
  induction names as [|name names IH] using rev_ind.
  { cbn. split; [|done]. split; [constructor|done]. }
  rewrite foldl_app. cbn [foldl].
  set (found := foldl (extract_location lower text_lower) [] names) in *.
  cbn zeta in IH. destruct IH as [Hempty Hfound].
  assert (Hold : Forall (names_location lower text_lower (names ++ [name])) found).
  { eapply Forall_impl; [exact Hfound|].
    intros loc (n & Hn & Hc & ->). exists n. split; [|done].
    apply elem_of_app. by left. }
  unfold extract_location.
  destruct (Py.contains (lower name) text_lower) eqn:Hname.
  - assert (Hnot : ¬ Forall (λ n, Py.contains (lower n) text_lower = false)
                     (names ++ [name])).
    { intros [_ Hn]%Forall_app. rewrite Forall_singleton in Hn. congruence. }
    destruct (is_subset lower _ found) eqn:Hsub.
    + split; [|done]. split; [|done]. intros ->. by cbn in Hsub.
    + split.
      * split; [|done]. by intros [_ ?]%app_eq_nil.
      * apply Forall_app. split.
        -- apply Forall_forall. intros loc [_ Hloc]%list_elem_of_filter.
           by eapply Forall_forall in Hold.
        -- apply Forall_singleton. exists name. split; [|done].
           apply elem_of_app. right. left.
  - split; [|done]. rewrite Hempty, Forall_app, Forall_singleton. tauto.
Qed.

Lemma alias_not_Unknown (k v : string) :
  LOCATION_ALIASES !! k = Some v → v ≠ "Unknown"%string.
Proof.
  unfold LOCATION_ALIASES. intros Hk%elem_of_list_to_map_2.
  repeat (apply elem_of_cons in Hk as [[= -> ->]|Hk]; [done|]).
  by apply not_elem_of_nil in Hk.
Qed.

Lemma gazetteer_not_Unknown :
  Forall (λ name, name ≠ "Unknown"%string) LOCATION_GAZETTEER.
Proof.
  assert (Hl : Forall (λ name, name ≠ "Unknown"%string) LOCATION_GAZETTEER_listed).
  { unfold LOCATION_GAZETTEER_listed. repeat (constructor; [done|]). constructor. }
  apply Forall_forall. intros name Hname. unfold LOCATION_GAZETTEER in Hname.
  rewrite sort_desc_perm in Hname. by eapply Forall_forall in Hl.
Qed.

Lemma names_location_not_Unknown (text_lower loc : string) :
  names_location lower text_lower LOCATION_GAZETTEER loc →
  loc ≠ "Unknown"%string.
Proof.
  intros (name & Hname & _ & ->).
  destruct (LOCATION_ALIASES !! lower name) as [v|] eqn:Hv; cbn [default].
  - by eapply alias_not_Unknown.
  - pose proof gazetteer_not_Unknown as Hg. by eapply Forall_forall in Hg.
Qed.

Lemma extract_locations_found (text : string) :
  (extract_locations lower text = []
   ↔ Forall (λ name, Py.contains (lower name) (lower text) = false)
            LOCATION_GAZETTEER)
  ∧ Forall (λ loc, names_location lower (lower text) LOCATION_GAZETTEER loc
                   ∧ loc ≠ "Unknown"%string)
           (extract_locations lower text).
Proof.
  unfold extract_locations.
  destruct (extract_location_loop (lower text) LOCATION_GAZETTEER) as [He Hf].
  split; [exact He|].
  eapply Forall_impl; [exact Hf|]. intros loc Hloc. split; [done|].
  by eapply names_location_not_Unknown.
Qed.

(** X25: [extract_locations] finds nothing exactly when no name of the gazetteer
    occurs in the lower-cased text; each location it returns stands for a
    name that occurs, an alias being reported under its official name, and
    none is "Unknown". *)
Theorem extract_locations_spec (text : string) :
  let locations := extract_locations lower text in
  (locations = []
   ↔ Forall (λ name, Py.contains (lower name) (lower text) = false)
            LOCATION_GAZETTEER)
  ∧ Forall (λ loc, names_location lower (lower text) LOCATION_GAZETTEER loc
                   ∧ loc ≠ "Unknown"%string)
           locations.
Proof.
  intros locations. apply extract_locations_found.
Qed.

End NlpLocations.

Section Nlp.

Import NlpProcessor.

Context (KEYWORDS : Keywords) (lower normalize_text : string → string).

Lemma keyword_score_hits (weight : Z) (keywords : list string)
    (text_lower : string) (score : Z) :
  keyword_score lower weight keywords text_lower score
  = (score + weight * keyword_hits lower keywords text_lower)%Z.
Proof.
  unfold keyword_score, keyword_hits. revert score.
  induction keywords as [|kw kws IH]; intros score; cbn [foldl].
  { simpl. lia. }
  rewrite IH. destruct (Py.contains (lower kw) text_lower) eqn:Hkw.
  - rewrite filter_cons_True by done. cbn [length]. lia.
  - rewrite filter_cons_False by congruence. lia.
Qed.

Lemma keyword_hits_nonneg (keywords : list string) (text_lower : string) :
  (0 <= keyword_hits lower keywords text_lower)%Z.
Proof. unfold keyword_hits. lia. Qed.

(** X26: the decision of [classify_issue] in terms of the number of keywords of
    each kind found in the normalised text, a non-digital keyword counting
    twice: a text with a power-outage keyword is never "non_digital" or
    "unknown", and one without any keyword is "unknown". *)
Theorem classify_issue_table (text : string) :
  let hits := λ keywords, keyword_hits lower keywords (normalize_text text) in
  let digital := hits (digital_issue_keywords KEYWORDS) in
  let non_digital := hits (non_digital_keywords KEYWORDS) in
  let power := hits (power_outage_keywords KEYWORDS) in
  let issue := classify_issue KEYWORDS lower normalize_text text in
  (issue = "non_digital"%string ↔ (digital < 2 * non_digital)%Z ∧ power = 0%Z)
  ∧ (issue = "power_outage"%string ↔ (0 < power)%Z ∧ digital = 0%Z)
  ∧ (issue = "digital"%string
     ↔ (0 < digital)%Z ∧ ((0 < power)%Z ∨ (2 * non_digital <= digital)%Z))
  ∧ (issue = "unknown"%string
     ↔ digital = 0%Z ∧ non_digital = 0%Z ∧ power = 0%Z).
Proof.
  intros hits digital non_digital power issue.
  unfold issue, classify_issue. rewrite !keyword_score_hits.
  fold (hits (digital_issue_keywords KEYWORDS)).
  fold (hits (non_digital_keywords KEYWORDS)).
  fold (hits (power_outage_keywords KEYWORDS)).
  fold digital non_digital power.
  assert (Hd : (0 <= digital)%Z) by apply keyword_hits_nonneg.
  assert (Hn : (0 <= non_digital)%Z) by apply keyword_hits_nonneg.
  assert (Hp : (0 <= power)%Z) by apply keyword_hits_nonneg.
  clearbody digital non_digital power. clear hits issue.
  rewrite !Z.add_0_l, !Z.mul_1_l.
  destruct (Z.gtb_spec (2 * non_digital) digital),
    (Z.eqb_spec power 0), (Z.gtb_spec power 0),
    (Z.eqb_spec digital 0), (Z.gtb_spec digital 0);
    cbn [andb orb]; (split_and!; (split; [try done; try lia|try done]));
    try lia; try (intros; exfalso; lia).
Qed.

Lemma word_score_unmatched (step : Q) (words : list string)
    (text_lower : string) (score : Q) :
  Forall (λ word, Py.contains word text_lower = false) words →
  word_score step words text_lower score = score.
Proof.
  unfold word_score. intros Hall. revert score.
  induction Hall as [|word words Hword Hwords IH]; intros score; [done|].
  cbn [foldl]. by rewrite Hword.
Qed.

Lemma Py_min_le (a b : Q) : Py.min a b <= a.
Proof.
  unfold Py.min. destruct (Py.Qlt_bool b a) eqn:E; [|lra].
  apply Qlt_bool_iff in E. lra.
Qed.

Lemma Py_max_ge (a b : Q) : a <= Py.max a b.
Proof.
  unfold Py.max. destruct (Py.Qlt_bool a b) eqn:E; [|lra].
  apply Qlt_bool_iff in E. lra.
Qed.

Lemma Py_max_le (a b hi : Q) : a <= hi → b <= hi → Py.max a b <= hi.
Proof. intros Ha Hb. unfold Py.max. by destruct (Py.Qlt_bool a b). Qed.

Lemma calculate_sentiment_bounds (text : string) :
  -1 <= calculate_sentiment normalize_text text <= 0.
Proof.
  unfold calculate_sentiment. set (score := Py.round _ 2).
  pose proof (Py_max_ge (-1.0) (Py.min 0.0 score)) as Hlo.
  pose proof (Py_min_le 0.0 score) as Hmin.
  assert (Hhi : Py.max (-1.0) (Py.min 0.0 score) <= 0)
    by (apply Py_max_le; lra).
  split; lra.
Qed.

(** X27: [calculate_sentiment] stays between -1 and 0, and a text with none of
    the listed words gets the baseline -0.3. *)
Theorem calculate_sentiment_range (text : string) :
  let score := calculate_sentiment normalize_text text in
  -1 <= score <= 0
  ∧ (Forall (λ word, Py.contains word (normalize_text text) = false)
            (severe_words ++ moderate_words ++ mild_words ++ intensifier_words)
     → score == -0.3).
Proof.
  intros score. split; [apply calculate_sentiment_bounds|].
  intros (Hs & Hm & Hmild & Hi)%Forall_app%(proj1 (and_iff_compat_l _ (Forall_app _ _ _)))
    %(proj1 (and_iff_compat_l _ (and_iff_compat_l _ (Forall_app _ _ _)))).
  unfold score, calculate_sentiment.
  rewrite !word_score_unmatched by done. by vm_compute.
Qed.

Lemma detect_provider_loop (text_lower : string)
    (items : list (string * list string)) :
  let matches := λ item : string * list string,
    existsb (λ kw, Py.contains (lower kw) text_lower) item.2 = true in
  let detected := foldl (detect_provider lower text_lower) [] items in
  NoDup detected ∧ ∀ p, p ∈ detected ↔ p ∈ (filter matches items).*1.
Proof.
  intros matches. induction items as [|item items IH] using rev_ind.
  { cbn. split; [constructor|]. done. }
  rewrite foldl_app, filter_app, fmap_app. cbn [foldl].
  set (detected := foldl (detect_provider lower text_lower) [] items) in *.
  cbn zeta in IH. destruct IH as [Hnodup Hin].
  unfold detect_provider.
  destruct (existsb _ item.2) eqn:Hitem.
  - rewrite (filter_cons_True matches item []) by done. rewrite filter_nil.
    case_bool_decide as Hknown.
    + split; [done|]. intros p. rewrite elem_of_app, Hin.
      cbn [fmap list_fmap]. rewrite list_elem_of_singleton.
      split; [by left|]. intros [?| ->]; [done|]. by apply Hin.
    + split.
      * apply NoDup_app. split_and!; [done| |apply NoDup_singleton].
        intros p Hp ->%list_elem_of_singleton. done.
      * intros p. rewrite !elem_of_app, Hin. done.
  - rewrite (filter_cons_False matches item [])
      by (unfold matches; by rewrite Hitem).
    rewrite filter_nil, app_nil_r. done.
Qed.

(** X28: [extract_provider] never returns an empty list and never the same
    provider twice: it lists the providers of which a keyword occurs in
    the text, and is ["Unknown"] when there is none. *)
Theorem extract_provider_spec (text : string) :
  let text_lower := normalize_text text in
  let matches := λ item : string * list string,
    existsb (λ kw, Py.contains (lower kw) text_lower) item.2 = true in
  let named := (filter matches (provider_keywords KEYWORDS)).*1 in
  let providers := extract_provider KEYWORDS lower normalize_text text in
  providers ≠ []
  ∧ NoDup providers
  ∧ (named = [] → providers = ["Unknown"%string])
  ∧ (named ≠ [] → ∀ p, p ∈ providers ↔ p ∈ named).
Proof.
  intros text_lower matches named providers.
  destruct (detect_provider_loop text_lower (provider_keywords KEYWORDS))
    as [Hnodup Hin].
  fold matches in Hin. fold named in Hin.
  unfold providers, extract_provider. fold text_lower.
  destruct (foldl (detect_provider lower text_lower) [] _) as [|p ps] eqn:Hd.
  - split_and!; [done|apply NoDup_singleton|done|].
    intros Hne. destruct named as [|q named']; [done|].
    exfalso. eapply not_elem_of_nil. apply Hin. left.
  - split_and!; [done|done| |done].
    intros Hnone. exfalso. rewrite Hnone in Hin.
    eapply not_elem_of_nil. apply Hin. left.
Qed.

Lemma classify_issue_labels (text : string) :
  classify_issue KEYWORDS lower normalize_text text
  ∈ ["non_digital"; "power_outage"; "digital"; "unknown"]%string.
Proof.
  unfold classify_issue.
  repeat (match goal with |- context [if ?c then _ else _] => destruct c end);
    by repeat constructor.
Qed.

Lemma extract_provider_nonempty (text : string) :
  extract_provider KEYWORDS lower normalize_text text ≠ [].
Proof.
  unfold extract_provider. by destruct (foldl _ _ _).
Qed.

(** X29: what every processed complaint satisfies: a sentiment between -1 and
    0; one of the four issue types, a digital issue exactly for "digital"
    and "power_outage"; one of the three severities; at least one
    provider, the primary one being the first; and a primary location that
    is the first location found, "Unknown" exactly when none was found. *)
Theorem process_complaint_contract (now : string) (raw_complaint : RawComplaint) :
  let s := process_complaint KEYWORDS lower normalize_text now raw_complaint in
  -1 <= sentiment_score s <= 0
  ∧ issue_type s ∈ ["non_digital"; "power_outage"; "digital"; "unknown"]%string
  ∧ (is_digital_issue s = true
     ↔ issue_type s = "digital"%string ∨ issue_type s = "power_outage"%string)
  ∧ NlpProcessor.severity s ∈ ["critical"; "warning"; "normal"]%string
  ∧ head (providers_detected s) = Some (primary_provider s)
  ∧ (primary_location s = "Unknown"%string ↔ locations_detected s = [])
  ∧ (locations_detected s ≠ []
     → head (locations_detected s) = Some (primary_location s)).
Proof.
  intros s. unfold s, process_complaint.
  cbn [sentiment_score issue_type is_digital_issue NlpProcessor.severity
       providers_detected primary_provider primary_location locations_detected].
  set (text := default ""%string (raw_text raw_complaint)).
  split; [apply calculate_sentiment_bounds|].
  split; [apply classify_issue_labels|].
  split.
  { rewrite bool_decide_eq_true, !elem_of_cons, elem_of_nil. tauto. }
  split.
  { unfold determine_severity.
    destruct (existsb _ (severity_keywords_critical KEYWORDS));
      [by repeat constructor|].
    destruct (existsb _ (severity_keywords_warning KEYWORDS));
      by repeat constructor. }
  split.
  { pose proof (extract_provider_nonempty text) as Hne.
    by destruct (extract_provider KEYWORDS lower normalize_text text). }
  split.
  - destruct (extract_locations_found lower text) as [_ Hall].
    destruct (extract_locations lower text) as [|loc locs]; [done|].
    apply Forall_cons in Hall as [[_ Hloc] _]. done.
  - by destruct (extract_locations lower text).
Qed.

End Nlp.

Lemma process_complaint_contract_witness :
  head (NlpProcessor.locations_detected
          (NlpProcessor.process_complaint NlpExamples.keywords NlpExamples.lower
             NlpExamples.lower NlpExamples.clock NlpExamples.blackout))
  = Some "Lampung Selatan"%string.
Proof.
  destruct (process_complaint_contract NlpExamples.keywords NlpExamples.lower
              NlpExamples.lower NlpExamples.clock NlpExamples.blackout)
    as (_ & _ & _ & _ & _ & _ & Hhead).
  rewrite Hhead; [by vm_compute|]. by vm_compute.
Defined.

(** ** From raw complaints to the aggregation *)

Section ComplaintsToAggregates.

Import NlpProcessor SocialSignal.

Context (KEYWORDS : Keywords) (lower normalize_text : string → string).

Lemma mean_sentiment_bounds (l : list Q) :
  l ≠ [] → Forall (λ x, -1 <= x <= 0) l →
  -1 <= Py.round (Py.sum l / Py.len l) 2 <= 0.
Proof.
  intros Hne Hl. split.
  - apply (round_ge _ (-1)). change (inject_Z (-1)) with (-1).
    apply mean_ge; [done|]. eapply Forall_impl; [exact Hl|]. by intros ? [? _].
  - apply (round_le _ 0). change (inject_Z 0) with 0.
    apply mean_le; [done|]. eapply Forall_impl; [exact Hl|]. by intros ? [_ ?].
Qed.

Lemma counter_incr_nonempty (x : string) (c : list (string * Z)) :
  Py.counter_incr x c ≠ [].
Proof. destruct c as [|[y n] c]; simpl; [done|]. by destruct (x =? y)%string. Qed.

Lemma Counter_nonempty (l : list string) : l ≠ [] → Py.Counter l ≠ [].
Proof.
  destruct l as [|x l _] using rev_ind; [done|]. intros _.
  unfold Py.Counter. rewrite foldl_app. apply counter_incr_nonempty.
Qed.

Lemma most_common_nonempty (n : nat) (c : list (string * Z)) :
  c ≠ [] → Py.most_common (S n) c ≠ [].
Proof.
  intros Hc. unfold Py.most_common.
  pose proof (sort_desc_perm (λ a b : string * Z, (a.2 <=? b.2)%Z) c) as Hperm.
  destruct (Py.sort_desc _ c) as [|y ys]; [|done].
  apply Permutation_nil_l in Hperm. done.
Qed.

(** X30: whatever the raw complaints, each entry that [aggregate_by_kecamatan]
    builds from [process_batch] has an average sentiment between -1 and 0
    and at least one top provider, and its key is the official name of a
    gazetteer name that occurs in the text of one of the complaints. *)
Theorem processed_batch_aggregates (raw_complaints : list (string * RawComplaint))
    (kec : string) (a : Aggregate) :
  aggregate_by_kecamatan
    (process_batch KEYWORDS lower normalize_text raw_complaints) !! kec
  = Some a →
  -1 <= avg_sentiment a <= 0
  ∧ top_providers a ≠ []
  ∧ ∃ c, c ∈ raw_complaints
         ∧ names_location lower (lower (default ""%string (raw_text c.2)))
             LOCATION_GAZETTEER kec.
Proof.
  intros Ha. apply lookup_aggregate_signal in Ha as (Hkec & Hne & ->).
  set (processed := process_batch KEYWORDS lower normalize_text raw_complaints)
    in *.
  set (located := filter _ processed) in *.
  assert (Hfrom : ∀ s, s ∈ located →
            primary_location s = kec
            ∧ ∃ c, c ∈ raw_complaints
                   ∧ s = process_complaint KEYWORDS lower normalize_text c.1 c.2).
  { intros s [[_ Hs] Hin]%list_elem_of_filter. split; [done|].
    unfold processed, process_batch in Hin.
    apply list_elem_of_fmap in Hin as (c & -> & Hc). by exists c. }
  cbn [signal_statistics avg_sentiment top_providers Raw.sentiments Raw.providers].
  destruct located as [|s located'] eqn:Hlocated; [done|].
  destruct (Hfrom s) as [Hprimary (c & Hc & Hs)]; [left|].
  split; [|split].
  - assert (Hall : Forall (λ x, -1 <= x <= 0)
                     (sentiment_score <$> s :: located')).
    { apply Forall_fmap, Forall_forall. intros s' Hs'.
      destruct (Hfrom s' Hs') as [_ (c' & _ & ->)].
      apply calculate_sentiment_bounds. }
    by apply mean_sentiment_bounds.
  - apply most_common_nonempty, Counter_nonempty. cbn [mbind list_bind].
    rewrite Hs. cbn [process_complaint providers_detected].
    pose proof (extract_provider_nonempty KEYWORDS lower normalize_text
                  (default ""%string (raw_text c.2))) as Hp.
    intros [Hnil _]%app_eq_nil. done.
  - exists c. split; [done|].
    destruct (extract_locations_found lower (default ""%string (raw_text c.2)))
      as [_ Hall].
    assert (Hhead : default "Unknown"%string
                      (head (extract_locations lower
                               (default ""%string (raw_text c.2)))) = kec).
    { rewrite <- Hprimary, Hs. unfold process_complaint.
      by cbn [primary_location]. }
    revert Hall Hhead.
    generalize (extract_locations lower (default ""%string (raw_text c.2))).
    intros [|loc locs] Hall Hhead; simpl in Hhead.
    + congruence.
    + subst loc. by apply Forall_cons in Hall as [[? _] _].
Qed.

End ComplaintsToAggregates.

Lemma processed_batch_aggregates_witness :
  ∃ a,
    SocialSignal.aggregate_by_kecamatan
      (NlpProcessor.process_batch NlpExamples.keywords NlpExamples.lower
         NlpExamples.lower NlpExamples.raw_complaints)
      !! "Lampung Selatan"%string = Some a
    ∧ -1 <= SocialSignal.avg_sentiment a <= 0
    ∧ SocialSignal.top_providers a = [("Unknown"%string, 1%Z)].
Proof.
  assert (Ha : SocialSignal.aggregate_by_kecamatan
                 (NlpProcessor.process_batch NlpExamples.keywords
                    NlpExamples.lower NlpExamples.lower
                    NlpExamples.raw_complaints)
                 !! "Lampung Selatan"%string
               = Some {| SocialSignal.complaint_count := 1;
                         SocialSignal.latest_reports :=
                           [{| SocialSignal.time := NlpExamples.clock;
                               SocialSignal.text :=
                                 "Mati lampu di Lamsel, jalan macet";
                               SocialSignal.provider := "Unknown";
                               SocialSignal.severity := "normal" |}];
                         SocialSignal.avg_sentiment := -0.30;
                         SocialSignal.top_providers := [("Unknown"%string, 1%Z)];
                         SocialSignal.max_severity := "normal" |})
    by (vm_compute; reflexivity).
  eexists. split; [exact Ha|].
  split; [|reflexivity].
  exact (proj1 (processed_batch_aggregates NlpExamples.keywords
                  NlpExamples.lower NlpExamples.lower
                  NlpExamples.raw_complaints "Lampung Selatan" _ Ha)).
Defined.
